(** * A RAG chat front end: the request routes, the search client, the
      index-creation script and the page

    A shallow embedding of the request handlers of the chat application,
    of the functions that decide whether the search-cluster client
    verifies TLS certificates, of the client singleton, of the script that
    creates the index, and of the handlers of the page.

    - [Semantic]: the direct route (embed, k-NN search, context assembly,
      generation), [src/unnamed/part_000].
    - [Chat]: the delegate route (forward to Langflow, normalise its answer),
      [src/frontend/src/app/api/chat/route.ts].
    - [OpensearchTs], [CreateIndexJs], [OpensearchClientTs]: the three
      [getRejectUnauthorized] functions of the repository.
    - [SearchClient], [SearchClientAlt]: the two [getOpenSearchClient]
      singletons, [src/frontend/src/lib/opensearch.ts] and the module that
      follows the script.
    - [IndexScript]: [src/frontend/scripts/create-opensearch-index.js].
    - [Page]: [src/frontend/src/app/page.tsx].

    Conventions of the embedding.

    - A JavaScript string is a [string]: the UTF-8 bytes of its code
      points, a lone surrogate as the three bytes of its code point. [trim]
      strips the white space and the line terminators of the language, in
      their encodings of one, two and three bytes; [length] and [substring]
      count UTF-16 code units; [toLowerCase] acts on the ASCII letters,
      which decides every comparison the code makes, since no literal it
      compares against holds a letter that a character outside ASCII
      lower-cases to.
    - A JavaScript number is a binary64 [float]; numbers the code computes
      from an index or a length go through [of_nat].
    - A value of type [any] (a parsed JSON body) is a [value]; property
      access, truthiness, iteration and string conversion follow the
      language, and an access that raises a [TypeError] in the engine is a
      [Throw] here.
    - [await]ed calls to the outside (the request body, the embedding and
      chat providers, [fetch]) are answered by a [World]; every call leaves
      an [event] in the handler's trace.
    - Built-ins whose result is not determined by the repository
      ([JSON.parse], [JSON.stringify], number formatting, base64, the
      message of the error for a response status that is refused) are the
      fields of the class [Engine]. *)

From Stdlib Require Import String Ascii List ZArith Bool Lia.
From Stdlib Require Import Numbers.DecimalString.
From Stdlib Require Import Numbers.Cyclic.Int63.Uint63 Floats.PrimFloat.
Import ListNotations.
Set Warnings "-register-all,-inexact-float".
Local Open Scope list_scope.
Local Open Scope string_scope.

(* ================================================================= *)
(** * Part I: definitions *)
(* ================================================================= *)

(** ** Strings *)

Module Str.

(** The line feed and the double quote, which the literals of the source
    contain. *)
Definition LF : string := String (ascii_of_nat 10) EmptyString.
Definition DQ : string := String (ascii_of_nat 34) EmptyString.

(** [c.toLowerCase()] on one code unit. *)
Definition lower_ascii (c : ascii) : ascii :=
  let n := nat_of_ascii c in
  if (65 <=? n)%nat && (n <=? 90)%nat then ascii_of_nat (n + 32) else c.

(** [s.toLowerCase()]. *)
Fixpoint toLowerCase (s : string) : string :=
  match s with
  | EmptyString => EmptyString
  | String c r => String (lower_ascii c) (toLowerCase r)
  end.

(** White space as [trim] sees it ([WhiteSpace] and [LineTerminator] of the
    language), by the UTF-8 encoding of the code point. One byte: TAB, LF,
    VT, FF, CR and the space. *)
Definition white1 (c : ascii) : bool :=
  let n := nat_of_ascii c in
  ((9 <=? n)%nat && (n <=? 13)%nat) || (n =? 32)%nat.

(** Two bytes: U+00A0, the no-break space ([C2 A0]). *)
Definition white2 (c d : ascii) : bool :=
  (nat_of_ascii c =? 194)%nat && (nat_of_ascii d =? 160)%nat.

(** Three bytes: U+1680 ([E1 9A 80]), U+2000 to U+200A ([E2 80 80] to
    [E2 80 8A]), U+2028 and U+2029 ([E2 80 A8], [E2 80 A9]), U+202F
    ([E2 80 AF]), U+205F ([E2 81 9F]), U+3000 ([E3 80 80]) and U+FEFF, the
    byte-order mark ([EF BB BF]). *)
Definition white3 (c d e : ascii) : bool :=
  let x := nat_of_ascii c in
  let y := nat_of_ascii d in
  let z := nat_of_ascii e in
  ((x =? 225) && (y =? 154) && (z =? 128))%nat ||
  ((x =? 226) && (y =? 128) &&
   (((128 <=? z) && (z <=? 138)) || (z =? 168) || (z =? 169) || (z =? 175)))%nat ||
  ((x =? 226) && (y =? 129) && (z =? 159))%nat ||
  ((x =? 227) && (y =? 128) && (z =? 128))%nat ||
  ((x =? 239) && (y =? 187) && (z =? 191))%nat.

(** What follows the first code point of [s] when that is white space. *)
Definition white_prefix (s : string) : option string :=
  match s with
  | EmptyString => None
  | String c r =>
      if white1 c then Some r
      else
        match r with
        | EmptyString => None
        | String d r1 =>
            if white2 c d then Some r1
            else
              match r1 with
              | EmptyString => None
              | String e r2 => if white3 c d e then Some r2 else None
              end
        end
  end.

(** [s.trimStart()]. *)
Fixpoint trimStart (s : string) : string :=
  match s with
  | EmptyString => EmptyString
  | String c r =>
      if white1 c then trimStart r
      else
        match r with
        | EmptyString => s
        | String d r1 =>
            if white2 c d then trimStart r1
            else
              match r1 with
              | EmptyString => s
              | String e r2 => if white3 c d e then trimStart r2 else s
              end
        end
  end.

(** [s] holds white space only. *)
Definition blank (s : string) : bool :=
  match trimStart s with
  | EmptyString => true
  | _ => false
  end.

(** [s.trimEnd()]: [s] without its longest suffix of white space. *)
Fixpoint trimEnd (s : string) : string :=
  match s with
  | EmptyString => EmptyString
  | String c r => if blank s then EmptyString else String c (trimEnd r)
  end.

(** [s.trim()]. *)
Definition trim (s : string) : string := trimEnd (trimStart s).

(** [s.startsWith(p)]. *)
Definition startsWith (s p : string) : bool := String.prefix p s.

(** [s.includes(sub)]. *)
Fixpoint includes (s sub : string) : bool :=
  String.prefix sub s ||
  match s with
  | EmptyString => false
  | String _ r => includes r sub
  end.

(** [s.replace(/\/+$/, '')]: the string without its trailing slashes. *)
Fixpoint strip_trailing_slashes (s : string) : string :=
  match s with
  | EmptyString => EmptyString
  | String c r =>
      match strip_trailing_slashes r with
      | EmptyString => if Ascii.eqb c "/"%char then EmptyString else String c EmptyString
      | r' => String c r'
      end
  end.

(** The first [n] bytes of [s]: [s.slice(0, n)] for an [n] that
    [s.indexOf] of an ASCII character gave, counted in bytes. *)
Definition substring0 (n : nat) (s : string) : string := String.substring 0 n s.

(** The UTF-16 code units of the code point whose encoding begins with the
    byte [c]: one below U+10000, two above, none for a continuation byte. *)
Definition units (c : ascii) : nat :=
  let n := nat_of_ascii c in
  if (n <? 128)%nat then 1
  else if (n <? 192)%nat then 0
  else if (n <? 240)%nat then 1
  else 2.

(** The code points of [s], each as a string: what iterating over [s]
    visits. A byte that continues a code point stays with the byte
    before it. *)
Fixpoint code_points (s : string) : list string :=
  match s with
  | EmptyString => []
  | String c r =>
      match code_points r with
      | following :: rest =>
          if (match following with
              | String d _ => units d =? 0
              | EmptyString => false
              end)%nat
          then String c following :: rest
          else String c EmptyString :: following :: rest
      | [] => [String c EmptyString]
      end
  end.

(** [s.length]. *)
Fixpoint length16 (s : string) : nat :=
  match s with
  | EmptyString => 0
  | String c r => units c + length16 r
  end.

(** The high surrogate of the code point above U+FFFF whose encoding begins
    with the bytes [c], [d] and [e], as the three bytes of its code point. *)
Definition high_surrogate (c d e : ascii) : string :=
  let top := (nat_of_ascii c mod 8) * 256 + (nat_of_ascii d mod 64) * 4 +
             (nat_of_ascii e mod 64) / 16 - 64 in
  String (ascii_of_nat 237)
    (String (ascii_of_nat (160 + (top / 64) mod 16))
       (String (ascii_of_nat (128 + top mod 64)) EmptyString)).

(** [s.substring(0, n)]: the first [n] code units of [s]; a cut between
    the two units of a code point leaves its high surrogate. *)
Fixpoint substring16 (n : nat) (s : string) : string :=
  match s with
  | EmptyString => EmptyString
  | String c r =>
      match units c with
      | O => String c (substring16 n r)
      | u =>
          if (u <=? n)%nat then String c (substring16 (n - u) r)
          else if (n =? 1)%nat
          then match r with
               | String d (String e _) => high_surrogate c d e
               | _ => EmptyString
               end
          else EmptyString
      end
  end.

(** The decimal numeral of a natural number, as a template literal prints an
    index or a length. *)
Definition dec (n : nat) : string := NilZero.string_of_uint (Nat.to_uint n).

(** The decimal numeral of an integer (an HTTP status). *)
Definition decZ (z : Z) : string := NilZero.string_of_int (Z.to_int z).

(** [xs.join(sep)] on strings. *)
Definition join (sep : string) (xs : list string) : string := String.concat sep xs.

(** [s] is truthy: it is not the empty string. *)
Definition nonempty (s : string) : bool := negb (s =? "").

End Str.

(** ** The environment of the process *)

(** [process.env]: a variable is a string, or [undefined] when unset. *)
Definition Env : Type := string -> option string.

(** [process.env.X || d]. *)
Definition env_or (env : Env) (x d : string) : string :=
  match env x with
  | Some v => if Str.nonempty v then v else d
  | None => d
  end.

(** [process.env.X ?? d]. *)
Definition env_nullish (env : Env) (x d : string) : string :=
  match env x with
  | Some v => v
  | None => d
  end.

(** ** TLS verification: [frontend/src/lib/opensearch.ts] *)

Module OpensearchTs.

Definition getRejectUnauthorized (env : Env) : bool :=
  let raw := Str.toLowerCase (env_nullish env "OPENSEARCH_SSL_REJECT_UNAUTHORIZED" "true") in
  negb (raw =? "false") && negb (raw =? "0") && negb (raw =? "no").

End OpensearchTs.

(** ** TLS verification: [frontend/scripts/create-opensearch-index.js] *)

Module CreateIndexJs.

Definition getRejectUnauthorized (env : Env) : bool :=
  let sslVerify := Str.toLowerCase (env_or env "OPENSEARCH_SSL_VERIFY" "") in
  if (sslVerify =? "false") || (sslVerify =? "0") || (sslVerify =? "no") then false else
  let raw := Str.toLowerCase (env_or env "OPENSEARCH_SSL_REJECT_UNAUTHORIZED" "") in
  if (raw =? "false") || (raw =? "0") || (raw =? "no") then false else
  if negb (match env "NODE_ENV" with Some v => v =? "production" | None => false end) then
    let url := Str.toLowerCase (Str.trim (env_or env "OPENSEARCH_URL" "")) in
    if Str.startsWith url "https://" then false else true
  else true.

End CreateIndexJs.

(** ** TLS verification: the client module that follows the script in
    [frontend/scripts/create-opensearch-index.js] (lines 155 to 204) *)

Module OpensearchClientTs.

Definition getRejectUnauthorized (env : Env) : bool :=
  let sslVerify := Str.toLowerCase (env_nullish env "OPENSEARCH_SSL_VERIFY" "") in
  if (sslVerify =? "false") || (sslVerify =? "0") || (sslVerify =? "no") then false else
  let raw := Str.toLowerCase (env_nullish env "OPENSEARCH_SSL_REJECT_UNAUTHORIZED" "") in
  if (raw =? "false") || (raw =? "0") || (raw =? "no") then false else
  if negb (match env "NODE_ENV" with Some v => v =? "production" | None => false end) then
    let url := Str.toLowerCase (Str.trim (env_nullish env "OPENSEARCH_URL" "")) in
    if Str.startsWith url "https://" then false else true
  else true.

End OpensearchClientTs.

(** ** The claim's reading of the TLS policy *)

Module TlsSpec.

(** A variable is set to a false-like value: [false], [0] or [no], in any
    letter case. *)
Definition false_like (env : Env) (x : string) : Prop :=
  exists v, env x = Some v /\
    (Str.toLowerCase v = "false" \/ Str.toLowerCase v = "0" \/ Str.toLowerCase v = "no").

(** The process does not run in production. *)
Definition non_production (env : Env) : Prop := env "NODE_ENV" <> Some "production".

(** The endpoint is an https URL (white space around it and letter case
    apart). *)
Definition https_endpoint (env : Env) : Prop :=
  exists v rest, env "OPENSEARCH_URL" = Some v /\
    Str.toLowerCase (Str.trim v) = "https://" ++ rest.

(** [v] is [false], [0] or [no]. *)
Definition is_false_like (v : string) : bool :=
  (v =? "false") || (v =? "0") || (v =? "no").

(** The precedence of the claim, as a decision on four facts. *)
Definition resolved (verify_off reject_off development https : bool) : bool :=
  if verify_off then false
  else if reject_off then false
  else if development && https then false
  else true.

End TlsSpec.

(** An environment given by its bindings. *)
Fixpoint env_of (bs : list (string * string)) : Env :=
  fun x =>
    match bs with
    | [] => None
    | (k, v) :: r => if k =? x then Some v else env_of r x
    end.

(** ** JavaScript values *)

Module Js.

(** The number the engine holds for an index or a length. *)
Definition of_nat (n : nat) : float := PrimFloat.of_uint63 (Uint63.of_Z (Z.of_nat n)).

(** A value of type [any]: what [JSON.parse] returns, and [undefined], which
    reading a missing property yields. An object lists its own properties,
    each name once. *)
Inductive value : Type :=
| VUndefined
| VNull
| VBool (b : bool)
| VNum (n : float)
| VStr (s : string)
| VArr (xs : list value)
| VObj (fields : list (string * value)).

(** What a [throw] carries: an instance of [Error] with its [message], or
    anything else. *)
Inductive thrown : Type :=
| ErrorObject (message : string)
| OtherThrown.

(** A [TypeError] the engine raises; its message is the engine's. *)
Definition TypeError (message : string) : thrown := ErrorObject message.

(** The outcome of evaluating an expression or awaiting a promise. *)
Inductive completion (A : Type) : Type :=
| Normal (a : A)
| Throw (t : thrown).
Arguments Normal {A} a.
Arguments Throw {A} t.

Definition and_then {A B} (c : completion A) (k : A -> completion B) : completion B :=
  match c with
  | Normal a => k a
  | Throw t => Throw t
  end.

(** [ToBoolean]: [undefined], [null], [false], [0], [-0], [NaN] and the empty
    string are falsy. *)
Definition truthy (v : value) : bool :=
  match v with
  | VUndefined | VNull => false
  | VBool b => b
  | VNum n => negb (PrimFloat.eqb n 0%float || PrimFloat.is_nan n)
  | VStr s => Str.nonempty s
  | VArr _ | VObj _ => true
  end.

Definition nullish (v : value) : bool :=
  match v with
  | VUndefined | VNull => true
  | _ => false
  end.

Fixpoint lookup (k : string) (fields : list (string * value)) : value :=
  match fields with
  | [] => VUndefined
  | (k', v) :: r => if k' =? k then v else lookup k r
  end.

Fixpoint has_own (k : string) (fields : list (string * value)) : bool :=
  match fields with
  | [] => false
  | (k', _) :: r => (k' =? k) || has_own k r
  end.

(** [v.k] for a [v] that is neither [undefined] nor [null], and a [k] that is
    no built-in property of strings, arrays, numbers or booleans (the routes
    read [message], [session_id], [outputs], [results], [result], [text],
    [detail] and [error]). *)
Definition read (v : value) (k : string) : value :=
  match v with
  | VObj fields => lookup k fields
  | _ => VUndefined
  end.

(** [v.k]: a [TypeError] on [undefined] and [null]. *)
Definition get (v : value) (k : string) : completion value :=
  match v with
  | VUndefined =>
      Throw (TypeError ("Cannot read properties of undefined (reading '" ++ k ++ "')"))
  | VNull =>
      Throw (TypeError ("Cannot read properties of null (reading '" ++ k ++ "')"))
  | _ => Normal (read v k)
  end.

(** [v?.k]. *)
Definition opt_get (v : value) (k : string) : value :=
  if nullish v then VUndefined else read v k.

(** The elements [for (const x of v)] visits: those of an array, the
    characters of a string; anything else is not iterable. *)
Definition iterate (v : value) : completion (list value) :=
  match v with
  | VArr xs => Normal xs
  | VStr s => Normal (map VStr (Str.code_points s))
  | _ => Throw (TypeError "object is not iterable")
  end.

(** The body of a [for ... of] loop over [xs] that updates the variable [s]. *)
Fixpoint for_of {S : Type} (xs : list value) (body : value -> S -> completion S) (s : S)
  : completion S :=
  match xs with
  | [] => Normal s
  | x :: r =>
      match body x s with
      | Normal s' => for_of r body s'
      | Throw t => Throw t
      end
  end.

(** [xs.map((x, i) => f x i)], the index counted from [i]. *)
Fixpoint mapi_from {A B : Type} (i : nat) (f : A -> nat -> B) (xs : list A) : list B :=
  match xs with
  | [] => []
  | x :: r => f x i :: mapi_from (S i) f r
  end.

Definition mapi {A B : Type} (f : A -> nat -> B) (xs : list A) : list B := mapi_from 0 f xs.

(** Built-ins of the engine that the repository calls and does not define. *)
Class Engine : Type := {
  (** [JSON.parse(text)]; it throws a [SyntaxError] on text that is not JSON. *)
  JSON_parse : string -> completion value;
  (** [JSON.stringify(v)] ([indent] 0) and [JSON.stringify(v, null, indent)]. *)
  JSON_stringify : value -> nat -> string;
  (** [String(n)] for a number. *)
  Number_toString : float -> string;
  (** [n.toFixed(digits)]. *)
  Number_toFixed : float -> nat -> string;
  (** [Number(s)]. *)
  Number_of_string : string -> float;
  (** [Buffer.from(s).toString('base64')]. *)
  base64 : string -> string;
  (** The message of the error that building a response with a body
      raises at a status that cannot carry one. *)
  status_message : Z -> string
}.

Section Conversions.
Context {engine : Engine}.

(** [String(v)], as a template literal converts [v]. An object converts to
    [[object Object]] unless a property of its own hides [toString], which
    no JSON value can replace by a function: the conversion then fails. An
    array joins its converted elements, [null] and [undefined] as empty. *)
Fixpoint ToString (v : value) : completion string :=
  match v with
  | VUndefined => Normal "undefined"
  | VNull => Normal "null"
  | VBool true => Normal "true"
  | VBool false => Normal "false"
  | VNum n => Normal (Number_toString n)
  | VStr s => Normal s
  | VArr xs =>
      and_then
        ((fix elements (l : list value) : completion (list string) :=
            match l with
            | [] => Normal []
            | x :: r =>
                and_then (if nullish x then Normal "" else ToString x) (fun sx =>
                and_then (elements r) (fun sr => Normal (sx :: sr)))
            end) xs)
        (fun parts => Normal (Str.join "," parts))
  | VObj fields =>
      if has_own "toString" fields
      then Throw (TypeError "Cannot convert object to primitive value")
      else Normal "[object Object]"
  end.

End Conversions.

(** *** Handlers: a trace of calls and a completion *)

(** The arguments of [openai.chat.completions.create]. *)
Record ChatParams : Type := {
  chat_model : string;
  system_content : string;
  user_content : string;
  temperature : float;
  max_tokens : float
}.

(** What [console.error] is given. *)
Inductive logged : Type :=
| LogStr (s : string)
| LogNum (z : Z)
| LogThrown (t : thrown).

(** The calls a handler makes to the outside, and [JSON.parse]. *)
Inductive event : Type :=
| RequestJson
| EmbeddingsCreate (model : string) (input : value)
| Fetch (url : string) (headers : list (string * string)) (body : string)
| ResponseText
| ResponseJson
| ChatCompletionsCreate (params : ChatParams)
| JsonParse (text : string)
| Uuidv4
| ConsoleError (args : list logged).

(** A computation of a handler: the calls made, in order, and the outcome. *)
Definition M (A : Type) : Type := (list event * completion A)%type.

Definition ret {A} (a : A) : M A := ([], Normal a).

Definition bind {A B} (m : M A) (k : A -> M B) : M B :=
  match m with
  | (tr, Normal a) => let (tr', r) := k a in (tr ++ tr', r)%list
  | (tr, Throw t) => (tr, Throw t)
  end.

(** A pure evaluation that may throw. *)
Definition lift {A} (c : completion A) : M A := ([], c).

(** A call to the outside, answered by [c]. *)
Definition call {A} (e : event) (c : completion A) : M A := ([e], c).

Definition emit (e : event) : M unit := ([e], Normal tt).

(** [try { m } catch (e) { h e }]. *)
Definition try_catch {A} (m : M A) (h : thrown -> M A) : M A :=
  match m with
  | (tr, Normal a) => (tr, Normal a)
  | (tr, Throw t) => let (tr', r) := h t in (tr ++ tr', r)%list
  end.

(** The response a handler returns: its status and its JSON body. *)
Record Response : Type := {
  status : Z;
  body : value
}.

(** A status that a response with a body can have: within 200 to 599 and
    none of 204, 205 and 304 (the other statuses without a body, 101 and
    103, are outside the range). *)
Definition valid_status (st : Z) : bool :=
  (200 <=? st)%Z && (st <=? 599)%Z &&
  negb ((st =? 204)%Z || (st =? 205)%Z || (st =? 304)%Z).

(** [NextResponse.json(body, { status })]: at another status it throws a
    [RangeError] (outside the range) or a [TypeError] (within), an
    instance of [Error] with the message of the engine. *)
Definition NextResponse_json {engine : Engine} (fields : list (string * value)) (st : Z)
  : completion Response :=
  if valid_status st then Normal {| status := st; body := VObj fields |}
  else Throw (ErrorObject (status_message st)).

(** [error instanceof Error ? error.message : 'Internal server error']. *)
Definition error_message (t : thrown) : string :=
  match t with
  | ErrorObject message => message
  | OtherThrown => "Internal server error"
  end.

(** [response.ok]: the status is in the range 200 to 299. *)
Definition ok_status (st : Z) : bool := (200 <=? st)%Z && (st <=? 299)%Z.

End Js.

Declare Scope js_scope.
Delimit Scope js_scope with js.
Notation "'let*' x ':=' c 'in' k" := (Js.and_then c (fun x => k))
  (at level 10, x name, c at level 100, k at level 200) : js_scope.
Notation "x <- m ;; k" := (Js.bind m (fun x => k))
  (at level 61, m at next level, right associativity) : js_scope.
Notation "m ;;; k" := (Js.bind m (fun _ => k))
  (at level 61, right associativity) : js_scope.
Local Open Scope js_scope.

(** ** The delegate route: [frontend/src/app/api/chat/route.ts] *)

Module Chat.
Import Js.

(** The constants of the module, read from the environment when it loads. *)
Record Config : Type := {
  LANGFLOW_URL : string;
  LANGFLOW_FLOW_ID : string;
  LANGFLOW_API_KEY : string;
  INDEX_NAME : string;
  OPENAI_EMBEDDING_MODEL : string
}.

Definition config_of_env (env : Env) : Config := {|
  LANGFLOW_URL := Str.strip_trailing_slashes (env_or env "LANGFLOW_URL" "http://localhost:7860");
  LANGFLOW_FLOW_ID := env_or env "LANGFLOW_FLOW_ID" "6f48da32-743b-49a7-bebf-0e302d172314";
  LANGFLOW_API_KEY := env_or env "LANGFLOW_API_KEY" "";
  INDEX_NAME := env_or env "INDEX_NAME" "rag_demo";
  OPENAI_EMBEDDING_MODEL := env_or env "OPENAI_EMBEDDING_MODEL" "text-embedding-3-small"
|}.

(** The reply of [fetch]: its status, and what [await response.text()]
    gives. *)
Record LangflowResponse : Type := {
  response_status : Z;
  response_text : completion string
}.

(** The outside of one request. *)
Record World : Type := {
  request_json : completion value;
  uuidv4 : string;
  fetch : string -> list (string * string) -> string -> completion LangflowResponse
}.

(** [trimmed.toLowerCase().startsWith('<!doctype') ||
     trimmed.toLowerCase().startsWith('<html')]. *)
Definition isHtml (trimmed : string) : bool :=
  Str.startsWith (Str.toLowerCase trimmed) "<!doctype" ||
  Str.startsWith (Str.toLowerCase trimmed) "<html".

Definition authHint (key : string) : string :=
  if negb (Str.nonempty key)
  then " Langflow 1.5+ requires an API key: add LANGFLOW_API_KEY to frontend/.env.local (create one in Langflow: Settings → API Keys). Or run Langflow with LANGFLOW_SKIP_AUTH_AUTO_LOGIN=true for local dev without auth."
  else " Check that LANGFLOW_API_KEY is valid and LANGFLOW_FLOW_ID matches your flow in the Langflow UI.".

Definition html_error (key : string) : string :=
  "Langflow returned a page instead of JSON." ++
  authHint key ++
  " Also ensure LANGFLOW_URL is the base URL (e.g. http://localhost:7860) and the flow is built and running.".

Definition no_response : string := "No response received from the RAG system.".

(** The body of the inner loop: one [innerOutput], the variable [answer]. *)
Definition inner_body (innerOutput answer : value) : completion value :=
  let* results := get innerOutput "results" in
  if truthy (opt_get (opt_get results "message") "text")
  then Normal (opt_get (opt_get results "message") "text")
  else if truthy (opt_get results "text")
  then Normal (opt_get results "text")
  else
    let* message := get innerOutput "message" in
    if truthy (opt_get message "text")
    then Normal (opt_get message "text")
    else Normal answer.

(** The body of the outer loop: one [output]. *)
Definition outer_body (output answer : value) : completion value :=
  let* inner := get output "outputs" in
  if truthy inner
  then
    let* innerOutputs := iterate inner in
    for_of innerOutputs inner_body answer
  else Normal answer.

Section Handler.
Context {engine : Engine}.

(** Lines 104 to 127: the value of [answer] after the three-way branch. *)
Definition extract_answer (langflowData : value) : completion value :=
  let answer := VStr "" in
  let* outputs := get langflowData "outputs" in
  if truthy outputs
  then
    let* outs := iterate outputs in
    for_of outs outer_body answer
  else
    let* result := get langflowData "result" in
    if truthy result
    then
      match result with
      | VStr _ => Normal result
      | _ =>
          if truthy (read result "text")
          then Normal (read result "text")
          else Normal (VStr (JSON_stringify result 0))
      end
    else
      let* text := get langflowData "text" in
      if truthy text then Normal text else Normal answer.

(** Lines 129 to 131. *)
Definition or_no_response (answer : value) : value :=
  if negb (truthy answer) then VStr no_response else answer.

Definition hybridQueryExample (cfg : Config) (message : value) : value :=
  VObj [
    ("description", VStr "Langflow Hybrid Search Pipeline");
    ("components", VObj [
      ("1_embedding", VObj [
        ("model", VStr (OPENAI_EMBEDDING_MODEL cfg));
        ("input", message)]);
      ("2_vector_search", VObj [
        ("type", VStr "knn");
        ("field", VStr "vector_field");
        ("k", VNum 10%float)]);
      ("3_bm25_search", VObj [
        ("type", VStr "keyword");
        ("fields", VArr [VStr "text"; VStr "keywords"]);
        ("query", VStr "extracted from question")]);
      ("4_hybrid_fusion", VObj [
        ("method", VStr "reciprocal_rank_fusion");
        ("weights", VObj [("vector", VNum 0.5%float); ("bm25", VNum 0.5%float)])])])].

Definition searchInfo (cfg : Config) (message : value) : value :=
  VObj [
    ("type", VStr "Hybrid Search (BM25 + Vector)");
    ("orchestrator", VStr "Langflow");
    ("index", VStr (INDEX_NAME cfg));
    ("note", VStr "Retrieved documents handled by Langflow internally");
    ("query", VStr (JSON_stringify (hybridQueryExample cfg message) 2))].

(** Lines 72 to 89: the reply to a status outside 200 to 299. *)
Definition upstream_error (st : Z) (responseText : string) : M Response :=
  emit (ConsoleError [LogStr "Langflow error:"; LogStr responseText]) ;;;
  try_catch
    (errorData <- call (JsonParse responseText) (JSON_parse responseText) ;;
     detail <- lift (get errorData "detail") ;;
     errorMsg <- lift
       (if truthy detail then Normal detail
        else let* message := get errorData "message" in
             if truthy message then Normal message
             else let* error := get errorData "error" in
                  if truthy error then Normal error
                  else Normal (VStr "Unknown error")) ;;
     shown <- lift (ToString errorMsg) ;;
     lift (NextResponse_json [("error", VStr ("Langflow error: " ++ shown))] st))
    (fun _ =>
     lift (NextResponse_json [("error", VStr ("Langflow API error: " ++ Str.decZ st))] st)).

(** Lines 91 to 173: the reply to a status in 200 to 299. *)
Definition success (cfg : Config) (message session : value) (responseText : string)
  : M Response :=
  parsed <- try_catch
    (langflowData <- call (JsonParse responseText) (JSON_parse responseText) ;;
     ret (Some langflowData))
    (fun _ =>
     emit (ConsoleError [LogStr "Failed to parse Langflow response:";
                         LogStr (Str.substring16 500 responseText)]) ;;;
     ret None) ;;
  match parsed with
  | None => lift (NextResponse_json [("error", VStr "Invalid JSON response from Langflow")] 502)
  | Some langflowData =>
      extracted <- lift (extract_answer langflowData) ;;
      let answer := or_no_response extracted in
      lift (NextResponse_json [
        ("answer", answer);
        ("session_id", session);
        ("search_type", VStr "hybrid");
        ("search_info", searchInfo cfg message)] 200)
  end.

(** Lines 23 to 28. *)
Definition langflowPayload (message session : value) : value :=
  VObj [
    ("output_type", VStr "chat");
    ("input_type", VStr "chat");
    ("input_value", message);
    ("session_id", session)].

(** Lines 31 to 38. *)
Definition request_headers (cfg : Config) : list (string * string) :=
  List.app [("Content-Type", "application/json")]
    (if Str.nonempty (LANGFLOW_API_KEY cfg)
     then [("x-api-key", LANGFLOW_API_KEY cfg)] else []).

Definition run_url (cfg : Config) : string :=
  LANGFLOW_URL cfg ++ "/api/v1/run/" ++ LANGFLOW_FLOW_ID cfg.

(** [session_id || uuidv4()]. *)
Definition session_of (w : World) (session_id : value) : value :=
  if truthy session_id then session_id else VStr (uuidv4 w).

(** Lines 175 to 181: the handler of the outer [catch]. *)
Definition on_error (error : thrown) : M Response :=
  emit (ConsoleError [LogStr "Chat API error:"; LogThrown error]) ;;;
  lift (NextResponse_json [("error", VStr (error_message error))] 500).

(** Lines 50 to 173: the reply once the body of the upstream reply is read. *)
Definition reply (cfg : Config) (message session : value) (st : Z) (responseText : string)
  : M Response :=
  let trimmed := Str.trim responseText in
  if isHtml trimmed
  then
    emit (ConsoleError [LogStr "Langflow returned HTML (expected JSON). Status:";
                        LogNum st;
                        LogStr (Str.substring16 150 trimmed)]) ;;;
    lift (NextResponse_json [("error", VStr (html_error (LANGFLOW_API_KEY cfg)))] 502)
  else if negb (ok_status st)
  then upstream_error st responseText
  else success cfg message session responseText.

(** [POST]. *)
Definition POST (cfg : Config) (w : World) : M Response :=
  try_catch
    (body <- call RequestJson (request_json w) ;;
     message <- lift (get body "message") ;;
     session_id <- lift (get body "session_id") ;;
     if negb (truthy message)
     then lift (NextResponse_json [("error", VStr "Message is required")] 400)
     else
       session <- (if truthy session_id then ret session_id
                   else emit Uuidv4 ;;; ret (VStr (uuidv4 w))) ;;
       let headers := request_headers cfg in
       let url := run_url cfg in
       let payload := JSON_stringify (langflowPayload message session) 0 in
       langflowResponse <- call (Fetch url headers payload) (fetch w url headers payload) ;;
       responseText <- call ResponseText (response_text langflowResponse) ;;
       reply cfg message session (response_status langflowResponse) responseText)
    on_error.

(** The request reached Langflow and Langflow replied: the body carries a
    truthy [message] and the session [session_id] (possibly [undefined]),
    and [fetch] returned the status [st] with the body [responseText]. *)
Definition Replied (cfg : Config) (w : World) (message session_id : value)
  (st : Z) (responseText : string) : Prop :=
  (exists body, request_json w = Normal body /\
                get body "message" = Normal message /\
                get body "session_id" = Normal session_id) /\
  truthy message = true /\
  exists langflowResponse,
    fetch w (run_url cfg) (request_headers cfg)
            (JSON_stringify (langflowPayload message (session_of w session_id)) 0)
      = Normal langflowResponse /\
    response_status langflowResponse = st /\
    response_text langflowResponse = Normal responseText.

(** The calls up to and including the reading of the upstream body. *)
Definition request_trace (cfg : Config) (w : World) (message session_id : value)
  : list event :=
  List.app
    (RequestJson :: (if truthy session_id then [] else [Uuidv4]))
    [Fetch (run_url cfg) (request_headers cfg)
           (JSON_stringify (langflowPayload message (session_of w session_id)) 0);
     ResponseText].

End Handler.

End Chat.

(** ** The direct route: [src/unnamed/part_000] *)

Module Semantic.
Import Js.

Definition normalizeOpenSearchUrl (url : string) : string := Str.strip_trailing_slashes url.

(** The constants of the module, read from the environment when it loads. *)
Record Config : Type := {
  OPENSEARCH_URL : string;
  INDEX_NAME : string;
  OPENSEARCH_USERNAME : option string;
  OPENSEARCH_PASSWORD : option string;
  OPENAI_API_KEY : string;
  OPENAI_EMBEDDING_MODEL : string;
  OPENAI_LLM_MODEL : string;
  OPENSEARCH_VECTOR_FIELD : string;
  OPENSEARCH_K : float
}.

(** [interface OpenSearchHit]. *)
Record Source : Type := {
  text : string;
  file_path : option string
}.

Record OpenSearchHit : Type := {
  _source : Source;
  _score : float
}.

(** The JSON of the search reply as the route reads it: [searchData.hits],
    absent or holding [hits]. *)
Record HitsEnvelope : Type := {
  hits : option (list OpenSearchHit)
}.

Inductive SearchData : Type :=
| JsonNull
| Json (envelope : option HitsEnvelope).

(** The reply of [fetch]. *)
Record SearchResponse : Type := {
  response_status : Z;
  response_text : completion string;
  response_json : completion SearchData
}.

(** The reply of the embedding provider. *)
Record Embedding : Type := {
  embedding : list float
}.

Record CreateEmbeddingResponse : Type := {
  data : list Embedding
}.

(** The reply of the generation provider. *)
Record ChatMessage : Type := {
  content : option string
}.

Record Choice : Type := {
  message : option ChatMessage
}.

Record ChatCompletion : Type := {
  choices : list Choice
}.

(** The outside of one request. *)
Record World : Type := {
  request_json : completion value;
  embeddings_create : string -> value -> completion CreateEmbeddingResponse;
  fetch : string -> list (string * string) -> string -> completion SearchResponse;
  chat_completions_create : ChatParams -> completion ChatCompletion
}.

(** [searchData.hits?.hits || []]. *)
Definition hits_of (searchData : SearchData) : completion (list OpenSearchHit) :=
  match searchData with
  | JsonNull => Throw (TypeError "Cannot read properties of null (reading 'hits')")
  | Json None => Normal []
  | Json (Some envelope) =>
      Normal (match hits envelope with Some found => found | None => [] end)
  end.

Definition separator : string := Str.LF ++ Str.LF ++ "---" ++ Str.LF ++ Str.LF.

(** Step 3, lines 127 to 129. *)
Definition context (found : list OpenSearchHit) : string :=
  Str.join separator
    (mapi (fun hit i => "Document " ++ Str.dec (i + 1) ++ ":" ++ Str.LF ++ text (_source hit))
          found).

Definition system_prompt : string :=
  Str.join Str.LF [
    "You are a helpful BeeHive Bank support assistant. Answer the user's question using ONLY the information provided in the context below.";
    "";
    "INSTRUCTIONS:";
    "1. Read ALL the context documents carefully";
    "2. Find the specific section that answers the question";
    "3. Provide exact numbers, rates, and details from the context";
    "4. If asked about APR or rates, include the specific rate ranges and any conditions";
    "";
    "FORMATTING RULES:";
    "- When comparing multiple products (cards, loans, accounts), use a MARKDOWN TABLE";
    "- Use bullet points for: features, benefits, requirements, step-by-step processes";
    "- Bold important numbers and key terms";
    "- Keep responses concise but complete";
    "";
    "If the information is not in the context, say " ++ Str.DQ ++
      "I don't have that specific information in my knowledge base." ++ Str.DQ].

Definition user_prompt (ctx question : string) : string :=
  "CONTEXT:" ++ Str.LF ++ ctx ++ Str.LF ++ Str.LF ++
  "QUESTION: " ++ question ++ Str.LF ++ Str.LF ++
  "ANSWER (use specific numbers from the context):".

Definition no_documents : string := "No relevant documents found for your question.".

Definition no_generation : string := "No response generated.".

(** Line 162: [completion.choices[0]?.message?.content || 'No response
    generated.']. *)
Definition answer_of (completion : ChatCompletion) : string :=
  match choices completion with
  | {| message := Some {| content := Some c |} |} :: _ =>
      if Str.nonempty c then c else no_generation
  | _ => no_generation
  end.

(** Lines 165 to 170. *)
Definition retrievedDocs (found : list OpenSearchHit) : list value :=
  mapi (fun hit i =>
    VObj [
      ("rank", VNum (of_nat (i + 1)));
      ("score", VNum (_score hit));
      ("text", VStr (Str.substring16 500 (text (_source hit)) ++
                     (if (500 <? Str.length16 (text (_source hit)))%nat then "..." else "")));
      ("file_path", VStr (match file_path (_source hit) with
                          | Some p => if Str.nonempty p then p else "unknown"
                          | None => "unknown"
                          end))])
    found.

Section Handler.
Context {engine : Engine}.

Definition config_of_env (env : Env) : Config := {|
  OPENSEARCH_URL := normalizeOpenSearchUrl (env_or env "OPENSEARCH_URL" "");
  INDEX_NAME := env_or env "INDEX_NAME" "rag_demo";
  OPENSEARCH_USERNAME := env "OPENSEARCH_USERNAME";
  OPENSEARCH_PASSWORD := env "OPENSEARCH_PASSWORD";
  OPENAI_API_KEY := env_or env "OPENAI_API_KEY" "";
  OPENAI_EMBEDDING_MODEL := env_or env "OPENAI_EMBEDDING_MODEL" "text-embedding-3-small";
  OPENAI_LLM_MODEL := env_or env "OPENAI_LLM_MODEL" "gpt-4o-mini";
  OPENSEARCH_VECTOR_FIELD := env_or env "OPENSEARCH_VECTOR_FIELD" "embeddings";
  OPENSEARCH_K := Number_of_string (env_or env "OPENSEARCH_K" "2")
|}.

(** Lines 68 to 79. *)
Definition searchQuery (cfg : Config) (queryVector : list float) : value :=
  VObj [
    ("size", VNum (OPENSEARCH_K cfg));
    ("_source", VArr [VStr "text"; VStr "file_path"]);
    ("query", VObj [
      ("knn", VObj [
        (OPENSEARCH_VECTOR_FIELD cfg, VObj [
          ("vector", VArr (map VNum queryVector));
          ("k", VNum (OPENSEARCH_K cfg))])])])].

(** Lines 81 to 85. *)
Definition request_headers (cfg : Config) : list (string * string) :=
  List.app [("Content-Type", "application/json")]
    match OPENSEARCH_USERNAME cfg with
    | Some username =>
        if Str.nonempty username
        then [("Authorization",
               "Basic " ++ base64 (username ++ ":" ++
                 match OPENSEARCH_PASSWORD cfg with
                 | Some password => password
                 | None => ""
                 end))]
        else []
    | None => []
    end.

(** Lines 173 to 184. *)
Definition displayQuery (cfg : Config) (queryVector : list float) : value :=
  VObj [
    ("size", VNum (OPENSEARCH_K cfg));
    ("_source", VArr [VStr "text"; VStr "file_path"]);
    ("query", VObj [
      ("knn", VObj [
        (OPENSEARCH_VECTOR_FIELD cfg, VObj [
          ("vector", VStr ("[" ++
             Str.join ", " (map (fun v => Number_toFixed v 4) (firstn 5 queryVector)) ++
             "... (" ++ Str.dec (List.length queryVector) ++ " dimensions)]"));
          ("k", VNum (OPENSEARCH_K cfg))])])])].

(** Lines 187 to 193. *)
Definition searchInfo (cfg : Config) (queryVector : list float) : value :=
  VObj [
    ("type", VStr "k-NN Vector Search");
    ("index", VStr (INDEX_NAME cfg));
    ("embedding_model", VStr (OPENAI_EMBEDDING_MODEL cfg));
    ("k", VNum (OPENSEARCH_K cfg));
    ("query", VStr (JSON_stringify (displayQuery cfg queryVector) 2))].

Definition unreachable_error (cfg : Config) : string :=
  "Failed to reach OpenSearch at " ++ OPENSEARCH_URL cfg ++
  " (index: " ++ INDEX_NAME cfg ++ "). " ++
  "Check OPENSEARCH_URL and whether the cluster is reachable from this machine.".

Definition chat_params (cfg : Config) (ctx question : string) : ChatParams := {|
  chat_model := OPENAI_LLM_MODEL cfg;
  system_content := system_prompt;
  user_content := user_prompt ctx question;
  temperature := 0.3%float;
  max_tokens := 1000%float
|}.

(** Lines 118 to 201: the reply once the hits are known. *)
Definition respond (cfg : Config) (w : World) (question : value)
  (queryVector : list float) (found : list OpenSearchHit) : M Response :=
  if (List.length found =? 0)%nat
  then lift (NextResponse_json [
         ("answer", VStr no_documents);
         ("search_type", VStr "semantic");
         ("docs_retrieved", VNum 0%float)] 200)
  else
    let ctx := context found in
    shown <- lift (ToString question) ;;
    let params := chat_params cfg ctx shown in
    completion <- call (ChatCompletionsCreate params) (chat_completions_create w params) ;;
    let answer := answer_of completion in
    lift (NextResponse_json [
      ("answer", VStr answer);
      ("search_type", VStr "semantic");
      ("docs_retrieved", VNum (of_nat (List.length found)));
      ("retrieved_docs", VArr (retrievedDocs found));
      ("search_info", searchInfo cfg queryVector)] 200).

(** Lines 115 to 116, then [respond]: the reply to a search status in 200
    to 299. *)
Definition answer_from (cfg : Config) (w : World) (question : value)
  (queryVector : list float) (searchResponse : SearchResponse) : M Response :=
  searchData <- call ResponseJson (response_json searchResponse) ;;
  found <- lift (hits_of searchData) ;;
  respond cfg w question queryVector found.

Definition search_url (cfg : Config) : string :=
  OPENSEARCH_URL cfg ++ "/" ++ INDEX_NAME cfg ++ "/_search".

(** Lines 203 to 209: the handler of the outer [catch]. *)
Definition on_error (error : thrown) : M Response :=
  emit (ConsoleError [LogStr "Semantic search API error:"; LogThrown error]) ;;;
  lift (NextResponse_json [("error", VStr (error_message error))] 500).

(** Lines 60 to 65. *)
Definition first_embedding (embeddingResponse : CreateEmbeddingResponse)
  : completion (list float) :=
  match data embeddingResponse with
  | first :: _ => Normal (embedding first)
  | [] => Throw (TypeError "Cannot read properties of undefined (reading 'embedding')")
  end.

(** Lines 106 to 201: the reply once [fetch] has returned. *)
Definition on_search_reply (cfg : Config) (w : World) (question : value)
  (queryVector : list float) (searchResponse : SearchResponse) : M Response :=
  if negb (ok_status (response_status searchResponse))
  then
    errorText <- call ResponseText (response_text searchResponse) ;;
    emit (ConsoleError [LogStr "OpenSearch error:"; LogStr errorText]) ;;;
    lift (NextResponse_json [("error", VStr "Failed to search OpenSearch")] 502)
  else answer_from cfg w question queryVector searchResponse.

(** The calls up to and including [fetch]. *)
Definition search_trace (cfg : Config) (question : value) (queryVector : list float)
  : list event :=
  [RequestJson;
   EmbeddingsCreate (OPENAI_EMBEDDING_MODEL cfg) question;
   Fetch (search_url cfg) (request_headers cfg) (JSON_stringify (searchQuery cfg queryVector) 0)].

(** [POST]. *)
Definition POST (cfg : Config) (w : World) : M Response :=
  try_catch
    (body <- call RequestJson (request_json w) ;;
     question <- lift (get body "message") ;;
     if negb (truthy question)
     then lift (NextResponse_json [("error", VStr "Message is required")] 400)
     else if negb (Str.nonempty (OPENAI_API_KEY cfg))
     then lift (NextResponse_json [("error", VStr "OPENAI_API_KEY not configured")] 500)
     else if negb (Str.nonempty (OPENSEARCH_URL cfg))
     then lift (NextResponse_json
                 [("error", VStr "OPENSEARCH_URL not configured. Set it in frontend/.env.local.")]
                 500)
     else
       embeddingResponse <- call (EmbeddingsCreate (OPENAI_EMBEDDING_MODEL cfg) question)
                                 (embeddings_create w (OPENAI_EMBEDDING_MODEL cfg) question) ;;
       queryVector <- lift (first_embedding embeddingResponse) ;;
       let url := search_url cfg in
       let headers := request_headers cfg in
       let payload := JSON_stringify (searchQuery cfg queryVector) 0 in
       fetched <- try_catch
         (searchResponse <- call (Fetch url headers payload) (fetch w url headers payload) ;;
          ret (Some searchResponse))
         (fun err =>
          emit (ConsoleError [LogStr "OpenSearch fetch failed:"; LogThrown err]) ;;;
          ret None) ;;
       match fetched with
       | None => lift (NextResponse_json [("error", VStr (unreachable_error cfg))] 502)
       | Some searchResponse => on_search_reply cfg w question queryVector searchResponse
       end)
    on_error.

(** The request reached the index and the index replied: the body carries a
    truthy [message], the API key and the endpoint are configured, the
    embedding provider returned [queryVector], and [fetch] returned
    [searchResponse]. *)
Definition Searched (cfg : Config) (w : World) (question : value)
  (queryVector : list float) (searchResponse : SearchResponse) : Prop :=
  (exists body, request_json w = Normal body /\ get body "message" = Normal question) /\
  truthy question = true /\
  Str.nonempty (OPENAI_API_KEY cfg) = true /\
  Str.nonempty (OPENSEARCH_URL cfg) = true /\
  (exists embeddingResponse,
     embeddings_create w (OPENAI_EMBEDDING_MODEL cfg) question = Normal embeddingResponse /\
     first_embedding embeddingResponse = Normal queryVector) /\
  fetch w (search_url cfg) (request_headers cfg)
          (JSON_stringify (searchQuery cfg queryVector) 0) = Normal searchResponse.

(** Retrieval succeeded with the documents [found]: the index replied with a
    status in 200 to 299 and a JSON body whose hits are [found]. *)
Definition Retrieved (cfg : Config) (w : World) (question : value)
  (queryVector : list float) (found : list OpenSearchHit) : Prop :=
  exists searchResponse searchData,
    Searched cfg w question queryVector searchResponse /\
    ok_status (response_status searchResponse) = true /\
    response_json searchResponse = Normal searchData /\
    hits_of searchData = Normal found.

(** The calls up to and including the reading of the search reply. *)
Definition retrieval_trace (cfg : Config) (question : value) (queryVector : list float)
  : list event :=
  List.app (search_trace cfg question queryVector) [ResponseJson].

End Handler.

End Semantic.

(** ** The claims' readings of the two routes *)

(** Context assembly as the specification words it: each document under its
    rank, the ranks 1 to K in input order, the segments joined by the fixed
    separator. *)
Module ContextSpec.
Import Semantic.

Definition fixed_separator : string :=
  String (ascii_of_nat 10) (String (ascii_of_nat 10)
    ("---" ++ String (ascii_of_nat 10) (String (ascii_of_nat 10) EmptyString))).

Definition rendered (ranked : nat * OpenSearchHit) : string :=
  "Document " ++ Str.dec (fst ranked) ++ ":" ++
  String (ascii_of_nat 10) (text (_source (snd ranked))).

Definition ranked (documents : list OpenSearchHit) : list (nat * OpenSearchHit) :=
  combine (seq 1 (List.length documents)) documents.

Definition rendering (documents : list OpenSearchHit) : string :=
  String.concat fixed_separator (map rendered (ranked documents)).

End ContextSpec.

(** Empty generation output: no choice, a first choice without a message,
    or a message whose content is [null] or the empty string. *)
Module GenerationSpec.
Import Semantic.

Definition empty_output (completion : ChatCompletion) : Prop :=
  match choices completion with
  | [] => True
  | first :: _ =>
      match message first with
      | None => True
      | Some m => content m = None \/ content m = Some ""
      end
  end.

End GenerationSpec.

(** The fields of a reply of the direct route. *)
Module AnswerSpec.
Import Js.




End AnswerSpec.

(** The HTML preamble: the body, trimmed, begins with [<!doctype] or
    [<html], letter case apart. *)
Module HtmlSpec.

Definition html_preamble (responseText : string) : Prop :=
  exists opening rest,
    Str.trim responseText = opening ++ rest /\
    (Str.toLowerCase opening = "<!doctype" \/ Str.toLowerCase opening = "<html").

End HtmlSpec.

(** The message of an upstream error body: the first of [detail], [message]
    and [error] that is present with a truthy value. *)
Module ErrorSpec.
Import Js.

Definition first_present (errorData : value) : option value :=
  find truthy [read errorData "detail"; read errorData "message"; read errorData "error"].

End ErrorSpec.

(** Answer normalisation as the claims word it. *)
Module ExtractSpec.
Import Js.

(** The recognized text fields of an inner output, the preferred first. *)
Definition text_fields (innerOutput : value) : list value :=
  [opt_get (opt_get (opt_get innerOutput "results") "message") "text";
   opt_get (opt_get innerOutput "results") "text";
   opt_get (opt_get innerOutput "message") "text"].

(** The text an inner output carries, if any. *)
Definition carried_text (innerOutput : value) : option value :=
  find truthy (text_fields innerOutput).

Definition carries (innerOutput : value) : bool :=
  match carried_text innerOutput with
  | Some _ => true
  | None => false
  end.

(** The elements of an array (of a string, its code points). *)
Definition elements (v : value) : list value :=
  match v with
  | VArr xs => xs
  | VStr s => map VStr (Str.code_points s)
  | _ => []
  end.

(** All inner outputs of the top-level [outputs], in order. *)
Definition inner_outputs (outs : list value) : list value :=
  flat_map (fun output => elements (opt_get output "outputs")) outs.

(** The last inner output that carries a text. *)
Definition last_carrying (inners : list value) : option value :=
  match rev (filter carries inners) with
  | innerOutput :: _ => Some innerOutput
  | [] => None
  end.

(** The text of the last inner output that carries one. *)
Definition last_text (inners : list value) : option value :=
  match last_carrying inners with
  | Some innerOutput => carried_text innerOutput
  | None => None
  end.

(** No entry the loops visit is [null], and what they iterate is an array
    (or a string): the extraction raises no [TypeError]. *)
Definition entry (v : value) : bool := negb (nullish v).

Definition iterable (v : value) : bool :=
  match v with
  | VArr _ | VStr _ => true
  | _ => false
  end.

Definition output_scannable (output : value) : bool :=
  entry output &&
  (if truthy (read output "outputs")
   then iterable (read output "outputs") && forallb entry (elements (read output "outputs"))
   else true).

Definition scannable (langflowData : value) : bool :=
  entry langflowData &&
  (if truthy (read langflowData "outputs")
   then iterable (read langflowData "outputs") &&
        forallb output_scannable (elements (read langflowData "outputs"))
   else true).

Section Shapes.
Context {engine : Engine}.

(** What each of the three shapes yields; a falsy value is no text. *)
Definition yield_outputs (langflowData : value) : value :=
  match last_text (inner_outputs (elements (read langflowData "outputs"))) with
  | Some text => text
  | None => VStr ""
  end.

Definition yield_result (langflowData : value) : value :=
  match read langflowData "result" with
  | VStr s => VStr s
  | result =>
      if truthy result
      then if truthy (read result "text") then read result "text"
           else VStr (JSON_stringify result 0)
      else VStr ""
  end.

Definition yield_text (langflowData : value) : value := read langflowData "text".

Definition or_literal (v : value) : value :=
  if truthy v then v else VStr "No response received from the RAG system.".

(** The claim's reading: the shapes are tried in order until one yields
    non-empty text. *)
Definition tried_in_order (langflowData : value) : value :=
  match find truthy [yield_outputs langflowData; yield_result langflowData;
                     yield_text langflowData] with
  | Some text => text
  | None => VStr "No response received from the RAG system."
  end.

(** The amended reading: the first shape whose top-level field is present
    (truthy) is the only one read. *)
Definition dispatched (langflowData : value) : value :=
  if truthy (read langflowData "outputs") then or_literal (yield_outputs langflowData)
  else if truthy (read langflowData "result") then or_literal (yield_result langflowData)
  else or_literal (yield_text langflowData).

End Shapes.

End ExtractSpec.

(** ** Simulated collaborators

    An engine and worlds for the scenarios of the specification's test
    properties: the engine parses the bodies of the scenarios, and the
    worlds answer one request each. *)

Module Sim.
Import Js.

Definition quoted (s : string) : string := Str.DQ ++ s ++ Str.DQ.

(** [{"outputs":[{"outputs":[{"results":{"text":"42"}}]}]}] *)
Definition body_42 : string :=
  "{" ++ quoted "outputs" ++ ":[{" ++ quoted "outputs" ++ ":[{" ++ quoted "results" ++
  ":{" ++ quoted "text" ++ ":" ++ quoted "42" ++ "}}]}]}".

Definition json_42 : value :=
  VObj [("outputs", VArr [
    VObj [("outputs", VArr [
      VObj [("results", VObj [("text", VStr "42")])]])]])].

(** [{"detail":"invalid key"}] *)
Definition body_invalid_key : string :=
  "{" ++ quoted "detail" ++ ":" ++ quoted "invalid key" ++ "}".

Definition json_invalid_key : value := VObj [("detail", VStr "invalid key")].

(** [{"outputs":[],"result":"hello"}] *)
Definition body_empty_outputs : string :=
  "{" ++ quoted "outputs" ++ ":[]," ++ quoted "result" ++ ":" ++ quoted "hello" ++ "}".

Definition json_empty_outputs : value :=
  VObj [("outputs", VArr []); ("result", VStr "hello")].

(** [{"outputs":[{"outputs":[{"message":{"text":"a"}},null]}]}] *)
Definition body_null_entry : string :=
  "{" ++ quoted "outputs" ++ ":[{" ++ quoted "outputs" ++ ":[{" ++ quoted "message" ++
  ":{" ++ quoted "text" ++ ":" ++ quoted "a" ++ "}},null]}]}".

Definition json_null_entry : value :=
  VObj [("outputs", VArr [
    VObj [("outputs", VArr [
      VObj [("message", VObj [("text", VStr "a")])];
      VNull])]])].

(** [{"outputs":[{"outputs":[{"results":{"message":{"text":"first"},"text":"x"}},
     {"message":{"text":"second"}},{"results":{}}]}]}] *)
Definition body_two_texts : string :=
  "{" ++ quoted "outputs" ++ ":[{" ++ quoted "outputs" ++ ":[{" ++ quoted "results" ++
  ":{" ++ quoted "message" ++ ":{" ++ quoted "text" ++ ":" ++ quoted "first" ++ "}," ++
  quoted "text" ++ ":" ++ quoted "x" ++ "}},{" ++ quoted "message" ++ ":{" ++
  quoted "text" ++ ":" ++ quoted "second" ++ "}},{" ++ quoted "results" ++ ":{}}]}]}".

Definition json_two_texts : value :=
  VObj [("outputs", VArr [
    VObj [("outputs", VArr [
      VObj [("results", VObj [("message", VObj [("text", VStr "first")]);
                              ("text", VStr "x")])];
      VObj [("message", VObj [("text", VStr "second")])];
      VObj [("results", VObj [])]])]])].

Definition body_html : string := "<html><body>Sign in</body></html>".

Definition body_doctype : string := "  <!DOCTYPE html><html><body>Sign in</body></html>".

(** The same page behind a no-break space (U+00A0) and a byte-order mark
    (U+FEFF). *)
Definition body_nbsp_page : string :=
  String (ascii_of_nat 194) (String (ascii_of_nat 160)
    (String (ascii_of_nat 239) (String (ascii_of_nat 187) (String (ascii_of_nat 191)
       "<!DOCTYPE html><html><body>Sign in</body></html>")))).

Definition body_plain : string := "Bad Gateway".

Definition parsed : list (string * value) :=
  [(body_42, json_42);
   (body_invalid_key, json_invalid_key);
   (body_empty_outputs, json_empty_outputs);
   (body_null_entry, json_null_entry);
   (body_two_texts, json_two_texts)].

Fixpoint parse_in (table : list (string * value)) (text : string) : completion value :=
  match table with
  | [] => Throw (ErrorObject "Unexpected token in JSON")
  | (known, v) :: r => if known =? text then Normal v else parse_in r text
  end.

(** The simulated engine. Serialisation and number formatting are not
    exercised by the scenarios and answer with fixed text. *)
Definition engine : Engine := {|
  JSON_parse := parse_in parsed;
  JSON_stringify := fun _ _ => "{}";
  Number_toString := fun _ => "0";
  Number_toFixed := fun _ _ => "0.0000";
  Number_of_string := fun _ => 2%float;
  base64 := fun s => s;
  status_message := fun st =>
    if (200 <=? st)%Z && (st <=? 599)%Z
    then "Response constructor: Invalid response status code " ++ Str.decZ st
    else "init[" ++ Str.DQ ++ "status" ++ Str.DQ ++
         "] must be in the range of 200 to 599, inclusive."
|}.

(** *** The delegate route *)

Definition chat_config (key : string) : Chat.Config :=
  Chat.config_of_env (env_of [("LANGFLOW_URL", "http://localhost:7860/");
                              ("LANGFLOW_API_KEY", key)]).

Definition chat_request : value := VObj [("message", VStr "What is the APR?")].

(** Langflow replies with the status [st] and the body [text]. *)
Definition chat_world (st : Z) (text : string) : Chat.World := {|
  Chat.request_json := Normal chat_request;
  Chat.uuidv4 := "3b241101-e2bb-4255-8caf-4136c566a962";
  Chat.fetch := fun _ _ _ =>
    Normal {| Chat.response_status := st; Chat.response_text := Normal text |}
|}.

(** *** The direct route *)

Definition semantic_config : Semantic.Config :=
  @Semantic.config_of_env engine
    (env_of [("OPENSEARCH_URL", "https://search.example.com/");
             ("OPENAI_API_KEY", "sk-test")]).

Definition semantic_request : value :=
  VObj [("message", VStr "asdkjalksjd nonsense query")].

Definition vector : list float := [0.25%float; 0.5%float; 1%float].

Definition hit (body : string) (path : option string) (score : float)
  : Semantic.OpenSearchHit :=
  {| Semantic._source := {| Semantic.text := body; Semantic.file_path := path |};
     Semantic._score := score |}.

Definition two_hits : list Semantic.OpenSearchHit :=
  [hit "Platinum card APR is 19.99%." (Some "cards.pdf") 0.75%float;
   hit "Auto loans start at 5.5%." None 0.5%float].

(** The index replies with the status [st]; its body reads as [text] and, as
    JSON, holds the hits [found]. *)
Definition search_reply (st : Z) (text : string) (found : list Semantic.OpenSearchHit)
  : Semantic.SearchResponse := {|
  Semantic.response_status := st;
  Semantic.response_text := Normal text;
  Semantic.response_json :=
    Normal (Semantic.Json (Some {| Semantic.hits := Some found |}))
|}.

(** The embedding provider returns [vector], the index replies with [reply]
    and the generation provider with [generated]. *)
Definition semantic_world (reply : Semantic.SearchResponse)
  (generated : completion Semantic.ChatCompletion) : Semantic.World := {|
  Semantic.request_json := Normal semantic_request;
  Semantic.embeddings_create := fun _ _ =>
    Normal {| Semantic.data := [{| Semantic.embedding := vector |}] |};
  Semantic.fetch := fun _ _ _ => Normal reply;
  Semantic.chat_completions_create := fun _ => generated
|}.

Definition generated_text (text : option string) : Semantic.ChatCompletion :=
  {| Semantic.choices := [{| Semantic.message := Some {| Semantic.content := text |} |}] |}.

(** Requests whose body carries no [message]. *)
Definition request_without_message : value := VObj [("session_id", VStr "s-1")].

Definition semantic_world_without_message : Semantic.World := {|
  Semantic.request_json := Normal request_without_message;
  Semantic.embeddings_create := fun _ _ => Throw OtherThrown;
  Semantic.fetch := fun _ _ _ => Throw OtherThrown;
  Semantic.chat_completions_create := fun _ => Throw OtherThrown
|}.

Definition chat_world_without_message : Chat.World := {|
  Chat.request_json := Normal request_without_message;
  Chat.uuidv4 := "3b241101-e2bb-4255-8caf-4136c566a962";
  Chat.fetch := fun _ _ _ => Throw OtherThrown
|}.

(** The body of the answer to a request that retrieved [two_hits]. *)
Definition two_hit_answer (answer : string) : value :=
  VObj [
    ("answer", VStr answer);
    ("search_type", VStr "semantic");
    ("docs_retrieved", VNum (of_nat 2));
    ("retrieved_docs", VArr (Semantic.retrievedDocs two_hits));
    ("search_info", @Semantic.searchInfo engine semantic_config vector)].

End Sim.

(** ** The search client: [frontend/src/lib/opensearch.ts] *)

(** What [new Client(...)] is given. *)
Record ClientOptions : Type := {
  node : string;
  auth : option (string * string);
  ssl_rejectUnauthorized : bool
}.

Module SearchClient.
Import Js.

Definition normalizeOpenSearchUrl (url : string) : string := Str.strip_trailing_slashes url.

Section Singleton.
(** The class of the client library and its constructor, which the
    repository does not define. *)
Variable Client : Type.
Variable new_Client : ClientOptions -> completion Client.

(** The options of lines 26 to 39. *)
Definition client_options (env : Env) (url : string) : ClientOptions := {|
  node := url;
  auth :=
    match env "OPENSEARCH_USERNAME" with
    | Some username =>
        if Str.nonempty username
        then Some (username,
                   match env "OPENSEARCH_PASSWORD" with
                   | Some password => password
                   | None => ""
                   end)
        else None
    | None => None
    end;
  ssl_rejectUnauthorized := OpensearchTs.getRejectUnauthorized env
|}.

(** [getOpenSearchClient], on the module variable [client]: the outcome
    and the new value of [client]. *)
Definition getOpenSearchClient (env : Env) (client : option Client)
  : completion Client * option Client :=
  match client with
  | Some existing => (Normal existing, Some existing)
  | None =>
      let url := normalizeOpenSearchUrl (env_or env "OPENSEARCH_URL" "") in
      if negb (Str.nonempty url)
      then (Throw (ErrorObject "OPENSEARCH_URL is not set"), None)
      else
        match new_Client (client_options env url) with
        | Normal created => (Normal created, Some created)
        | Throw t => (Throw t, None)
        end
  end.

(** A sequence of calls, each under the environment of its time: the
    outcomes and the final value of [client]. *)
Fixpoint calls (envs : list Env) (client : option Client)
  : list (completion Client) * option Client :=
  match envs with
  | [] => ([], client)
  | env :: later =>
      let (outcome, client') := getOpenSearchClient env client in
      let (outcomes, final) := calls later client' in
      (outcome :: outcomes, final)
  end.

End Singleton.

End SearchClient.

(** ** The search client that follows the script in
    [frontend/scripts/create-opensearch-index.js] (lines 155 to 204) *)

Module SearchClientAlt.
Import Js.

Definition normalizeOpenSearchUrl (url : string) : string :=
  Str.strip_trailing_slashes (Str.trim url).

Section Singleton.
Variable Client : Type.
Variable new_Client : ClientOptions -> completion Client.

Definition client_options (env : Env) (url : string) : ClientOptions := {|
  node := url;
  auth :=
    match env "OPENSEARCH_USERNAME" with
    | Some username =>
        if Str.nonempty username
        then Some (username,
                   match env "OPENSEARCH_PASSWORD" with
                   | Some password => password
                   | None => ""
                   end)
        else None
    | None => None
    end;
  ssl_rejectUnauthorized := OpensearchClientTs.getRejectUnauthorized env
|}.

Definition getOpenSearchClient (env : Env) (client : option Client)
  : completion Client * option Client :=
  match client with
  | Some existing => (Normal existing, Some existing)
  | None =>
      let url := normalizeOpenSearchUrl (env_or env "OPENSEARCH_URL" "") in
      if negb (Str.nonempty url)
      then (Throw (ErrorObject "OPENSEARCH_URL is not set"), None)
      else
        match new_Client (client_options env url) with
        | Normal created => (Normal created, Some created)
        | Throw t => (Throw t, None)
        end
  end.

End Singleton.

End SearchClientAlt.

(** Strings made of slashes only, and strings that end in a slash. *)
Module SlashSpec.

Fixpoint slashes (n : nat) : string :=
  match n with
  | O => EmptyString
  | S m => String "/"%char (slashes m)
  end.

Definition ends_in_slash (s : string) : Prop := exists r, s = r ++ "/".

End SlashSpec.

(** The endpoint is not configured: [OPENSEARCH_URL] is unset, or holds
    slashes only (the empty string included). *)
Module EndpointSpec.

Definition url_missing (env : Env) : Prop :=
  match env "OPENSEARCH_URL" with
  | None => True
  | Some url => exists n, url = SlashSpec.slashes n
  end.

(** The same after trimming, as the second client module reads the URL. *)
Definition url_blank (env : Env) : Prop :=
  match env "OPENSEARCH_URL" with
  | None => True
  | Some url => exists n, Str.trim url = SlashSpec.slashes n
  end.

(** A client library whose constructor keeps its options. *)
Definition keep_options (options : ClientOptions) : Js.completion ClientOptions :=
  Js.Normal options.

End EndpointSpec.

(** ** The index-creation script: [frontend/scripts/create-opensearch-index.js] *)

Module IndexScript.
Import Js.

(** *** Loading [.env.local]: lines 20 to 32 *)

(** [s.split('\n')]. *)
Fixpoint split_lines (s : string) : list string :=
  match s with
  | EmptyString => [EmptyString]
  | String c r =>
      if Ascii.eqb c (ascii_of_nat 10) then EmptyString :: split_lines r
      else
        match split_lines r with
        | first :: rest => String c first :: rest
        | [] => [String c EmptyString]
        end
  end.

(** [s.indexOf(c)], [None] for -1. *)
Fixpoint indexOf (c : ascii) (s : string) : option nat :=
  match s with
  | EmptyString => None
  | String d r =>
      if Ascii.eqb d c then Some 0
      else match indexOf c r with
           | Some i => Some (S i)
           | None => None
           end
  end.

(** [s.slice(n)]. *)
Fixpoint slice_from (n : nat) (s : string) : string :=
  match n, s with
  | O, _ => s
  | S m, String _ r => slice_from m r
  | S _, EmptyString => EmptyString
  end.

(** [s.slice(0, -1)]. *)
Fixpoint drop_last (s : string) : string :=
  match s with
  | EmptyString => EmptyString
  | String c EmptyString => EmptyString
  | String c r => String c (drop_last r)
  end.

(** [s.endsWith(c)] for one character. *)
Fixpoint ends_with_char (s : string) (c : ascii) : bool :=
  match s with
  | EmptyString => false
  | String d EmptyString => Ascii.eqb d c
  | String _ r => ends_with_char r c
  end.

(** [s.startsWith(c)] for one character. *)
Definition starts_with_char (s : string) (c : ascii) : bool :=
  match s with
  | String d _ => Ascii.eqb d c
  | EmptyString => false
  end.

Definition double_quote : ascii := ascii_of_nat 34.
Definition single_quote : ascii := ascii_of_nat 39.

(** Lines 28 to 30: a value within a pair of double or single quotes loses
    the pair. *)
Definition unquote (value : string) : string :=
  if (starts_with_char value double_quote && ends_with_char value double_quote) ||
     (starts_with_char value single_quote && ends_with_char value single_quote)
  then drop_last (slice_from 1 value)
  else value.

(** [process.env[key] = value]. *)
Definition set_env (env : Env) (key value : string) : Env :=
  fun x => if x =? key then Some value else env x.

(** The body of the [forEach]: one line of the file. *)
Definition load_line (env : Env) (line : string) : Env :=
  let trimmed := Str.trim line in
  if negb (Str.nonempty trimmed) || Str.startsWith trimmed "#" then env
  else
    match indexOf "="%char trimmed with
    | None => env
    | Some eq =>
        if (eq <=? 0)%nat then env
        else
          let key := Str.trim (Str.substring0 eq trimmed) in
          let value := Str.trim (slice_from (eq + 1) trimmed) in
          set_env env key (unquote value)
    end.

(** The environment after the file [content] is loaded. *)
Definition load_env_local (content : string) (env : Env) : Env :=
  fold_left load_line (split_lines content) env.

(** *** Masking the URL for the log: line 44 *)

(** The longest prefix without [:] and [@], and what follows it. *)
Fixpoint span_credential (s : string) : string * string :=
  match s with
  | EmptyString => (EmptyString, EmptyString)
  | String c r =>
      if Ascii.eqb c ":"%char || Ascii.eqb c "@"%char then (EmptyString, s)
      else let (run, rest) := span_credential r in (String c run, rest)
  end.

(** [node.replace(/:[^:@]+@/, ':****@')]: the first colon that is followed
    by at least one character other than [:] and [@] and then by [@] is
    replaced, with that run and the [@], by [:****@]. *)
Fixpoint mask_credentials (s : string) : string :=
  match s with
  | EmptyString => EmptyString
  | String c r =>
      if Ascii.eqb c ":"%char
      then
        match span_credential r with
        | (String _ _, String d rest) =>
            if Ascii.eqb d "@"%char then ":****@" ++ rest
            else String c (mask_credentials r)
        | _ => String c (mask_credentials r)
        end
      else String c (mask_credentials r)
  end.

(** *** The run of the script *)

(** What the script prints and does. *)
Inductive script_event : Type :=
| Print (text : string)
| PrintError (text : string)
| PrintErrorValue (label : string) (v : value)
| PrintErrorThrown (label : string) (t : thrown)
| Sleep (ms : Z)
| NewClient (options : ClientOptions) (requestTimeout : Z)
| IndicesCreate (index : string) (body : value).

(** How the process ends: [main] returns, [process.exit(code)], or an
    exception nobody catches. *)
Inductive outcome : Type :=
| Finished
| Exit (code : Z)
| Uncaught (t : thrown).

Definition Run : Type := (list script_event * outcome)%type.

(** The answer of [client.indices.create]: the promise resolves, or rejects
    with [err]. *)
Inductive creation : Type :=
| Created
| Rejected (err : value).

(** [v === n] for a number and [v === s] for a string. *)
Definition is_number (v : value) (n : float) : bool :=
  match v with
  | VNum m => PrimFloat.eqb m n
  | _ => false
  end.

Definition is_string (v : value) (s : string) : bool :=
  match v with
  | VStr t => t =? s
  | _ => false
  end.

(** [(reason || '').includes('already exists')]: on a string the substring
    test, on an array the membership test, on any other truthy value a
    [TypeError]. *)
Definition reason_includes (reason : value) : completion bool :=
  if truthy reason
  then
    match reason with
    | VStr s => Normal (Str.includes s "already exists")
    | VArr xs => Normal (existsb (fun x => is_string x "already exists") xs)
    | _ => Throw (TypeError "(err.body?.error?.reason || '').includes is not a function")
    end
  else Normal false.

(** Lines 123 to 128: [is503] and [isAlreadyExists]. *)
Definition classify (err : value) : completion (bool * bool) :=
  let* meta := get err "meta" in
  let status := opt_get meta "statusCode" in
  let* body := get err "body" in
  let errorType := opt_get (opt_get body "error") "type" in
  let is503 := is_number status 503%float ||
               is_string errorType "cluster_manager_not_discovered_exception" in
  if is_string errorType "resource_already_exists_exception"
  then Normal (is503, true)
  else if is_number status 400%float
  then let* found := reason_includes (opt_get (opt_get body "error") "reason") in
       Normal (is503, found)
  else Normal (is503, false).

Definition maxTries : nat := 3.

Section Script.
Context {engine : Engine}.
(** [parseInt(s, 10)]. *)
Variable parseInt10 : string -> float.
(** The cluster: whether the constructor of the client throws, and the
    answer to each call of [client.indices.create], by its number. *)
Variable new_Client : ClientOptions -> option thrown.
Variable indices_create : nat -> creation.

(** Lines 74 to 107: the body of the request. *)
Definition index_body (dimension : float) : value :=
  VObj [
    ("settings", VObj [
      ("index", VObj [
        ("knn", VBool true);
        ("knn.algo_param.ef_search", VNum 100%float)])]);
    ("mappings", VObj [
      ("dynamic", VBool true);
      ("properties", VObj [
        ("element_id", VObj [("type", VStr "keyword")]);
        ("record_id", VObj [("type", VStr "keyword")]);
        ("text", VObj [("type", VStr "text")]);
        ("type", VObj [
          ("type", VStr "text");
          ("fields", VObj [
            ("keyword", VObj [("type", VStr "keyword");
                              ("ignore_above", VNum 256%float)])])]);
        ("embeddings", VObj [
          ("type", VStr "knn_vector");
          ("dimension", VNum dimension);
          ("method", VObj [
            ("name", VStr "hnsw");
            ("space_type", VStr "cosinesimil");
            ("engine", VStr "lucene")])]);
        ("metadata", VObj [
          ("type", VStr "object");
          ("dynamic", VBool true);
          ("enabled", VBool true)])])])].

(** Lines 131 to 146: the rest of the [catch] block, which ends the
    process. *)
Definition failure (err : value) (is503 : bool) : list script_event :=
  List.app
    [PrintErrorValue "Index creation failed:" (read err "message")]
    (List.app
       (if truthy (read err "body") && truthy (read (read err "body") "error")
        then [PrintError ("Response: " ++ JSON_stringify (read err "body") 2)]
        else [])
       (if is503
        then [PrintError
                "Cluster returned 503. Wait a few minutes and run this script again."]
        else [])).

(** The iterations of the [for] loop from [tryNum] on, [remaining] of them
    left. *)
Fixpoint attempts (indexName : string) (dimension : float) (remaining tryNum : nat) : Run :=
  match remaining with
  | O => ([], Finished)
  | S remaining' =>
      let before :=
        List.app
          (if (1 <? tryNum)%nat
           then [Print ("Retry " ++ Str.dec tryNum ++ "/" ++ Str.dec maxTries ++ " in 10s...");
                 Sleep 10000]
           else [])
          [Print ("Creating index " ++ Str.DQ ++ indexName ++ Str.DQ ++ "...");
           IndicesCreate indexName (index_body dimension)] in
      match indices_create tryNum with
      | Created =>
          (List.app before
             [Print ("Index " ++ Str.DQ ++ indexName ++ Str.DQ ++ " created (dimension=" ++
                     Number_toString dimension ++ ").")],
           Finished)
      | Rejected err =>
          match classify err with
          | Throw t => (List.app before [PrintErrorThrown "Unhandled error:" t], Exit 1)
          | Normal (is503, isAlreadyExists) =>
              if isAlreadyExists
              then (List.app before
                      [Print ("Index " ++ Str.DQ ++ indexName ++ Str.DQ ++ " already exists.")],
                    Finished)
              else if is503 && (tryNum <? maxTries)%nat
              then
                let (later, result) := attempts indexName dimension remaining' (S tryNum) in
                (List.app before
                   (PrintError ("Attempt " ++ Str.dec tryNum ++ " failed (503).") :: later),
                 result)
              else (List.app before (failure err is503), Exit 1)
          end
      end
  end.

(** [main]. *)
Definition main (indexName : string) (dimension : float) : Run :=
  attempts indexName dimension maxTries 1.

(** The script from its first line: [file] is the content of
    [frontend/.env.local], [None] when the file is missing. *)
Definition script (file : option string) (env : Env) : Run :=
  match file with
  | None =>
      ([Print "OpenSearch index creation: loading frontend/.env.local...";
        PrintError "ERROR: Missing frontend/.env.local"], Exit 1)
  | Some content =>
      let env' := load_env_local content env in
      let node := Str.strip_trailing_slashes (Str.trim (env_or env' "OPENSEARCH_URL" "")) in
      let indexName := Str.trim (env_or env' "INDEX_NAME" "rag_demo") in
      let dimension := parseInt10 (env_or env' "EMBEDDING_DIMENSION" "1536") in
      if negb (Str.nonempty node)
      then ([Print "OpenSearch index creation: loading frontend/.env.local...";
             PrintError "ERROR: OPENSEARCH_URL is not set in frontend/.env.local"], Exit 1)
      else
        let options := {|
          node := node;
          auth :=
            match env' "OPENSEARCH_USERNAME" with
            | Some username =>
                if Str.nonempty username
                then Some (username,
                           match env' "OPENSEARCH_PASSWORD" with
                           | Some password => password
                           | None => ""
                           end)
                else None
            | None => None
            end;
          ssl_rejectUnauthorized := CreateIndexJs.getRejectUnauthorized env' |} in
        let start :=
          [Print "OpenSearch index creation: loading frontend/.env.local...";
           Print ("Connecting to " ++ mask_credentials node ++ " | index: " ++ indexName ++
                  " | dimension: " ++ Number_toString dimension);
           NewClient options 30000] in
        match new_Client options with
        | Some t => (start, Uncaught t)
        | None =>
            let (events, result) := main indexName dimension in
            (List.app start events, result)
        end
  end.

End Script.

(** The calls of [client.indices.create] and the pauses in a run. *)
Definition is_create (e : script_event) : bool :=
  match e with
  | IndicesCreate _ _ => true
  | _ => false
  end.

Definition is_sleep (e : script_event) : bool :=
  match e with
  | Sleep _ => true
  | _ => false
  end.

Definition creations (events : list script_event) : nat :=
  List.length (filter is_create events).

Definition pauses (events : list script_event) : list script_event :=
  filter is_sleep events.

End IndexScript.

(** What the theorems about the script speak of. *)
Module ScriptSpec.

(** No character of [s] is [c]. *)
Fixpoint free_of (c : ascii) (s : string) : Prop :=
  match s with
  | EmptyString => True
  | String d r => d <> c /\ free_of c r
  end.

(** No character of [s] is a colon or an at sign. *)
Definition plain (s : string) : Prop := free_of ":"%char s /\ free_of "@"%char s.

(** The string of the one character [c]. *)
Definition char (c : ascii) : string := String c EmptyString.

End ScriptSpec.

(** How one answer of [client.indices.create] moves the loop of [main],
    read off the error the client library rejects with. *)
Module RetrySpec.
Import Js IndexScript.

(** What a response error carries: the HTTP status under
    [meta.statusCode], and under [body.error] the [type] and the [reason]
    the cluster gives; each is [undefined] where the error has no such
    part. *)
Definition status_of (err : value) : value := opt_get (read err "meta") "statusCode".

Definition type_of (err : value) : value :=
  opt_get (opt_get (read err "body") "error") "type".

Definition reason_of (err : value) : value :=
  opt_get (opt_get (read err "body") "error") "reason".

Definition has_status (err : value) (n : float) : bool :=
  match status_of err with
  | VNum m => PrimFloat.eqb m n
  | _ => false
  end.

Definition has_type (err : value) (t : string) : bool :=
  match type_of err with
  | VStr u => u =? t
  | _ => false
  end.

(** The cluster says it is not ready: HTTP 503, or the type
    [cluster_manager_not_discovered_exception]. *)
Definition not_ready (err : value) : bool :=
  has_status err 503%float || has_type err "cluster_manager_not_discovered_exception".

(** The reason speaks of an index that exists: a string that holds
    [already exists], or a list with that very string. *)
Definition names_existing (reason : value) : bool :=
  match reason with
  | VStr s => Str.includes s "already exists"
  | VArr xs =>
      existsb (fun x => match x with VStr u => u =? "already exists" | _ => false end) xs
  | _ => false
  end.

(** The cluster says the index exists: the type
    [resource_already_exists_exception], or HTTP 400 with such a reason. *)
Definition already_exists (err : value) : bool :=
  has_type err "resource_already_exists_exception" ||
  (has_status err 400%float && names_existing (reason_of err)).

(** The [catch] block reads the error without an exception of its own:
    the error is an object or a primitive, and where the reason is looked
    into (HTTP 400 without the type above) it is a string, a list, or
    falsy. *)
Definition legible (err : value) : bool :=
  negb (nullish err) &&
  (has_type err "resource_already_exists_exception" ||
   negb (has_status err 400%float) ||
   negb (truthy (reason_of err)) ||
   match reason_of err with
   | VStr _ | VArr _ => true
   | _ => false
   end).

(** The index is there: it was created, or the cluster says it exists. *)
Definition settles (c : creation) : bool :=
  match c with
  | Created => true
  | Rejected err => legible err && already_exists err
  end.

(** The cluster is not ready, and does not say the index exists. *)
Definition unavailable (c : creation) : bool :=
  match c with
  | Created => false
  | Rejected err => legible err && not_ready err && negb (already_exists err)
  end.

(** The attempts before [k] all found the cluster not ready. *)
Definition unavailable_before (indices_create : nat -> creation) (k : nat) : Prop :=
  forall j, 1 <= j < k -> unavailable (indices_create j) = true.

End RetrySpec.

(** What a run of the script asks of the client library. *)
Module RunSpec.
Import Js IndexScript.

Definition is_new_client (e : script_event) : bool :=
  match e with
  | NewClient _ _ => true
  | _ => false
  end.

(** The constructions of a client and the requests to the cluster. *)
Definition requests (events : list script_event) : list script_event :=
  filter (fun e => is_new_client e || is_create e)%bool events.

(** The script has no endpoint: there is no file, or after the file is
    loaded [OPENSEARCH_URL] is unset, blank or slashes only. *)
Definition unconfigured (file : option string) (env : Env) : Prop :=
  match file with
  | None => True
  | Some content => EndpointSpec.url_blank (load_env_local content env)
  end.

End RunSpec.

(** The services a handler calls, in the order of the calls. *)
Module CallSpec.
Import Js.

Inductive service : Type :=
| Embedding
| Search
| Generation.

Definition service_of (e : event) : option service :=
  match e with
  | EmbeddingsCreate _ _ => Some Embedding
  | Fetch _ _ _ => Some Search
  | ChatCompletionsCreate _ => Some Generation
  | _ => None
  end.

Fixpoint services (tr : list event) : list service :=
  match tr with
  | [] => []
  | e :: r =>
      match service_of e with
      | Some s => s :: services r
      | None => services r
      end
  end.

(** [n] copies of [s]. *)
Fixpoint times (n : nat) (s : string) : string :=
  match n with
  | O => EmptyString
  | S m => s ++ times m s
  end.

(** The text of a document as the reply shows it: whole up to 500
    UTF-16 code units, else its first 500 code units and an ellipsis. *)
Definition excerpt (text : string) : string :=
  if (Str.length16 text <=? 500)%nat then text
  else Str.substring16 500 text ++ "...".

End CallSpec.

(** Further scenarios: providers that fail. *)
Module Outage.
Import Js.

(** The index cannot be reached: [fetch] rejects. *)
Definition unreachable_world : Semantic.World := {|
  Semantic.request_json := Normal Sim.semantic_request;
  Semantic.embeddings_create := fun _ _ =>
    Normal {| Semantic.data := [{| Semantic.embedding := Sim.vector |}] |};
  Semantic.fetch := fun _ _ _ => Throw (ErrorObject "fetch failed");
  Semantic.chat_completions_create := fun _ => Throw OtherThrown
|}.

(** The embedding provider rejects. *)
Definition no_embedding_world : Semantic.World := {|
  Semantic.request_json := Normal Sim.semantic_request;
  Semantic.embeddings_create := fun _ _ => Throw (ErrorObject "401 Incorrect API key");
  Semantic.fetch := fun _ _ _ => Throw OtherThrown;
  Semantic.chat_completions_create := fun _ => Throw OtherThrown
|}.



(** Langflow cannot be reached. *)
Definition langflow_down : Chat.World := {|
  Chat.request_json := Normal Sim.chat_request;
  Chat.uuidv4 := "3b241101-e2bb-4255-8caf-4136c566a962";
  Chat.fetch := fun _ _ _ => Throw (ErrorObject "fetch failed")
|}.

End Outage.

(** ** The page: [frontend/src/app/page.tsx] *)

Module Page.
Import Js.

Inductive SearchMode : Type :=
| semantic
| hybrid.

Inductive Role : Type :=
| user
| assistant.

(** [interface Message]; a field that is absent reads [undefined], and the
    fields taken from the reply of the route hold what the reply holds. *)
Record Message : Type := {
  id : string;
  role : Role;
  content : value;
  timestamp : Z;
  searchType : value;
  retrievedDocs : value;
  searchInfo : value
}.

(** The state of the component; a [Set] of strings lists its elements in
    the order of insertion, each once. *)
Record State : Type := {
  messages : list Message;
  input : string;
  isLoading : bool;
  sessionId : string;
  searchMode : SearchMode;
  expandedDocs : list string;
  expandedSearch : list string
}.

(** [set.has(x)], [set.delete(x)] and [set.add(x)]. *)
Definition has (set : list string) (x : string) : bool :=
  existsb (String.eqb x) set.

Definition delete (set : list string) (x : string) : list string :=
  filter (fun y => negb (x =? y)) set.

Definition add (set : list string) (x : string) : list string :=
  if has set x then set else List.app set [x].

(** The updater of [toggleDocs] and of [toggleSearch]. *)
Definition toggle (messageId : string) (prev : list string) : list string :=
  let newSet := prev in
  if has newSet messageId then delete newSet messageId else add newSet messageId.

Definition toggleDocs (messageId : string) (st : State) : State := {|
  messages := messages st;
  input := input st;
  isLoading := isLoading st;
  sessionId := sessionId st;
  searchMode := searchMode st;
  expandedDocs := toggle messageId (expandedDocs st);
  expandedSearch := expandedSearch st
|}.

Definition toggleSearch (messageId : string) (st : State) : State := {|
  messages := messages st;
  input := input st;
  isLoading := isLoading st;
  sessionId := sessionId st;
  searchMode := searchMode st;
  expandedDocs := expandedDocs st;
  expandedSearch := toggle messageId (expandedSearch st)
|}.

(** The reply of [fetch]: [response.ok] and what [await response.json()]
    gives. *)
Record FetchReply : Type := {
  ok : bool;
  json : completion value
}.

(** The outside of one submission: the identifiers [crypto.randomUUID()]
    returns and the times [new Date()] gives, by the number of the call, and
    the route behind [fetch]. *)
Record World : Type := {
  randomUUID : nat -> string;
  now : nat -> Z;
  fetch : string -> string -> completion FetchReply
}.

Inductive page_event : Type :=
| PreventDefault
| FetchPost (endpoint : string) (body : string).

Definition mode_name (mode : SearchMode) : string :=
  match mode with
  | semantic => "semantic"
  | hybrid => "hybrid"
  end.

(** [searchMode === 'semantic' ? '/api/semantic' : '/api/chat']. *)
Definition endpoint (mode : SearchMode) : string :=
  match mode with
  | semantic => "/api/semantic"
  | hybrid => "/api/chat"
  end.

Definition userMessage (st : State) (w : World) : Message := {|
  id := randomUUID w 0;
  role := user;
  content := VStr (Str.trim (input st));
  timestamp := now w 0;
  searchType := VUndefined;
  retrievedDocs := VUndefined;
  searchInfo := VUndefined
|}.

(** The message of the [catch] block; [drawn] identifiers were drawn
    before. *)
Definition errorMessage (w : World) (drawn : nat) (error : thrown) : Message := {|
  id := randomUUID w drawn;
  role := assistant;
  content := VStr ("Sorry, I encountered an error: " ++
                   match error with
                   | ErrorObject message => message
                   | OtherThrown => "Unknown error"
                   end);
  timestamp := now w 1;
  searchType := VUndefined;
  retrievedDocs := VUndefined;
  searchInfo := VUndefined
|}.

Section Handler.
Context {engine : Engine}.

(** The body of the request. *)
Definition request_body (st : State) : string :=
  JSON_stringify
    (VObj [("message", VStr (Str.trim (input st)));
           ("session_id", VStr (sessionId st))]) 0.

(** The [try] block after [fetch] has settled: the message to append, or
    what is thrown and how many identifiers were drawn by then. *)
Definition assistantMessage (st : State) (w : World) (reply : completion FetchReply)
  : Message + (nat * thrown) :=
  match reply with
  | Throw t => inr (1, t)
  | Normal response =>
      match json response with
      | Throw t => inr (1, t)
      | Normal data =>
          if negb (ok response)
          then
            match
              (let* error := get data "error" in
               ToString (if truthy error then error else VStr "Failed to get response"))
            with
            | Normal message => inr (1, ErrorObject message)
            | Throw t => inr (1, t)
            end
          else
            match
              (let* answer := get data "answer" in
               let* search_type := get data "search_type" in
               let* retrieved_docs := get data "retrieved_docs" in
               let* search_info := get data "search_info" in
               Normal {|
                 id := randomUUID w 1;
                 role := assistant;
                 content := answer;
                 timestamp := now w 1;
                 searchType := if truthy search_type then search_type
                               else VStr (mode_name (searchMode st));
                 retrievedDocs := retrieved_docs;
                 searchInfo := search_info |})
            with
            | Normal message => inl message
            | Throw t => inr (2, t)
            end
      end
  end.

(** [handleSubmit]: the calls it makes and the state once it has returned,
    no other update in between. *)
Definition handleSubmit (st : State) (w : World) : list page_event * State :=
  if negb (Str.nonempty (Str.trim (input st))) || isLoading st
  then ([PreventDefault], st)
  else
    let reply := fetch w (endpoint (searchMode st)) (request_body st) in
    ([PreventDefault; FetchPost (endpoint (searchMode st)) (request_body st)],
     {| messages :=
          List.app (messages st)
            [userMessage st w;
             match assistantMessage st w reply with
             | inl message => message
             | inr (drawn, error) => errorMessage w drawn error
             end];
        input := "";
        isLoading := false;
        sessionId := sessionId st;
        searchMode := searchMode st;
        expandedDocs := expandedDocs st;
        expandedSearch := expandedSearch st |}).

(** [handleKeyDown]. *)
Definition handleKeyDown (key : string) (shiftKey : bool) (st : State) (w : World)
  : list page_event * State :=
  if (key =? "Enter") && negb shiftKey
  then let (events, st') := handleSubmit st w in (PreventDefault :: events, st')
  else ([], st).

End Handler.

(** What [fetch] returns when the route answers [response]: the body as
    the route built it, [ok] by the status. *)
Definition served (response : Response) : FetchReply := {|
  ok := ok_status (status response);
  json := Normal (body response)
|}.

End Page.

(** A page in hybrid mode in front of the delegate route. *)
Module PageSim.
Import Js.


(** The reply of the delegate route to the request of [asking] when
    Langflow answers [42]. *)
Definition answered_42 : Response := {|
  status := 200;
  body := VObj [
    ("answer", VStr "42");
    ("session_id", VStr "s-1");
    ("search_type", VStr "hybrid");
    ("search_info",
     @Chat.searchInfo Sim.engine (Sim.chat_config "") (VStr "What is the APR?"))]
|}.

Definition browser (response : Response) : Page.World := {|
  Page.randomUUID := fun n => Str.dec n;
  Page.now := fun n => Z.of_nat n;
  Page.fetch := fun _ _ => Normal (Page.served response)
|}.

End PageSim.

(** A [.env.local] saved with a byte-order mark, and a cluster that
    creates the index at once. *)
Module MarkedFile.
Import Js IndexScript.

Definition content : string :=
  String (ascii_of_nat 239) (String (ascii_of_nat 187) (String (ascii_of_nat 191)
    "OPENSEARCH_URL=https://search.example.com/")).

Definition run : Run :=
  @script Sim.engine (fun _ => 1536%float) (fun _ => None) (fun _ => Created)
    (Some content) (env_of []).

End MarkedFile.

(** Settings and an input that hold white space outside ASCII. *)
Module Padded.

(** U+00A0, the no-break space. *)
Definition nbsp : string := String (ascii_of_nat 194) (String (ascii_of_nat 160) EmptyString).

(** An https endpoint behind a no-break space. *)
Definition https_env : Env :=
  env_of [("OPENSEARCH_URL", nbsp ++ "HTTPS://search.example.com")].

(** An endpoint that is a no-break space only. *)
Definition blank_env : Env := env_of [("OPENSEARCH_URL", nbsp)].

(** A page whose input is a no-break space only. *)
Definition blank_page : Page.State := {|
  Page.messages := [];
  Page.input := nbsp;
  Page.isLoading := false;
  Page.sessionId := "s-1";
  Page.searchMode := Page.hybrid;
  Page.expandedDocs := [];
  Page.expandedSearch := []
|}.

End Padded.

(* ================================================================= *)
(** * Part II: theorems *)
(* ================================================================= *)

(** ** Strings *)

Module StrFacts.

Lemma prefix_iff (p s : string) :
  String.prefix p s = true <-> exists rest, s = p ++ rest.
Proof.
  revert s. induction p as [|a p IH]; intros s.
  - split; [intros _; now exists s | intros _; destruct s; reflexivity].
  - destruct s as [|b s]; simpl.
    + split; [discriminate | intros [rest H]; discriminate].
    + destruct (ascii_dec a b) as [->|Hab].
      * split.
        -- intros H. apply IH in H. destruct H as [rest ->]. now exists rest.
        -- intros [rest H]. inversion H. apply IH. now exists rest.
      * split; [discriminate | intros [rest H]; injection H as Hc _; congruence].
Qed.

Lemma toLowerCase_app (s t : string) :
  Str.toLowerCase (s ++ t) = Str.toLowerCase s ++ Str.toLowerCase t.
Proof.
  induction s as [|c s IH]; simpl; [reflexivity | now rewrite IH].
Qed.

(** A lower-cased string begins with [p] exactly when the string begins with
    some spelling of [p]. *)
Lemma startsWith_toLowerCase (s p : string) :
  Str.startsWith (Str.toLowerCase s) p = true <->
  exists opening rest, s = opening ++ rest /\ Str.toLowerCase opening = p.
Proof.
  unfold Str.startsWith. rewrite prefix_iff. split.
  - revert s. induction p as [|a p IH]; intros s [rest H].
    + exists EmptyString, s. split; reflexivity.
    + destruct s as [|c s]; simpl in H; [discriminate|].
      inversion H as [[Hc Hs]].
      destruct (IH s (ex_intro _ rest Hs)) as (opening & rest' & -> & Hlow).
      exists (String c opening), rest'. split; [reflexivity|].
      simpl. now rewrite Hlow.
  - intros (opening & rest & -> & <-). rewrite toLowerCase_app. eauto.
Qed.

Lemma nonempty_true (s : string) : Str.nonempty s = true <-> s <> "".
Proof.
  unfold Str.nonempty. rewrite negb_true_iff. apply String.eqb_neq.
Qed.

Lemma nonempty_false (s : string) : Str.nonempty s = false <-> s = "".
Proof.
  unfold Str.nonempty. rewrite negb_false_iff. apply String.eqb_eq.
Qed.

End StrFacts.

(** ** TLS verification *)

Module TlsFacts.
Import TlsSpec.

Lemma is_false_like_iff (v : string) :
  is_false_like v = true <-> (v = "false" \/ v = "0" \/ v = "no").
Proof.
  unfold is_false_like. rewrite !orb_true_iff, !String.eqb_eq. tauto.
Qed.

Lemma false_like_or (env : Env) (x : string) :
  false_like env x <-> is_false_like (Str.toLowerCase (env_or env x "")) = true.
Proof.
  rewrite is_false_like_iff. unfold false_like, env_or. split.
  - intros (v & -> & H). destruct (Str.nonempty v) eqn:E; [exact H|].
    apply StrFacts.nonempty_false in E. subst v. simpl in H.
    destruct H as [H|[H|H]]; discriminate.
  - destruct (env x) as [v|].
    + destruct (Str.nonempty v); intros H.
      * now exists v.
      * simpl in H. destruct H as [H|[H|H]]; discriminate.
    + simpl. intros [H|[H|H]]; discriminate.
Qed.

Lemma false_like_nullish (env : Env) (x : string) :
  false_like env x <-> is_false_like (Str.toLowerCase (env_nullish env x "")) = true.
Proof.
  rewrite is_false_like_iff. unfold false_like, env_nullish. split.
  - now intros (v & -> & H).
  - destruct (env x) as [v|]; [intros H; now exists v|].
    simpl. intros [H|[H|H]]; discriminate.
Qed.

Lemma non_production_iff (env : Env) :
  non_production env <->
  negb (match env "NODE_ENV" with Some v => v =? "production" | None => false end) = true.
Proof.
  unfold non_production. destruct (env "NODE_ENV") as [v|]; simpl.
  - rewrite negb_true_iff, String.eqb_neq. split; congruence.
  - split; [reflexivity | discriminate].
Qed.

Lemma https_endpoint_or (env : Env) :
  https_endpoint env <->
  Str.startsWith (Str.toLowerCase (Str.trim (env_or env "OPENSEARCH_URL" ""))) "https://" = true.
Proof.
  unfold Str.startsWith. rewrite StrFacts.prefix_iff. unfold https_endpoint, env_or. split.
  - intros (v & rest & -> & H). exists rest.
    destruct (Str.nonempty v) eqn:E; [exact H|].
    apply StrFacts.nonempty_false in E. subst v. discriminate.
  - destruct (env "OPENSEARCH_URL") as [v|].
    + destruct (Str.nonempty v); intros [rest H].
      * now exists v, rest.
      * discriminate.
    + intros [rest H]. discriminate.
Qed.

Lemma https_endpoint_nullish (env : Env) :
  https_endpoint env <->
  Str.startsWith (Str.toLowerCase (Str.trim (env_nullish env "OPENSEARCH_URL" "")))
                 "https://" = true.
Proof.
  unfold Str.startsWith. rewrite StrFacts.prefix_iff. unfold https_endpoint, env_nullish. split.
  - intros (v & rest & -> & H). now exists rest.
  - destruct (env "OPENSEARCH_URL") as [v|]; intros [rest H].
    + now exists v, rest.
    + discriminate.
Qed.

Lemma script_resolved (env : Env) :
  CreateIndexJs.getRejectUnauthorized env =
  resolved (is_false_like (Str.toLowerCase (env_or env "OPENSEARCH_SSL_VERIFY" "")))
           (is_false_like (Str.toLowerCase (env_or env "OPENSEARCH_SSL_REJECT_UNAUTHORIZED" "")))
           (negb (match env "NODE_ENV" with Some v => v =? "production" | None => false end))
           (Str.startsWith (Str.toLowerCase (Str.trim (env_or env "OPENSEARCH_URL" "")))
                           "https://").
Proof.
  unfold CreateIndexJs.getRejectUnauthorized, resolved, is_false_like.
  repeat match goal with |- context [if ?b then _ else _] => destruct b; simpl end;
    reflexivity.
Qed.

Lemma client_resolved (env : Env) :
  OpensearchClientTs.getRejectUnauthorized env =
  resolved (is_false_like (Str.toLowerCase (env_nullish env "OPENSEARCH_SSL_VERIFY" "")))
           (is_false_like
              (Str.toLowerCase (env_nullish env "OPENSEARCH_SSL_REJECT_UNAUTHORIZED" "")))
           (negb (match env "NODE_ENV" with Some v => v =? "production" | None => false end))
           (Str.startsWith (Str.toLowerCase (Str.trim (env_nullish env "OPENSEARCH_URL" "")))
                           "https://").
Proof.
  unfold OpensearchClientTs.getRejectUnauthorized, resolved, is_false_like.
  repeat match goal with |- context [if ?b then _ else _] => destruct b; simpl end;
    reflexivity.
Qed.

(** The index-creation script resolves TLS verification with the precedence
    of the specification: a false-like [OPENSEARCH_SSL_VERIFY] skips
    verification whatever else is set; otherwise a false-like
    [OPENSEARCH_SSL_REJECT_UNAUTHORIZED] skips it; otherwise an https endpoint
    outside production skips it; otherwise verification is enabled. *)
Theorem script_tls_precedence (env : Env) :
  (false_like env "OPENSEARCH_SSL_VERIFY" ->
   CreateIndexJs.getRejectUnauthorized env = false) /\
  (~ false_like env "OPENSEARCH_SSL_VERIFY" ->
   false_like env "OPENSEARCH_SSL_REJECT_UNAUTHORIZED" ->
   CreateIndexJs.getRejectUnauthorized env = false) /\
  (~ false_like env "OPENSEARCH_SSL_VERIFY" ->
   ~ false_like env "OPENSEARCH_SSL_REJECT_UNAUTHORIZED" ->
   non_production env -> https_endpoint env ->
   CreateIndexJs.getRejectUnauthorized env = false) /\
  (~ false_like env "OPENSEARCH_SSL_VERIFY" ->
   ~ false_like env "OPENSEARCH_SSL_REJECT_UNAUTHORIZED" ->
   ~ (non_production env /\ https_endpoint env) ->
   CreateIndexJs.getRejectUnauthorized env = true).
Proof.
  rewrite script_resolved.
  rewrite !false_like_or, non_production_iff, https_endpoint_or.
  unfold resolved.
  destruct (is_false_like (Str.toLowerCase (env_or env "OPENSEARCH_SSL_VERIFY" "")));
  destruct (is_false_like
              (Str.toLowerCase (env_or env "OPENSEARCH_SSL_REJECT_UNAUTHORIZED" "")));
  destruct (negb (match env "NODE_ENV" with Some v => v =? "production" | None => false end));
  destruct (Str.startsWith (Str.toLowerCase (Str.trim (env_or env "OPENSEARCH_URL" "")))
                           "https://");
  simpl; repeat split; intros; try reflexivity; try congruence; exfalso; tauto.
Qed.

(** The client module that follows the script resolves TLS verification with
    the same precedence. *)
Theorem client_tls_precedence (env : Env) :
  (false_like env "OPENSEARCH_SSL_VERIFY" ->
   OpensearchClientTs.getRejectUnauthorized env = false) /\
  (~ false_like env "OPENSEARCH_SSL_VERIFY" ->
   false_like env "OPENSEARCH_SSL_REJECT_UNAUTHORIZED" ->
   OpensearchClientTs.getRejectUnauthorized env = false) /\
  (~ false_like env "OPENSEARCH_SSL_VERIFY" ->
   ~ false_like env "OPENSEARCH_SSL_REJECT_UNAUTHORIZED" ->
   non_production env -> https_endpoint env ->
   OpensearchClientTs.getRejectUnauthorized env = false) /\
  (~ false_like env "OPENSEARCH_SSL_VERIFY" ->
   ~ false_like env "OPENSEARCH_SSL_REJECT_UNAUTHORIZED" ->
   ~ (non_production env /\ https_endpoint env) ->
   OpensearchClientTs.getRejectUnauthorized env = true).
Proof.
  rewrite client_resolved.
  rewrite !false_like_nullish, non_production_iff, https_endpoint_nullish.
  unfold resolved.
  destruct (is_false_like (Str.toLowerCase (env_nullish env "OPENSEARCH_SSL_VERIFY" "")));
  destruct (is_false_like
              (Str.toLowerCase (env_nullish env "OPENSEARCH_SSL_REJECT_UNAUTHORIZED" "")));
  destruct (negb (match env "NODE_ENV" with Some v => v =? "production" | None => false end));
  destruct (Str.startsWith (Str.toLowerCase (Str.trim (env_nullish env "OPENSEARCH_URL" "")))
                           "https://");
  simpl; repeat split; intros; try reflexivity; try congruence; exfalso; tauto.
Qed.

(** C4, at the failing inputs: with [OPENSEARCH_SSL_VERIFY=false] and nothing
    else set, and with an https endpoint outside production and no override,
    [getRejectUnauthorized] of [frontend/src/lib/opensearch.ts] answers [true]
    (verification stays enabled), where the script and the other client
    module answer [false]. *)
Theorem lib_ignores_ssl_verify :
  OpensearchTs.getRejectUnauthorized (env_of [("OPENSEARCH_SSL_VERIFY", "false")]) = true /\
  CreateIndexJs.getRejectUnauthorized (env_of [("OPENSEARCH_SSL_VERIFY", "false")]) = false /\
  OpensearchClientTs.getRejectUnauthorized (env_of [("OPENSEARCH_SSL_VERIFY", "false")])
    = false /\
  OpensearchTs.getRejectUnauthorized
    (env_of [("NODE_ENV", "development"); ("OPENSEARCH_URL", "https://search.example.com")])
    = true /\
  CreateIndexJs.getRejectUnauthorized
    (env_of [("NODE_ENV", "development"); ("OPENSEARCH_URL", "https://search.example.com")])
    = false /\
  OpensearchClientTs.getRejectUnauthorized
    (env_of [("NODE_ENV", "development"); ("OPENSEARCH_URL", "https://search.example.com")])
    = false.
Proof. repeat split; reflexivity. Qed.

End TlsFacts.


(** ** Handlers *)

Module MFacts.
Import Js.

(** One step of a handler: the binds and calls reduce, a reply with a
    status the handler writes out is built, the rest stays. *)
Ltac run :=
  cbn [bind call lift ret try_catch emit fst snd app negb
       NextResponse_json valid_status Z.leb Z.eqb Z.compare Pos.compare
       Pos.compare_cont Pos.eqb andb orb].

(** Case analysis on every answer of the outside and every test that the
    outcome [H] of a handler depends on. *)
Ltac split_handler H :=
  repeat (cbn [bind call lift ret try_catch emit fst snd app negb
               NextResponse_json valid_status Z.leb Z.eqb Z.compare Pos.compare
               Pos.compare_cont Pos.eqb andb orb] in H;
          match type of H with
          | context [NextResponse_json _ ?z] =>
              unfold NextResponse_json in H; destruct (valid_status z) eqn:?
          | context [match ?x with _ => _ end] =>
              let T := type of x in
              match T with
              | completion _ => destruct x eqn:?
              | bool => destruct x eqn:?
              | option _ => destruct x eqn:?
              end
          end).

(** A [try] block that ends normally keeps its outcome. *)
Lemma snd_try_catch_normal {A} (m : M A) (h : thrown -> M A) (a : A) :
  snd m = Normal a -> snd (try_catch m h) = Normal a.
Proof. destruct m as [tr [a'|t]]; simpl; [auto | discriminate]. Qed.

End MFacts.

(** ** The direct route *)

Module SemanticFacts.
Import Js Semantic MFacts.

Section Route.
Context {engine : Engine}.

Lemma POST_searched cfg w question queryVector searchResponse :
  Searched cfg w question queryVector searchResponse ->
  POST cfg w =
  ((search_trace cfg question queryVector ++
    fst (try_catch (on_search_reply cfg w question queryVector searchResponse) on_error))%list,
   snd (try_catch (on_search_reply cfg w question queryVector searchResponse) on_error)).
Proof.
  intros ((body & Hbody & Hmsg) & Htruthy & Hkey & Hurl & (er & Her & Hvec) & Hfetch).
  unfold POST, search_trace. run. rewrite Hbody. run. rewrite Hmsg. run.
  rewrite Htruthy, Hkey, Hurl. run. rewrite Her. run. rewrite Hvec. run.
  rewrite Hfetch. run.
  destruct (on_search_reply cfg w question queryVector searchResponse) as [tr' [a|t]];
    run; [reflexivity|].
  destruct (on_error t); reflexivity.
Qed.

Lemma POST_retrieved cfg w question queryVector found :
  Retrieved cfg w question queryVector found ->
  POST cfg w =
  ((retrieval_trace cfg question queryVector ++
    fst (try_catch (respond cfg w question queryVector found) on_error))%list,
   snd (try_catch (respond cfg w question queryVector found) on_error)).
Proof.
  intros (searchResponse & searchData & Hs & Hok & Hjson & Hhits).
  rewrite (POST_searched _ _ _ _ _ Hs).
  unfold on_search_reply, answer_from, retrieval_trace.
  rewrite Hok. run. rewrite Hjson. run. rewrite Hhits. run.
  destruct (respond cfg w question queryVector found) as [tr' [a|t]];
    run; rewrite <- app_assoc; [reflexivity|].
  destruct (on_error t); reflexivity.
Qed.

(** *** Context assembly *)

Lemma mapi_from_ranked (i : nat) (found : list OpenSearchHit) :
  mapi_from i
    (fun hit j => "Document " ++ Str.dec (j + 1) ++ ":" ++ Str.LF ++ text (_source hit))
    found =
  map ContextSpec.rendered (combine (seq (S i) (List.length found)) found).
Proof.
  revert i. induction found as [|hit found IH]; intros i; simpl; [reflexivity|].
  rewrite IH. unfold ContextSpec.rendered at 1. simpl fst. simpl snd.
  now rewrite Nat.add_1_r.
Qed.

Lemma context_rendering (found : list OpenSearchHit) :
  context found = ContextSpec.rendering found.
Proof.
  unfold context, ContextSpec.rendering, ContextSpec.ranked, mapi, Str.join.
  now rewrite mapi_from_ranked.
Qed.

Lemma respond_generated cfg w question queryVector found shown completion :
  (1 <= List.length found)%nat ->
  ToString question = Normal shown ->
  chat_completions_create w (chat_params cfg (context found) shown) = Normal completion ->
  respond cfg w question queryVector found =
  ([ChatCompletionsCreate (chat_params cfg (context found) shown)],
   Normal {| status := 200; body := VObj [
     ("answer", VStr (answer_of completion));
     ("search_type", VStr "semantic");
     ("docs_retrieved", VNum (of_nat (List.length found)));
     ("retrieved_docs", VArr (retrievedDocs found));
     ("search_info", searchInfo cfg queryVector)] |}).
Proof.
  intros HK Hshown Hchat. unfold respond.
  destruct (Nat.eqb_spec (List.length found) 0) as [E|_]; [lia|].
  rewrite Hshown. run. rewrite Hchat. reflexivity.
Qed.

Lemma respond_failed cfg w question queryVector found shown t :
  (1 <= List.length found)%nat ->
  ToString question = Normal shown ->
  chat_completions_create w (chat_params cfg (context found) shown) = Throw t ->
  respond cfg w question queryVector found =
  ([ChatCompletionsCreate (chat_params cfg (context found) shown)], Throw t).
Proof.
  intros HK Hshown Hchat. unfold respond.
  destruct (Nat.eqb_spec (List.length found) 0) as [E|_]; [lia|].
  rewrite Hshown. run. rewrite Hchat. reflexivity.
Qed.

(** C1. For K >= 1 retrieved documents, the context string handed to the
    generation model is the rendering of the documents in input order, each
    as [Document <i>:], a line feed and its text, with i from 1 to K, joined
    by the fixed separator; and the rendering is a function of the
    documents. *)
Theorem context_passed_to_generation cfg w question queryVector found shown :
  (1 <= List.length found)%nat ->
  Retrieved cfg w question queryVector found ->
  ToString question = Normal shown ->
  (exists params rest,
     fst (POST cfg w) =
       (retrieval_trace cfg question queryVector ++ ChatCompletionsCreate params :: rest)%list /\
     user_content params =
       "CONTEXT:" ++ Str.LF ++ ContextSpec.rendering found ++ Str.LF ++ Str.LF ++
       "QUESTION: " ++ shown ++ Str.LF ++ Str.LF ++
       "ANSWER (use specific numbers from the context):") /\
  context found = ContextSpec.rendering found /\
  (forall again, again = found -> context again = context found).
Proof.
  intros HK Hret Hshown. split; [|split].
  - rewrite (POST_retrieved _ _ _ _ _ Hret).
    exists (chat_params cfg (context found) shown).
    destruct (chat_completions_create w (chat_params cfg (context found) shown))
      as [completion|t] eqn:Hchat.
    + rewrite (respond_generated _ _ _ _ _ _ _ HK Hshown Hchat). run.
      exists []. split; [reflexivity|].
      unfold chat_params, user_prompt. simpl user_content.
      now rewrite context_rendering.
    + rewrite (respond_failed _ _ _ _ _ _ _ HK Hshown Hchat). unfold on_error. run.
      exists [ConsoleError [LogStr "Semantic search API error:"; LogThrown t]].
      split; [reflexivity|].
      unfold chat_params, user_prompt. simpl user_content.
      now rewrite context_rendering.
  - apply context_rendering.
  - now intros again ->.
Qed.

(** *** The empty result *)

(** C2. When the vector search returns zero hits, the reply carries
    [docs_retrieved] 0 and an answer containing [No relevant documents
    found], and the generation provider is not called. *)
Theorem no_documents_short_circuit cfg w question queryVector :
  Retrieved cfg w question queryVector [] ->
  exists answer,
    POST cfg w =
      (retrieval_trace cfg question queryVector,
       Normal {| status := 200; body := VObj [
         ("answer", VStr answer);
         ("search_type", VStr "semantic");
         ("docs_retrieved", VNum 0%float)] |}) /\
    Str.includes answer "No relevant documents found" = true /\
    (forall params, ~ In (ChatCompletionsCreate params) (fst (POST cfg w))).
Proof.
  intros Hret. exists no_documents.
  rewrite (POST_retrieved _ _ _ _ _ Hret). unfold respond. simpl Nat.eqb. cbv iota. run.
  rewrite app_nil_r. repeat split.
  intros params Hin. unfold retrieval_trace, search_trace in Hin. simpl in Hin.
  repeat (destruct Hin as [Hin|Hin]; [discriminate|]). exact Hin.
Qed.

(** *** A failed search *)

(** C5, amended. When the index replies with a status outside 200 to 299,
    the reply is HTTP 502 with the fixed message [Failed to search
    OpenSearch], whatever the status; the message differs from the one for
    an unreachable index, and the body of the index's reply is logged. *)
Theorem search_failed_response cfg w question queryVector searchResponse errorText :
  Searched cfg w question queryVector searchResponse ->
  ok_status (response_status searchResponse) = false ->
  response_text searchResponse = Normal errorText ->
  POST cfg w =
    ((search_trace cfg question queryVector ++
      [ResponseText; ConsoleError [LogStr "OpenSearch error:"; LogStr errorText]])%list,
     Normal {| status := 502; body := VObj [("error", VStr "Failed to search OpenSearch")] |}) /\
  "Failed to search OpenSearch" <> unreachable_error cfg.
Proof.
  intros Hs Hok Htext. split.
  - rewrite (POST_searched _ _ _ _ _ Hs). unfold on_search_reply.
    rewrite Hok. run. rewrite Htext. run. reflexivity.
  - unfold unreachable_error. simpl. intros H. discriminate H.
Qed.

(** *** Generation *)

Lemma answer_of_empty (completion : ChatCompletion) :
  GenerationSpec.empty_output completion -> answer_of completion = no_generation.
Proof.
  unfold GenerationSpec.empty_output, answer_of.
  destruct (choices completion) as [|[[[[c|]]|]] rest]; simpl; try reflexivity.
  intros [H|H]; [discriminate|]. injection H as ->. reflexivity.
Qed.

(** C6, amended. Once retrieval succeeded with at least one document: an
    empty generation output gives the answer [No response generated.] in a
    reply with all the fields of an answer; an error thrown by the
    generation provider ends the request with HTTP 500 and the error's
    message. *)
Theorem generation_fallback cfg w question queryVector found shown :
  (1 <= List.length found)%nat ->
  Retrieved cfg w question queryVector found ->
  ToString question = Normal shown ->
  (forall completion,
     chat_completions_create w (chat_params cfg (context found) shown) = Normal completion ->
     GenerationSpec.empty_output completion ->
     snd (POST cfg w) =
       Normal {| status := 200; body := VObj [
         ("answer", VStr "No response generated.");
         ("search_type", VStr "semantic");
         ("docs_retrieved", VNum (of_nat (List.length found)));
         ("retrieved_docs", VArr (retrievedDocs found));
         ("search_info", searchInfo cfg queryVector)] |}) /\
  (forall t,
     chat_completions_create w (chat_params cfg (context found) shown) = Throw t ->
     snd (POST cfg w) =
       Normal {| status := 500; body := VObj [("error", VStr (error_message t))] |}).
Proof.
  intros HK Hret Hshown. rewrite (POST_retrieved _ _ _ _ _ Hret). split.
  - intros completion Hchat Hempty.
    rewrite (respond_generated _ _ _ _ _ _ _ HK Hshown Hchat). run.
    now rewrite (answer_of_empty _ Hempty).
  - intros t Hchat.
    rewrite (respond_failed _ _ _ _ _ _ _ HK Hshown Hchat). reflexivity.
Qed.

(** *** The fields of an answer *)




(** *** Every request is answered *)

(** The handler never throws, and a reply that is not HTTP 200 is an object
    with an [error] string and nothing else. *)
Theorem semantic_always_answers cfg w :
  exists response,
    snd (POST cfg w) = Normal response /\
    (status response = 200%Z \/ exists error, body response = VObj [("error", VStr error)]).
Proof.
  destruct (POST cfg w) as [tr r] eqn:H.
  unfold POST, on_search_reply, answer_from, respond, on_error in H.
  split_handler H; injection H as <- <-; eexists; (split; [reflexivity|]);
    first [left; reflexivity | right; eexists; reflexivity].
Qed.

(** A body without a truthy [message] is answered HTTP 400 with a fixed
    error, before any provider is called. *)
Theorem semantic_missing_message cfg w body question :
  request_json w = Normal body ->
  get body "message" = Normal question ->
  truthy question = false ->
  POST cfg w =
    ([RequestJson], Normal {| status := 400; body := VObj [("error", VStr "Message is required")] |}).
Proof.
  intros Hbody Hmsg Hfalsy. unfold POST. run. rewrite Hbody. run. rewrite Hmsg. run.
  rewrite Hfalsy. reflexivity.
Qed.

End Route.

(** *** The scenarios *)

Lemma sim_searched st text found generated :
  @Searched Sim.engine Sim.semantic_config
    (Sim.semantic_world (Sim.search_reply st text found) generated)
    (VStr "asdkjalksjd nonsense query") Sim.vector (Sim.search_reply st text found).
Proof.
  unfold Searched. split; [|split; [|split; [|split; [|split]]]]; try reflexivity.
  - exists Sim.semantic_request. split; reflexivity.
  - eexists. split; reflexivity.
Qed.

Lemma sim_retrieved found generated :
  @Retrieved Sim.engine Sim.semantic_config
    (Sim.semantic_world (Sim.search_reply 200 "" found) generated)
    (VStr "asdkjalksjd nonsense query") Sim.vector found.
Proof.
  eexists. eexists. split; [apply sim_searched|]. repeat split.
Qed.

(** C1 on two documents: the generation provider receives both, ranked 1
    and 2, around the separator. *)
Lemma context_passed_to_generation_witness :
  context Sim.two_hits =
    "Document 1:" ++ Str.LF ++ "Platinum card APR is 19.99%." ++
    Str.LF ++ Str.LF ++ "---" ++ Str.LF ++ Str.LF ++
    "Document 2:" ++ Str.LF ++ "Auto loans start at 5.5%." /\
  context Sim.two_hits = ContextSpec.rendering Sim.two_hits.
Proof.
  split; [reflexivity|].
  refine (proj1 (proj2 (@context_passed_to_generation Sim.engine Sim.semantic_config
            (Sim.semantic_world (Sim.search_reply 200 "" Sim.two_hits)
               (Normal (Sim.generated_text (Some "19.99%"))))
            (VStr "asdkjalksjd nonsense query") Sim.vector Sim.two_hits
            "asdkjalksjd nonsense query" _ _ _))).
  - simpl. lia.
  - apply sim_retrieved.
  - reflexivity.
Defined.

(** C2 on the scenario of the specification: the index returns zero hits for
    [asdkjalksjd nonsense query]. *)
Lemma no_documents_short_circuit_witness :
  exists answer,
    @POST Sim.engine Sim.semantic_config
      (Sim.semantic_world (Sim.search_reply 200 "" [])
         (Normal (Sim.generated_text (Some "made up")))) =
      (@retrieval_trace Sim.engine Sim.semantic_config
         (VStr "asdkjalksjd nonsense query") Sim.vector,
       Normal {| status := 200; body := VObj [
         ("answer", VStr answer);
         ("search_type", VStr "semantic");
         ("docs_retrieved", VNum 0%float)] |}) /\
    Str.includes answer "No relevant documents found" = true /\
    (forall params,
       ~ In (ChatCompletionsCreate params)
            (fst (@POST Sim.engine Sim.semantic_config
                    (Sim.semantic_world (Sim.search_reply 200 "" [])
                       (Normal (Sim.generated_text (Some "made up"))))))).
Proof.
  apply (@no_documents_short_circuit Sim.engine). apply sim_retrieved.
Defined.

(** C5 as stated fails: the index replies 404, and the message of the 502
    reply does not include the status. *)
Lemma search_failed_omits_status :
  exists message,
    snd (@POST Sim.engine Sim.semantic_config
           (Sim.semantic_world (Sim.search_reply 404 "index_not_found_exception" [])
              (Throw OtherThrown))) =
      Normal {| status := 502; body := VObj [("error", VStr message)] |} /\
    Str.includes message (Str.decZ 404) = false.
Proof.
  exists "Failed to search OpenSearch". split; vm_compute; reflexivity.
Qed.

(** C5, amended, on the same reply: status 404 from the index. *)
Lemma search_failed_response_witness :
  @POST Sim.engine Sim.semantic_config
    (Sim.semantic_world (Sim.search_reply 404 "index_not_found_exception" [])
       (Throw OtherThrown)) =
    ((@search_trace Sim.engine Sim.semantic_config
        (VStr "asdkjalksjd nonsense query") Sim.vector ++
      [ResponseText;
       ConsoleError [LogStr "OpenSearch error:"; LogStr "index_not_found_exception"]])%list,
     Normal {| status := 502; body := VObj [("error", VStr "Failed to search OpenSearch")] |}).
Proof.
  refine (proj1 (@search_failed_response Sim.engine Sim.semantic_config _ _ _ _ _ _ _ _)).
  - apply sim_searched.
  - reflexivity.
  - reflexivity.
Defined.

(** C6 as stated fails: retrieval succeeded with two documents, the
    generation provider throws, and the reply is an HTTP 500 error without an
    answer. *)
Lemma generation_error_aborts :
  @Retrieved Sim.engine Sim.semantic_config
    (Sim.semantic_world (Sim.search_reply 200 "" Sim.two_hits)
       (Throw (ErrorObject "429 Rate limit reached")))
    (VStr "asdkjalksjd nonsense query") Sim.vector Sim.two_hits /\
  snd (@POST Sim.engine Sim.semantic_config
         (Sim.semantic_world (Sim.search_reply 200 "" Sim.two_hits)
            (Throw (ErrorObject "429 Rate limit reached")))) =
    Normal {| status := 500; body := VObj [("error", VStr "429 Rate limit reached")] |}.
Proof.
  split; [apply sim_retrieved | vm_compute; reflexivity].
Qed.

(** C6, amended, on a generation output whose content is [null]. *)
Lemma generation_fallback_witness :
  snd (@POST Sim.engine Sim.semantic_config
         (Sim.semantic_world (Sim.search_reply 200 "" Sim.two_hits)
            (Normal (Sim.generated_text None)))) =
    Normal {| status := 200; body := Sim.two_hit_answer "No response generated." |}.
Proof.
  refine (proj1 (@generation_fallback Sim.engine Sim.semantic_config
            (Sim.semantic_world (Sim.search_reply 200 "" Sim.two_hits)
               (Normal (Sim.generated_text None)))
            (VStr "asdkjalksjd nonsense query") Sim.vector Sim.two_hits
            "asdkjalksjd nonsense query" _ _ _) (Sim.generated_text None) _ _).
  - simpl. lia.
  - apply sim_retrieved.
  - reflexivity.
  - reflexivity.
  - simpl. left. reflexivity.
Defined.



Lemma semantic_missing_message_witness :
  @POST Sim.engine Sim.semantic_config Sim.semantic_world_without_message =
    ([RequestJson], Normal {| status := 400; body := VObj [("error", VStr "Message is required")] |}).
Proof.
  apply (@semantic_missing_message Sim.engine Sim.semantic_config
           Sim.semantic_world_without_message Sim.request_without_message VUndefined);
    reflexivity.
Defined.

End SemanticFacts.

(** ** The delegate route *)

Module ChatFacts.
Import Js Chat MFacts.

Lemma html_preamble_iff (responseText : string) :
  HtmlSpec.html_preamble responseText <-> isHtml (Str.trim responseText) = true.
Proof.
  unfold HtmlSpec.html_preamble, isHtml. rewrite orb_true_iff.
  rewrite !StrFacts.startsWith_toLowerCase. split.
  - intros (opening & rest & E & [H|H]); [left|right]; now exists opening, rest.
  - intros [(opening & rest & E & H)|(opening & rest & E & H)];
      exists opening, rest; tauto.
Qed.

Lemma not_html_preamble (responseText : string) :
  ~ HtmlSpec.html_preamble responseText -> isHtml (Str.trim responseText) = false.
Proof.
  rewrite html_preamble_iff. now destruct (isHtml (Str.trim responseText)).
Qed.

Section Route.
Context {engine : Engine}.

Lemma POST_replied cfg w message session_id st responseText :
  Replied cfg w message session_id st responseText ->
  POST cfg w =
  ((request_trace cfg w message session_id ++
    fst (try_catch (reply cfg message (session_of w session_id) st responseText) on_error))%list,
   snd (try_catch (reply cfg message (session_of w session_id) st responseText) on_error)).
Proof.
  intros ((body & Hbody & Hmsg & Hsid) & Htruthy & (resp & Hfetch & Hst & Htext)).
  unfold POST, request_trace. run. rewrite Hbody. run. rewrite Hmsg. run.
  rewrite Hsid. run. rewrite Htruthy. run.
  unfold session_of in *.
  destruct (truthy session_id); run; rewrite Hfetch; run; rewrite Htext, Hst; run;
    destruct (reply cfg message _ st responseText) as [tr' [a|t]]; run;
    try reflexivity; destruct (on_error t); reflexivity.
Qed.

(** *** HTML instead of JSON *)

(** C8. When the body of the upstream reply, trimmed, begins with
    [<!doctype] or [<html] in any letter case, the route answers HTTP 502
    without calling [JSON.parse]; the message gives the missing-key guidance
    when no API key is configured and points at the key and the flow id
    when one is, and in both cases at the base URL. *)
Theorem html_page_detected cfg w message session_id st responseText :
  Replied cfg w message session_id st responseText ->
  HtmlSpec.html_preamble responseText ->
  exists trace error,
    POST cfg w = (trace, Normal {| status := 502; body := VObj [("error", VStr error)] |}) /\
    (forall text, ~ In (JsonParse text) trace) /\
    (LANGFLOW_API_KEY cfg = "" ->
     error =
       "Langflow returned a page instead of JSON." ++
       " Langflow 1.5+ requires an API key: add LANGFLOW_API_KEY to frontend/.env.local (create one in Langflow: Settings → API Keys). Or run Langflow with LANGFLOW_SKIP_AUTH_AUTO_LOGIN=true for local dev without auth." ++
       " Also ensure LANGFLOW_URL is the base URL (e.g. http://localhost:7860) and the flow is built and running.") /\
    (LANGFLOW_API_KEY cfg <> "" ->
     error =
       "Langflow returned a page instead of JSON." ++
       " Check that LANGFLOW_API_KEY is valid and LANGFLOW_FLOW_ID matches your flow in the Langflow UI." ++
       " Also ensure LANGFLOW_URL is the base URL (e.g. http://localhost:7860) and the flow is built and running.").
Proof.
  intros Hrep Hhtml. apply html_preamble_iff in Hhtml.
  rewrite (POST_replied _ _ _ _ _ _ Hrep). unfold reply. rewrite Hhtml. run.
  eexists. exists (html_error (LANGFLOW_API_KEY cfg)). split; [reflexivity|].
  split; [|split].
  - intros text Hin. unfold request_trace in Hin.
    apply in_app_or in Hin. destruct Hin as [Hin|Hin].
    + apply in_app_or in Hin. destruct Hin as [Hin|Hin].
      * destruct (truthy session_id); simpl in Hin;
          repeat (destruct Hin as [Hin|Hin]; [discriminate|]); exact Hin.
      * simpl in Hin. repeat (destruct Hin as [Hin|Hin]; [discriminate|]). exact Hin.
    + simpl in Hin. repeat (destruct Hin as [Hin|Hin]; [discriminate|]). exact Hin.
  - intros Hkey. unfold html_error, authHint. rewrite Hkey. reflexivity.
  - intros Hkey. unfold html_error, authHint.
    apply StrFacts.nonempty_true in Hkey. rewrite Hkey. reflexivity.
Qed.

(** *** Upstream errors *)

Lemma get_entry (v : value) (k : string) :
  nullish v = false -> get v k = Normal (read v k).
Proof. now destruct v. Qed.

Lemma opt_get_entry (v : value) (k : string) :
  nullish v = false -> opt_get v k = read v k.
Proof. unfold opt_get. now intros ->. Qed.

Lemma first_present_entry (errorData v : value) :
  ErrorSpec.first_present errorData = Some v -> nullish errorData = false.
Proof. destruct errorData; try reflexivity; discriminate. Qed.

Lemma upstream_error_message st responseText errorData v shown :
  valid_status st = true ->
  JSON_parse responseText = Normal errorData ->
  ErrorSpec.first_present errorData = Some v ->
  ToString v = Normal shown ->
  snd (upstream_error st responseText) =
    Normal {| status := st; body := VObj [("error", VStr ("Langflow error: " ++ shown))] |}.
Proof.
  intros Hvalid Hparse Hfirst Hshown.
  pose proof (first_present_entry _ _ Hfirst) as Hentry.
  unfold upstream_error, NextResponse_json. rewrite Hvalid. run. rewrite Hparse. run.
  rewrite !(get_entry _ _ Hentry). run. cbn [and_then].
  unfold ErrorSpec.first_present in Hfirst. simpl in Hfirst.
  destruct (truthy (read errorData "detail")).
  - injection Hfirst as ->. run. rewrite Hshown. reflexivity.
  - destruct (truthy (read errorData "message")).
    + injection Hfirst as ->. run. rewrite Hshown. reflexivity.
    + destruct (truthy (read errorData "error")); [|discriminate].
      injection Hfirst as ->. run. rewrite Hshown. reflexivity.
Qed.

Lemma upstream_error_unparsed st responseText t :
  valid_status st = true ->
  JSON_parse responseText = Throw t ->
  snd (upstream_error st responseText) =
    Normal {| status := st;
              body := VObj [("error", VStr ("Langflow API error: " ++ Str.decZ st))] |}.
Proof.
  intros Hvalid Hparse. unfold upstream_error, NextResponse_json. rewrite Hvalid. run.
  rewrite Hparse. reflexivity.
Qed.

(** A status that cannot carry a body: both calls of [NextResponse.json]
    throw, and the outer [catch] answers. *)
Lemma upstream_error_refused st responseText :
  valid_status st = false ->
  snd (try_catch (upstream_error st responseText) on_error) =
    Normal {| status := 500;
              body := VObj [("error", VStr (status_message st))] |}.
Proof.
  intros Hvalid.
  destruct (try_catch (upstream_error st responseText) on_error) as [tr r] eqn:H.
  unfold upstream_error, on_error, NextResponse_json in H. rewrite Hvalid in H.
  split_handler H; injection H as <- <-; reflexivity.
Qed.

Lemma POST_upstream_error cfg w message session_id st responseText :
  Replied cfg w message session_id st responseText ->
  ok_status st = false ->
  ~ HtmlSpec.html_preamble responseText ->
  snd (POST cfg w) = snd (try_catch (upstream_error st responseText) on_error).
Proof.
  intros Hrep Hok Hhtml. rewrite (POST_replied _ _ _ _ _ _ Hrep).
  unfold reply. rewrite (not_html_preamble _ Hhtml), Hok. reflexivity.
Qed.

(** C9, amended. When the upstream status is outside 200 to 299 and the
    body is not an HTML page. For a status that a reply with a body can
    have (300 to 599 without 304): a body that parses as JSON and has a
    truthy [detail], [message] or [error] gives the upstream status and the
    message [Langflow error: ] followed by the first of them, as a string;
    a body that does not parse gives the upstream status and a message
    naming the status only. Status 401 with [{"detail":"invalid key"}]
    gives HTTP 401 and [Langflow error: invalid key]. For any other status
    (304, or one outside 200 to 599) [NextResponse.json] refuses the
    status, and the route answers HTTP 500 with the message of that
    error, which is the engine's, whatever the body. *)
Theorem upstream_error_passthrough cfg w message session_id st responseText :
  Replied cfg w message session_id st responseText ->
  ok_status st = false ->
  ~ HtmlSpec.html_preamble responseText ->
  (valid_status st = true ->
   forall errorData v shown,
     JSON_parse responseText = Normal errorData ->
     ErrorSpec.first_present errorData = Some v ->
     ToString v = Normal shown ->
     snd (POST cfg w) =
       Normal {| status := st;
                 body := VObj [("error", VStr ("Langflow error: " ++ shown))] |}) /\
  (st = 401%Z ->
   JSON_parse responseText = Normal (VObj [("detail", VStr "invalid key")]) ->
   snd (POST cfg w) =
     Normal {| status := 401;
               body := VObj [("error", VStr "Langflow error: invalid key")] |}) /\
  (valid_status st = true ->
   forall t,
     JSON_parse responseText = Throw t ->
     snd (POST cfg w) =
       Normal {| status := st;
                 body := VObj [("error", VStr ("Langflow API error: " ++ Str.decZ st))] |}) /\
  ((300 <= st <= 599)%Z /\ st <> 304%Z <-> valid_status st = true) /\
  (valid_status st = false ->
   snd (POST cfg w) =
     Normal {| status := 500;
               body := VObj [("error", VStr (status_message st))] |}).
Proof.
  intros Hrep Hok Hhtml. rewrite (POST_upstream_error _ _ _ _ _ _ Hrep Hok Hhtml).
  split; [|split; [|split; [|split]]].
  - intros Hvalid errorData v shown Hparse Hfirst Hshown.
    apply snd_try_catch_normal. now apply (upstream_error_message _ _ errorData v).
  - intros -> Hparse. apply snd_try_catch_normal.
    now apply (upstream_error_message _ _ (VObj [("detail", VStr "invalid key")])
                 (VStr "invalid key")).
  - intros Hvalid t Hparse. apply snd_try_catch_normal.
    now apply (upstream_error_unparsed _ _ t).
  - unfold valid_status, ok_status in *. split.
    + intros [[Hlo Hhi] Hne].
      apply andb_true_iff. split; [apply andb_true_iff; split; lia|].
      apply negb_true_iff, orb_false_iff. split; [apply orb_false_iff; split|]; lia.
    + intros H. apply andb_true_iff in H. destruct H as [H Hnull].
      apply andb_true_iff in H. destruct H as [Hlo Hhi].
      apply negb_true_iff, orb_false_iff in Hnull. destruct Hnull as [_ H304].
      apply andb_false_iff in Hok. lia.
  - apply upstream_error_refused.
Qed.

(** *** Answer normalisation *)

Lemma inner_body_carried (innerOutput answer : value) :
  nullish innerOutput = false ->
  inner_body innerOutput answer =
    Normal (match ExtractSpec.carried_text innerOutput with
            | Some text => text
            | None => answer
            end).
Proof.
  intros Hentry. unfold inner_body, ExtractSpec.carried_text, ExtractSpec.text_fields.
  rewrite !(get_entry _ _ Hentry), !(opt_get_entry innerOutput _ Hentry).
  cbn [and_then find].
  destruct (truthy (opt_get (opt_get (read innerOutput "results") "message") "text"));
    [reflexivity|].
  destruct (truthy (opt_get (read innerOutput "results") "text")); [reflexivity|].
  destruct (truthy (opt_get (read innerOutput "message") "text")); reflexivity.
Qed.

Lemma carries_carried (innerOutput : value) :
  ExtractSpec.carries innerOutput = true ->
  exists text, ExtractSpec.carried_text innerOutput = Some text.
Proof.
  unfold ExtractSpec.carries.
  destruct (ExtractSpec.carried_text innerOutput) as [text|]; [eauto | discriminate].
Qed.

Lemma last_carrying_carries (inners : list value) (innerOutput : value) :
  ExtractSpec.last_carrying inners = Some innerOutput ->
  ExtractSpec.carries innerOutput = true.
Proof.
  unfold ExtractSpec.last_carrying.
  destruct (rev (filter ExtractSpec.carries inners)) as [|x l] eqn:E; [discriminate|].
  intros H. injection H as <-.
  assert (Hin : In x (filter ExtractSpec.carries inners)).
  { apply in_rev. rewrite E. now left. }
  apply filter_In in Hin. tauto.
Qed.

Lemma last_text_cons (innerOutput : value) (inners : list value) :
  ExtractSpec.last_text (innerOutput :: inners) =
    match ExtractSpec.last_text inners with
    | Some text => Some text
    | None => ExtractSpec.carried_text innerOutput
    end.
Proof.
  unfold ExtractSpec.last_text.
  destruct (ExtractSpec.last_carrying inners) as [x|] eqn:Hlast.
  - destruct (carries_carried x (last_carrying_carries _ _ Hlast)) as [text Htext].
    rewrite Htext.
    unfold ExtractSpec.last_carrying in *. simpl filter.
    destruct (rev (filter ExtractSpec.carries inners)) as [|y l] eqn:E; [discriminate|].
    injection Hlast as ->.
    destruct (ExtractSpec.carries innerOutput); [|now rewrite E, Htext].
    simpl rev. rewrite E. simpl. now rewrite Htext.
  - unfold ExtractSpec.last_carrying in *. simpl filter.
    destruct (rev (filter ExtractSpec.carries inners)) as [|y l] eqn:E; [|discriminate].
    destruct (ExtractSpec.carries innerOutput) eqn:Hc.
    + simpl rev. rewrite E. reflexivity.
    + rewrite E. unfold ExtractSpec.carries in Hc.
      now destruct (ExtractSpec.carried_text innerOutput).
Qed.

(** The inner loop, which overwrites [answer] at every match, ends with the
    text of the last inner output that carries one. *)
Lemma for_of_inner (inners : list value) (answer : value) :
  forallb ExtractSpec.entry inners = true ->
  for_of inners inner_body answer =
    Normal (match ExtractSpec.last_text inners with
            | Some text => text
            | None => answer
            end).
Proof.
  revert answer. induction inners as [|io inners IH]; intros answer Hall.
  - reflexivity.
  - simpl in Hall. apply andb_true_iff in Hall. destruct Hall as [Hio Hall].
    unfold ExtractSpec.entry in Hio. apply negb_true_iff in Hio.
    cbn [for_of]. rewrite (inner_body_carried _ _ Hio), (IH _ Hall), last_text_cons.
    destruct (ExtractSpec.last_text inners); reflexivity.
Qed.

Lemma for_of_app {S : Type} (xs ys : list value) (body : value -> S -> completion S) (s : S) :
  for_of (xs ++ ys)%list body s = and_then (for_of xs body s) (for_of ys body).
Proof.
  revert s. induction xs as [|x xs IH]; intros s; simpl; [reflexivity|].
  destruct (body x s); [apply IH | reflexivity].
Qed.

Lemma falsy_elements (v : value) : truthy v = false -> ExtractSpec.elements v = [].
Proof.
  destruct v as [| | | |s| |]; try reflexivity; try discriminate.
  destruct s; [reflexivity | discriminate].
Qed.

Lemma iterate_elements (v : value) :
  ExtractSpec.iterable v = true -> iterate v = Normal (ExtractSpec.elements v).
Proof. destruct v; try discriminate; reflexivity. Qed.

Lemma outer_body_scannable (output answer : value) :
  ExtractSpec.output_scannable output = true ->
  outer_body output answer =
    for_of (ExtractSpec.elements (opt_get output "outputs")) inner_body answer /\
  forallb ExtractSpec.entry (ExtractSpec.elements (opt_get output "outputs")) = true.
Proof.
  unfold ExtractSpec.output_scannable. intros H.
  apply andb_true_iff in H. destruct H as [Hentry H].
  unfold ExtractSpec.entry in Hentry. apply negb_true_iff in Hentry.
  unfold outer_body. rewrite (get_entry _ _ Hentry), (opt_get_entry _ _ Hentry).
  cbn [and_then].
  destruct (truthy (read output "outputs")) eqn:Ht.
  - apply andb_true_iff in H. destruct H as [Hit Hall].
    rewrite (iterate_elements _ Hit). cbn [and_then]. now split.
  - rewrite (falsy_elements _ Ht). now split.
Qed.

(** The two loops together visit the inner outputs in order. *)
Lemma for_of_outer (outs : list value) (answer : value) :
  forallb ExtractSpec.output_scannable outs = true ->
  for_of outs outer_body answer =
    for_of (ExtractSpec.inner_outputs outs) inner_body answer /\
  forallb ExtractSpec.entry (ExtractSpec.inner_outputs outs) = true.
Proof.
  revert answer. induction outs as [|output outs IH]; intros answer Hall.
  - now split.
  - simpl in Hall. apply andb_true_iff in Hall. destruct Hall as [Ho Hall].
    destruct (outer_body_scannable output answer Ho) as [Hbody Hentries].
    unfold ExtractSpec.inner_outputs. cbn [flat_map for_of].
    fold (ExtractSpec.inner_outputs outs).
    rewrite forallb_app, Hentries, for_of_app, Hbody.
    rewrite (for_of_inner _ _ Hentries). cbn [and_then].
    destruct (IH (match ExtractSpec.last_text
                          (ExtractSpec.elements (opt_get output "outputs")) with
                  | Some text => text
                  | None => answer
                  end) Hall) as [IH1 IH2].
    now rewrite IH1, IH2.
Qed.

(** On a scannable body the extraction completes, and the answer after the
    fallback is the amended reading. *)
Lemma extract_answer_dispatched (langflowData : value) :
  ExtractSpec.scannable langflowData = true ->
  exists raw,
    extract_answer langflowData = Normal raw /\
    or_no_response raw = ExtractSpec.dispatched langflowData.
Proof.
  unfold ExtractSpec.scannable. intros H.
  apply andb_true_iff in H. destruct H as [Hentry H].
  unfold ExtractSpec.entry in Hentry. apply negb_true_iff in Hentry.
  unfold extract_answer, ExtractSpec.dispatched, ExtractSpec.or_literal, or_no_response,
    no_response.
  rewrite !(get_entry _ _ Hentry). cbn [and_then].
  destruct (truthy (read langflowData "outputs")) eqn:Ho.
  - apply andb_true_iff in H. destruct H as [Hit Hall].
    rewrite (iterate_elements _ Hit). cbn [and_then].
    destruct (for_of_outer _ (VStr "") Hall) as [E Hentries].
    rewrite E, (for_of_inner _ _ Hentries). eexists. split; [reflexivity|].
    unfold ExtractSpec.yield_outputs.
    destruct (ExtractSpec.last_text _) as [text|];
      [destruct (truthy text) | ]; reflexivity.
  - destruct (truthy (read langflowData "result")) eqn:Hr.
    + unfold ExtractSpec.yield_result.
      destruct (read langflowData "result") eqn:E;
        try discriminate Hr; try rewrite Hr.
      all: try match goal with
               | |- context [if ?c then Normal _ else Normal _] => destruct c
               end.
      all: eexists; (split; [reflexivity|]).
      all: match goal with
           | |- context [negb (truthy ?x)] => destruct (truthy x)
           end; try reflexivity; discriminate Hr.
    + cbn [and_then]. unfold ExtractSpec.yield_text.
      destruct (truthy (read langflowData "text")) eqn:Ht;
        eexists; (split; [reflexivity|]); try rewrite Ht; reflexivity.
Qed.

Lemma forallb_false {A : Type} (f : A -> bool) (l : list A) :
  forallb f l = false -> exists x, In x l /\ f x = false.
Proof.
  induction l as [|a l IH]; simpl; [discriminate|].
  destruct (f a) eqn:E; simpl.
  - intros H. destruct (IH H) as (x & Hin & Hx). exists x. auto.
  - intros _. exists a. auto.
Qed.

Lemma for_of_throws {S : Type} (xs : list value) (body : value -> S -> completion S) :
  (exists x, In x xs /\ forall s, exists t, body x s = Throw t) ->
  forall s, exists t, for_of xs body s = Throw t.
Proof.
  induction xs as [|a xs IH]; intros (x & Hin & Hx) s; [contradiction|].
  simpl. destruct (body a s) as [s'|t] eqn:E; [|eauto].
  destruct Hin as [->|Hin].
  - destruct (Hx s) as [t Ht]. congruence.
  - apply IH. eauto.
Qed.

Lemma inner_body_null (innerOutput : value) :
  ExtractSpec.entry innerOutput = false -> forall answer, exists t,
  inner_body innerOutput answer = Throw t.
Proof.
  intros H answer. destruct innerOutput; try discriminate H; eexists; reflexivity.
Qed.

Lemma outer_body_unscannable (output : value) :
  ExtractSpec.output_scannable output = false -> forall answer, exists t,
  outer_body output answer = Throw t.
Proof.
  unfold ExtractSpec.output_scannable. intros H answer.
  destruct (ExtractSpec.entry output) eqn:Hentry.
  - unfold ExtractSpec.entry in Hentry. apply negb_true_iff in Hentry.
    unfold outer_body. rewrite (get_entry _ _ Hentry). cbn [and_then].
    simpl in H. destruct (truthy (read output "outputs")); [|discriminate].
    destruct (ExtractSpec.iterable (read output "outputs")) eqn:Hit.
    + rewrite (iterate_elements _ Hit). cbn [and_then]. simpl in H.
      destruct (forallb_false _ _ H) as (x & Hin & Hx).
      apply for_of_throws. exists x. split; [exact Hin|]. now apply inner_body_null.
    + destruct (read output "outputs"); try discriminate Hit; eexists; reflexivity.
  - destruct output; try discriminate Hentry; eexists; reflexivity.
Qed.

(** Outside the scannable bodies the extraction raises a [TypeError]. *)
Lemma extract_answer_unscannable (langflowData : value) :
  ExtractSpec.scannable langflowData = false ->
  exists t, extract_answer langflowData = Throw t.
Proof.
  unfold ExtractSpec.scannable. intros H.
  destruct (ExtractSpec.entry langflowData) eqn:Hentry.
  - unfold ExtractSpec.entry in Hentry. apply negb_true_iff in Hentry.
    unfold extract_answer. rewrite (get_entry _ _ Hentry). cbn [and_then].
    simpl in H. destruct (truthy (read langflowData "outputs")); [|discriminate].
    destruct (ExtractSpec.iterable (read langflowData "outputs")) eqn:Hit.
    + rewrite (iterate_elements _ Hit). cbn [and_then]. simpl in H.
      destruct (forallb_false _ _ H) as (x & Hin & Hx).
      apply for_of_throws. exists x. split; [exact Hin|]. now apply outer_body_unscannable.
    + destruct (read langflowData "outputs"); try discriminate Hit; eexists; reflexivity.
  - destruct langflowData; try discriminate Hentry; eexists; reflexivity.
Qed.

Lemma POST_success cfg w message session_id st responseText langflowData :
  Replied cfg w message session_id st responseText ->
  ok_status st = true ->
  ~ HtmlSpec.html_preamble responseText ->
  JSON_parse responseText = Normal langflowData ->
  snd (POST cfg w) =
    match extract_answer langflowData with
    | Normal raw =>
        Normal {| status := 200; body := VObj [
          ("answer", or_no_response raw);
          ("session_id", session_of w session_id);
          ("search_type", VStr "hybrid");
          ("search_info", searchInfo cfg message)] |}
    | Throw t => Normal {| status := 500; body := VObj [("error", VStr (error_message t))] |}
    end.
Proof.
  intros Hrep Hok Hhtml Hparse. rewrite (POST_replied _ _ _ _ _ _ Hrep).
  unfold reply, success. rewrite (not_html_preamble _ Hhtml), Hok. run.
  rewrite Hparse. run.
  destruct (extract_answer langflowData); reflexivity.
Qed.

(** C3, amended. For a JSON body of a successful upstream reply that the
    extraction can scan, the answer comes from one shape only, the first
    whose top-level field is truthy, in the order [outputs] (the nested
    texts), [result] (a string, else its [text], else its serialisation),
    [text]; when that shape yields no text, or no field is present, the
    answer is [No response received from the RAG system.]; the body with
    [42] under [outputs[].outputs[].results.text] gives the answer [42]. A
    body the extraction cannot scan ends in HTTP 500. *)
Theorem answer_normalisation cfg w message session_id st responseText langflowData :
  Replied cfg w message session_id st responseText ->
  ok_status st = true ->
  ~ HtmlSpec.html_preamble responseText ->
  JSON_parse responseText = Normal langflowData ->
  (ExtractSpec.scannable langflowData = true ->
   snd (POST cfg w) =
     Normal {| status := 200; body := VObj [
       ("answer", ExtractSpec.dispatched langflowData);
       ("session_id", session_of w session_id);
       ("search_type", VStr "hybrid");
       ("search_info", searchInfo cfg message)] |}) /\
  (ExtractSpec.scannable langflowData = false ->
   exists error,
     snd (POST cfg w) = Normal {| status := 500; body := VObj [("error", VStr error)] |}) /\
  (truthy (read langflowData "outputs") = false ->
   truthy (read langflowData "result") = false ->
   truthy (read langflowData "text") = false ->
   ExtractSpec.dispatched langflowData = VStr "No response received from the RAG system.") /\
  ExtractSpec.scannable Sim.json_42 = true /\
  ExtractSpec.dispatched Sim.json_42 = VStr "42".
Proof.
  intros Hrep Hok Hhtml Hparse.
  rewrite (POST_success _ _ _ _ _ _ _ Hrep Hok Hhtml Hparse).
  split; [|split; [|split; [|split]]].
  - intros Hscan. destruct (extract_answer_dispatched _ Hscan) as (raw & -> & ->).
    reflexivity.
  - intros Hscan. destruct (extract_answer_unscannable _ Hscan) as (t & ->). eauto.
  - intros Ho Hr Ht. unfold ExtractSpec.dispatched, ExtractSpec.or_literal,
      ExtractSpec.yield_text. now rewrite Ho, Hr, Ht.
  - reflexivity.
  - reflexivity.
Qed.

(** C10, amended. For a JSON body whose top-level [outputs] is an array and
    that the extraction can scan (no entry is [null], every truthy inner
    [outputs] is an array or a string), the answer is the text of the last
    inner output that carries a recognized text field, the field taken in
    the order [results.message.text], [results.text], [message.text]. *)
Theorem last_inner_output_wins cfg w message session_id st responseText langflowData
  outs innerOutput :
  Replied cfg w message session_id st responseText ->
  ok_status st = true ->
  ~ HtmlSpec.html_preamble responseText ->
  JSON_parse responseText = Normal langflowData ->
  read langflowData "outputs" = VArr outs ->
  ExtractSpec.scannable langflowData = true ->
  ExtractSpec.last_carrying (ExtractSpec.inner_outputs outs) = Some innerOutput ->
  exists text,
    find truthy
      [opt_get (opt_get (opt_get innerOutput "results") "message") "text";
       opt_get (opt_get innerOutput "results") "text";
       opt_get (opt_get innerOutput "message") "text"] = Some text /\
    snd (POST cfg w) =
      Normal {| status := 200; body := VObj [
        ("answer", text);
        ("session_id", session_of w session_id);
        ("search_type", VStr "hybrid");
        ("search_info", searchInfo cfg message)] |}.
Proof.
  intros Hrep Hok Hhtml Hparse Houts Hscan Hlast.
  destruct (carries_carried _ (last_carrying_carries _ _ Hlast)) as [text Htext].
  exists text. split; [exact Htext|].
  rewrite (POST_success _ _ _ _ _ _ _ Hrep Hok Hhtml Hparse).
  destruct (extract_answer_dispatched _ Hscan) as (raw & -> & ->).
  unfold ExtractSpec.dispatched, ExtractSpec.yield_outputs, ExtractSpec.last_text.
  rewrite Houts. cbn [truthy ExtractSpec.elements]. rewrite Hlast, Htext.
  unfold ExtractSpec.or_literal.
  apply find_some in Htext. destruct Htext as [_ ->]. reflexivity.
Qed.

(** *** Every request is answered *)

(** The handler never throws, and a reply that is not HTTP 200 is an object
    with an [error] string and nothing else. *)
Theorem chat_always_answers cfg w :
  exists response,
    snd (POST cfg w) = Normal response /\
    (status response = 200%Z \/ exists error, body response = VObj [("error", VStr error)]).
Proof.
  destruct (POST cfg w) as [tr r] eqn:H.
  unfold POST, reply, success, upstream_error, on_error in H.
  split_handler H; injection H as <- <-; eexists; (split; [reflexivity|]);
    first [left; reflexivity | right; eexists; reflexivity].
Qed.

(** A body without a truthy [message] is answered HTTP 400 with a fixed
    error, before Langflow is called. *)
Theorem chat_missing_message cfg w body message :
  request_json w = Normal body ->
  get body "message" = Normal message ->
  truthy message = false ->
  POST cfg w =
    ([RequestJson], Normal {| status := 400; body := VObj [("error", VStr "Message is required")] |}).
Proof.
  intros Hbody Hmsg Hfalsy. unfold POST. run. rewrite Hbody. run. rewrite Hmsg. run.
  assert (Hsid : get body "session_id" = Normal (read body "session_id")).
  { destruct body; try discriminate Hmsg; reflexivity. }
  rewrite Hsid. run. rewrite Hfalsy. reflexivity.
Qed.

End Route.

(** *** The scenarios *)

Lemma sim_replied key st text :
  @Replied Sim.engine (Sim.chat_config key) (Sim.chat_world st text)
    (VStr "What is the APR?") VUndefined st text.
Proof.
  unfold Replied. split; [|split].
  - exists Sim.chat_request. repeat split.
  - reflexivity.
  - eexists. repeat split.
Qed.

Lemma sim_not_html (text : string) :
  isHtml (Str.trim text) = false -> ~ HtmlSpec.html_preamble text.
Proof. intros H Hhtml. apply html_preamble_iff in Hhtml. congruence. Qed.

(** C8 on the scenario of the specification: the body is an HTML document
    and no API key is configured; and on the same document behind a
    no-break space and a byte-order mark, which trimming removes. *)
Lemma html_page_detected_witness :
  (exists trace error,
     @POST Sim.engine (Sim.chat_config "") (Sim.chat_world 200 Sim.body_doctype) =
       (trace, Normal {| status := 502; body := VObj [("error", VStr error)] |}) /\
     (forall text, ~ In (JsonParse text) trace) /\
     Str.includes error "requires an API key" = true) /\
  (exists trace error,
     @POST Sim.engine (Sim.chat_config "") (Sim.chat_world 401 Sim.body_nbsp_page) =
       (trace, Normal {| status := 502; body := VObj [("error", VStr error)] |}) /\
     (forall text, ~ In (JsonParse text) trace) /\
     Str.includes error "requires an API key" = true).
Proof.
  split.
  - destruct (@html_page_detected Sim.engine (Sim.chat_config "")
                (Sim.chat_world 200 Sim.body_doctype) (VStr "What is the APR?") VUndefined
                200%Z Sim.body_doctype (sim_replied "" 200%Z Sim.body_doctype))
      as (trace & error & HP & Hparse & Hmissing & _).
    + exists "<!DOCTYPE", " html><html><body>Sign in</body></html>".
      split; [reflexivity|]. left. reflexivity.
    + exists trace, error. split; [exact HP|]. split; [exact Hparse|].
      rewrite (Hmissing eq_refl). reflexivity.
  - destruct (@html_page_detected Sim.engine (Sim.chat_config "")
                (Sim.chat_world 401 Sim.body_nbsp_page) (VStr "What is the APR?") VUndefined
                401%Z Sim.body_nbsp_page (sim_replied "" 401%Z Sim.body_nbsp_page))
      as (trace & error & HP & Hparse & Hmissing & _).
    + exists "<!DOCTYPE", " html><html><body>Sign in</body></html>".
      split; [reflexivity|]. left. reflexivity.
    + exists trace, error. split; [exact HP|]. split; [exact Hparse|].
      rewrite (Hmissing eq_refl). reflexivity.
Defined.

(** C9 as stated fails on an HTML error page: the status is 401, the body
    does not parse as JSON, and the reply is HTTP 502 with the page message
    instead of HTTP 401 with a message naming the status. *)
Lemma html_error_page_answered_502 :
  @JSON_parse Sim.engine Sim.body_html = Throw (ErrorObject "Unexpected token in JSON") /\
  snd (@POST Sim.engine (Sim.chat_config "") (Sim.chat_world 401 Sim.body_html)) =
    Normal {| status := 502; body := VObj [("error", VStr (html_error ""))] |}.
Proof. split; vm_compute; reflexivity. Qed.

(** C9 on the scenario of the specification, status 401 and
    [{"detail":"invalid key"}], on a body that is no JSON, [Bad Gateway]
    with status 502, and on the same body with status 304, which no reply
    with a body can have. *)
Lemma upstream_error_passthrough_witness :
  snd (@POST Sim.engine (Sim.chat_config "stale-key")
         (Sim.chat_world 401 Sim.body_invalid_key)) =
    Normal {| status := 401; body := VObj [("error", VStr "Langflow error: invalid key")] |} /\
  snd (@POST Sim.engine (Sim.chat_config "stale-key") (Sim.chat_world 502 Sim.body_plain)) =
    Normal {| status := 502; body := VObj [("error", VStr "Langflow API error: 502")] |} /\
  snd (@POST Sim.engine (Sim.chat_config "stale-key") (Sim.chat_world 304 Sim.body_plain)) =
    Normal {| status := 500;
              body := VObj [("error",
                             VStr "Response constructor: Invalid response status code 304")] |}.
Proof.
  split; [|split].
  - refine (proj1 (proj2 (@upstream_error_passthrough Sim.engine
              (Sim.chat_config "stale-key") (Sim.chat_world 401 Sim.body_invalid_key)
              (VStr "What is the APR?") VUndefined 401%Z Sim.body_invalid_key
              (sim_replied _ _ _) _ _)) eq_refl _).
    + reflexivity.
    + apply sim_not_html. reflexivity.
    + reflexivity.
  - refine (proj1 (proj2 (proj2 (@upstream_error_passthrough Sim.engine
              (Sim.chat_config "stale-key") (Sim.chat_world 502 Sim.body_plain)
              (VStr "What is the APR?") VUndefined 502%Z Sim.body_plain
              (sim_replied _ _ _) _ _))) eq_refl (ErrorObject "Unexpected token in JSON") _).
    + reflexivity.
    + apply sim_not_html. reflexivity.
    + reflexivity.
  - refine (proj2 (proj2 (proj2 (proj2 (@upstream_error_passthrough Sim.engine
              (Sim.chat_config "stale-key") (Sim.chat_world 304 Sim.body_plain)
              (VStr "What is the APR?") VUndefined 304%Z Sim.body_plain
              (sim_replied _ _ _) _ _)))) eq_refl).
    + reflexivity.
    + apply sim_not_html. reflexivity.
Defined.

(** C3 as stated fails: [outputs] is present and yields no text, [result]
    holds a text, and the answer is the fallback literal. *)
Lemma empty_outputs_hide_result :
  exists response,
    snd (@POST Sim.engine (Sim.chat_config "") (Sim.chat_world 200 Sim.body_empty_outputs)) =
      Normal response /\
    status response = 200%Z /\
    read (body response) "answer" = VStr "No response received from the RAG system." /\
    @ExtractSpec.tried_in_order Sim.engine Sim.json_empty_outputs = VStr "hello".
Proof.
  eexists. split; [vm_compute; reflexivity|]. repeat split.
Qed.

(** C3 on the scenario of the specification: the nested body with [42]. *)
Lemma answer_normalisation_witness :
  snd (@POST Sim.engine (Sim.chat_config "") (Sim.chat_world 200 Sim.body_42)) =
    Normal {| status := 200; body := VObj [
      ("answer", VStr "42");
      ("session_id", VStr "3b241101-e2bb-4255-8caf-4136c566a962");
      ("search_type", VStr "hybrid");
      ("search_info", @searchInfo Sim.engine (Sim.chat_config "") (VStr "What is the APR?"))] |}.
Proof.
  refine (proj1 (@answer_normalisation Sim.engine (Sim.chat_config "")
            (Sim.chat_world 200 Sim.body_42) (VStr "What is the APR?") VUndefined
            200%Z Sim.body_42 Sim.json_42 (sim_replied _ _ _) _ _ _) _).
  - reflexivity.
  - apply sim_not_html. reflexivity.
  - reflexivity.
  - reflexivity.
Defined.

(** C10 as stated fails: the first inner output carries the text [a], the
    second is [null], and the reply is HTTP 500. *)
Lemma null_inner_output_aborts :
  ExtractSpec.last_carrying
    (ExtractSpec.inner_outputs
       [VObj [("outputs", VArr [VObj [("message", VObj [("text", VStr "a")])]; VNull])]]) =
    Some (VObj [("message", VObj [("text", VStr "a")])]) /\
  ExtractSpec.carried_text (VObj [("message", VObj [("text", VStr "a")])]) = Some (VStr "a") /\
  snd (@POST Sim.engine (Sim.chat_config "") (Sim.chat_world 200 Sim.body_null_entry)) =
    Normal {| status := 500; body := VObj [("error", VStr "Cannot read properties of null (reading 'results')")] |}.
Proof. repeat split; vm_compute; reflexivity. Qed.

(** C10 on three inner outputs: the first carries two fields, the second one,
    the third none; the answer is the text of the second. *)
Lemma last_inner_output_wins_witness :
  exists text,
    find truthy
      [opt_get (opt_get (opt_get (VObj [("message", VObj [("text", VStr "second")])])
                                 "results") "message") "text";
       opt_get (opt_get (VObj [("message", VObj [("text", VStr "second")])]) "results") "text";
       opt_get (opt_get (VObj [("message", VObj [("text", VStr "second")])]) "message") "text"]
      = Some text /\
    snd (@POST Sim.engine (Sim.chat_config "") (Sim.chat_world 200 Sim.body_two_texts)) =
      Normal {| status := 200; body := VObj [
        ("answer", text);
        ("session_id", VStr "3b241101-e2bb-4255-8caf-4136c566a962");
        ("search_type", VStr "hybrid");
        ("search_info",
         @searchInfo Sim.engine (Sim.chat_config "") (VStr "What is the APR?"))] |}.
Proof.
  refine (@last_inner_output_wins Sim.engine (Sim.chat_config "")
            (Sim.chat_world 200 Sim.body_two_texts) (VStr "What is the APR?") VUndefined
            200%Z Sim.body_two_texts Sim.json_two_texts _ _
            (sim_replied _ _ _) _ _ _ _ _ _).
  - reflexivity.
  - apply sim_not_html. reflexivity.
  - reflexivity.
  - reflexivity.
  - reflexivity.
  - reflexivity.
Defined.

Lemma chat_missing_message_witness :
  @POST Sim.engine (Sim.chat_config "") Sim.chat_world_without_message =
    ([RequestJson], Normal {| status := 400; body := VObj [("error", VStr "Message is required")] |}).
Proof.
  apply (@chat_missing_message Sim.engine (Sim.chat_config "")
           Sim.chat_world_without_message Sim.request_without_message VUndefined);
    reflexivity.
Defined.

End ChatFacts.

(** ** Trailing slashes *)

Module SlashFacts.
Import SlashSpec.

Lemma strip_cons (c : ascii) (r : string) :
  Str.strip_trailing_slashes (String c r) =
    match Str.strip_trailing_slashes r with
    | EmptyString => if Ascii.eqb c "/"%char then EmptyString else String c EmptyString
    | r' => String c r'
    end.
Proof. reflexivity. Qed.

(** [normalizeOpenSearchUrl] removes the trailing slashes and nothing else:
    the URL is the result followed by slashes. *)
Lemma strip_decompose (s : string) :
  exists n, s = Str.strip_trailing_slashes s ++ slashes n.
Proof.
  induction s as [|c s [n IH]].
  - exists 0. reflexivity.
  - rewrite strip_cons. destruct (Str.strip_trailing_slashes s) as [|d r'] eqn:E.
    + destruct (Ascii.eqb_spec c "/"%char) as [->|Hc].
      * exists (S n). simpl. now rewrite IH at 1.
      * exists n. simpl. now rewrite IH at 1.
    + exists n. simpl. now rewrite IH at 1.
Qed.

Lemma strip_not_slash_end (s r : string) :
  Str.strip_trailing_slashes s <> r ++ "/".
Proof.
  revert r. induction s as [|c s IH]; intros r.
  - destruct r; discriminate.
  - rewrite strip_cons. destruct (Str.strip_trailing_slashes s) as [|d r'] eqn:E.
    + destruct (Ascii.eqb_spec c "/"%char) as [->|Hc].
      * destruct r; discriminate.
      * destruct r as [|a [|b r]]; simpl; try discriminate.
        intros H. injection H as H. congruence.
    + destruct r as [|a r]; simpl; [discriminate|].
      intros H. injection H as _ H. now apply (IH r).
Qed.

Lemma strip_slashes (n : nat) : Str.strip_trailing_slashes (slashes n) = "".
Proof.
  induction n as [|n IH]; [reflexivity|].
  simpl slashes. rewrite strip_cons, IH. reflexivity.
Qed.

Lemma strip_app_slashes (s : string) (n : nat) :
  Str.strip_trailing_slashes (s ++ slashes n) = Str.strip_trailing_slashes s.
Proof.
  induction s as [|c s IH].
  - simpl. now rewrite strip_slashes.
  - simpl append. now rewrite !strip_cons, IH.
Qed.

(** The URL normalisation of both routes and both client modules: the
    result never ends in a slash, the URL is the result followed by
    slashes only, the result is empty exactly for a URL of slashes only, and
    normalising twice changes nothing. *)
Theorem normalizeOpenSearchUrl_strips (url : string) :
  ~ ends_in_slash (Semantic.normalizeOpenSearchUrl url) /\
  (exists n, url = Semantic.normalizeOpenSearchUrl url ++ slashes n) /\
  (Semantic.normalizeOpenSearchUrl url = "" <-> exists n, url = slashes n) /\
  Semantic.normalizeOpenSearchUrl (Semantic.normalizeOpenSearchUrl url) =
    Semantic.normalizeOpenSearchUrl url /\
  SearchClient.normalizeOpenSearchUrl url = Semantic.normalizeOpenSearchUrl url.
Proof.
  unfold Semantic.normalizeOpenSearchUrl, SearchClient.normalizeOpenSearchUrl, ends_in_slash.
  split; [|split; [|split; [|split]]].
  - intros [r H]. now apply (strip_not_slash_end url r).
  - apply strip_decompose.
  - split.
    + intros H. destruct (strip_decompose url) as [n Hn]. exists n.
      rewrite H in Hn. exact Hn.
    + intros [n ->]. apply strip_slashes.
  - destruct (strip_decompose url) as [n Hn].
    rewrite Hn at 2. now rewrite strip_app_slashes.
  - reflexivity.
Qed.

End SlashFacts.

(** ** The search client *)

Module SearchClientFacts.
Import Js SlashSpec EndpointSpec.

Section Singleton.
Variable Client : Type.
Variable new_Client : ClientOptions -> completion Client.

Lemma url_missing_iff (env : Env) :
  url_missing env <->
  Str.nonempty (SearchClient.normalizeOpenSearchUrl (env_or env "OPENSEARCH_URL" "")) = false.
Proof.
  rewrite StrFacts.nonempty_false.
  unfold url_missing, env_or, SearchClient.normalizeOpenSearchUrl.
  destruct (env "OPENSEARCH_URL") as [url|]; [|tauto].
  destruct (Str.nonempty url) eqn:E.
  - split.
    + intros [n ->]. apply SlashFacts.strip_slashes.
    + intros H. destruct (SlashFacts.strip_decompose url) as [n Hn]. exists n.
      now rewrite H in Hn.
  - apply StrFacts.nonempty_false in E. subst url. split; [reflexivity|].
    intros _. now exists 0.
Qed.

(** Once a call has returned a client, every later call returns that same
    client, whatever the environment has become, and [client] keeps it. *)
Theorem client_is_created_once (env : Env) (later : list Env) (created : Client) :
  fst (SearchClient.getOpenSearchClient Client new_Client env None) = Normal created ->
  SearchClient.calls Client new_Client (env :: later) None =
    (repeat (Normal created) (S (List.length later)), Some created).
Proof.
  intros H.
  assert (Hfirst : SearchClient.getOpenSearchClient Client new_Client env None =
                   (Normal created, Some created)).
  { unfold SearchClient.getOpenSearchClient in *.
    destruct (negb (Str.nonempty _)); [discriminate H|].
    destruct (new_Client _); simpl in H; [|discriminate H]. now injection H as ->. }
  cbn [SearchClient.calls]. rewrite Hfirst.
  assert (Hlater : SearchClient.calls Client new_Client later (Some created) =
                   (repeat (Normal created) (List.length later), Some created)).
  { induction later as [|env' later IH]; [reflexivity|].
    cbn [SearchClient.calls SearchClient.getOpenSearchClient]. now rewrite IH. }
  now rewrite Hlater.
Qed.

(** A call that throws leaves [client] empty, so the next call reads the
    environment again; and a call throws [OPENSEARCH_URL is not set], without
    constructing a client, exactly when the URL is unset or made of slashes
    only; otherwise it constructs the client on the URL without its trailing
    slashes, with credentials exactly when a user name is set. *)
Theorem client_construction (env : Env) :
  (forall t, fst (SearchClient.getOpenSearchClient Client new_Client env None) = Throw t ->
             snd (SearchClient.getOpenSearchClient Client new_Client env None) = None) /\
  (url_missing env ->
   SearchClient.getOpenSearchClient Client new_Client env None =
     (Throw (ErrorObject "OPENSEARCH_URL is not set"), None)) /\
  (~ url_missing env ->
   exists url n,
     env "OPENSEARCH_URL" = Some (url ++ slashes n) /\
     url <> "" /\ ~ ends_in_slash url /\
     fst (SearchClient.getOpenSearchClient Client new_Client env None) =
       new_Client {|
         node := url;
         auth := match env "OPENSEARCH_USERNAME" with
                 | Some username =>
                     if Str.nonempty username
                     then Some (username,
                                match env "OPENSEARCH_PASSWORD" with
                                | Some password => password
                                | None => ""
                                end)
                     else None
                 | None => None
                 end;
         ssl_rejectUnauthorized := OpensearchTs.getRejectUnauthorized env |}).
Proof.
  split; [|split].
  - intros t. unfold SearchClient.getOpenSearchClient.
    destruct (negb (Str.nonempty _)); [reflexivity|].
    destruct (new_Client _); [discriminate | reflexivity].
  - intros H. apply url_missing_iff in H.
    unfold SearchClient.getOpenSearchClient. now rewrite H.
  - intros H. rewrite url_missing_iff in H.
    destruct (Str.nonempty (SearchClient.normalizeOpenSearchUrl
                              (env_or env "OPENSEARCH_URL" ""))) eqn:E; [|congruence].
    unfold SearchClient.getOpenSearchClient. rewrite E. cbn [negb].
    unfold SearchClient.normalizeOpenSearchUrl in *.
    destruct (SlashFacts.strip_decompose (env_or env "OPENSEARCH_URL" "")) as [n Hn].
    exists (Str.strip_trailing_slashes (env_or env "OPENSEARCH_URL" "")), n.
    split; [|split; [|split]].
    + unfold env_or in *. destruct (env "OPENSEARCH_URL") as [url|] eqn:Hu.
      * destruct (Str.nonempty url); [now rewrite <- Hn | discriminate E].
      * discriminate E.
    + now apply StrFacts.nonempty_true.
    + intros [r Hr]. exact (SlashFacts.strip_not_slash_end _ r Hr).
    + unfold SearchClient.client_options.
      destruct (new_Client _); reflexivity.
Qed.

(** The second client module trims the URL first: a URL that is blank, or
    slashes within white space (a no-break space or a byte-order mark
    included), is refused as not set; for any other URL the constructor
    is given the URL trimmed and without its trailing slashes as [node],
    the credentials exactly when a user name is set, with the empty
    password when none is set, and the TLS decision of this module; the
    singleton keeps the client the constructor returns, and stays empty
    when it throws. *)
Theorem client_alt_construction (env : Env) :
  (url_blank env ->
   SearchClientAlt.getOpenSearchClient Client new_Client env None =
     (Throw (ErrorObject "OPENSEARCH_URL is not set"), None)) /\
  (~ url_blank env ->
   exists raw url n,
     env "OPENSEARCH_URL" = Some raw /\
     Str.trim raw = url ++ slashes n /\
     url <> "" /\ ~ ends_in_slash url /\
     fst (SearchClientAlt.getOpenSearchClient Client new_Client env None) =
       new_Client {|
         node := url;
         auth := match env "OPENSEARCH_USERNAME" with
                 | Some username =>
                     if Str.nonempty username
                     then Some (username,
                                match env "OPENSEARCH_PASSWORD" with
                                | Some password => password
                                | None => ""
                                end)
                     else None
                 | None => None
                 end;
         ssl_rejectUnauthorized := OpensearchClientTs.getRejectUnauthorized env
       |} /\
     snd (SearchClientAlt.getOpenSearchClient Client new_Client env None) =
       match new_Client {|
               node := url;
               auth := match env "OPENSEARCH_USERNAME" with
                       | Some username =>
                           if Str.nonempty username
                           then Some (username,
                                      match env "OPENSEARCH_PASSWORD" with
                                      | Some password => password
                                      | None => ""
                                      end)
                           else None
                       | None => None
                       end;
               ssl_rejectUnauthorized := OpensearchClientTs.getRejectUnauthorized env
             |} with
       | Normal created => Some created
       | Throw _ => None
       end).
Proof.
  assert (Hiff : url_blank env <->
    Str.nonempty (SearchClientAlt.normalizeOpenSearchUrl (env_or env "OPENSEARCH_URL" ""))
      = false).
  { rewrite StrFacts.nonempty_false.
    unfold url_blank, env_or, SearchClientAlt.normalizeOpenSearchUrl.
    destruct (env "OPENSEARCH_URL") as [url|]; [|tauto].
    destruct (Str.nonempty url) eqn:E.
    - split.
      + intros [n ->]. apply SlashFacts.strip_slashes.
      + intros H. destruct (SlashFacts.strip_decompose (Str.trim url)) as [n Hn].
        exists n. now rewrite H in Hn.
    - apply StrFacts.nonempty_false in E. subst url. split; [reflexivity|].
      intros _. now exists 0. }
  split.
  - intros H. apply Hiff in H.
    unfold SearchClientAlt.getOpenSearchClient. now rewrite H.
  - intros H. rewrite Hiff in H.
    destruct (Str.nonempty (SearchClientAlt.normalizeOpenSearchUrl
                              (env_or env "OPENSEARCH_URL" ""))) eqn:E; [|congruence].
    unfold SearchClientAlt.getOpenSearchClient. rewrite E. cbn [negb].
    unfold SearchClientAlt.normalizeOpenSearchUrl in *.
    unfold env_or in *. destruct (env "OPENSEARCH_URL") as [raw|] eqn:Hu;
      [|discriminate E].
    destruct (Str.nonempty raw) eqn:Hraw; [|discriminate E].
    destruct (SlashFacts.strip_decompose (Str.trim raw)) as [n Hn].
    exists raw, (Str.strip_trailing_slashes (Str.trim raw)), n.
    split; [reflexivity|]. split; [exact Hn|]. split; [|split].
    + now apply StrFacts.nonempty_true.
    + intros [r Hr]. exact (SlashFacts.strip_not_slash_end _ r Hr).
    + unfold SearchClientAlt.client_options. destruct (new_Client _); split; reflexivity.
Qed.

End Singleton.

(** The singleton on a library that keeps its options: the first
    environment decides the client, a later one with another URL does not. *)
Lemma client_is_created_once_witness :
  SearchClient.calls ClientOptions keep_options
    [env_of [("OPENSEARCH_URL", "https://search.example.com//");
             ("OPENSEARCH_USERNAME", "admin")];
     env_of [("OPENSEARCH_URL", "https://other.example.com")]] None =
    (repeat (Normal {| node := "https://search.example.com";
                       auth := Some ("admin", "");
                       ssl_rejectUnauthorized := true |}) 2,
     Some {| node := "https://search.example.com";
             auth := Some ("admin", "");
             ssl_rejectUnauthorized := true |}).
Proof.
  apply (client_is_created_once ClientOptions keep_options). reflexivity.
Defined.

End SearchClientFacts.

(** ** The index-creation script: loading the environment file *)

Module LoaderFacts.
Import IndexScript ScriptSpec.

Lemma string_length_ind (P : string -> Prop) :
  (forall s, (forall t, String.length t < String.length s -> P t) -> P s) ->
  forall s, P s.
Proof.
  intros Hstep s. remember (String.length s) as n eqn:Hn.
  revert s Hn. induction n as [n IH] using lt_wf_ind.
  intros s ->. apply Hstep. intros t Ht. now apply (IH (String.length t)).
Qed.

Lemma free_of_app (c : ascii) (s t : string) :
  free_of c (s ++ t) <-> free_of c s /\ free_of c t.
Proof. induction s as [|d s IH]; simpl; tauto. Qed.

Lemma trimStart_unfold (s : string) :
  Str.trimStart s =
    match Str.white_prefix s with
    | Some r => Str.trimStart r
    | None => s
    end.
Proof.
  destruct s as [|c [|d [|e r]]]; cbn [Str.trimStart Str.white_prefix];
    try reflexivity.
  - now destruct (Str.white1 c).
  - destruct (Str.white1 c); [reflexivity|]. now destruct (Str.white2 c d).
  - destruct (Str.white1 c); [reflexivity|]. destruct (Str.white2 c d); [reflexivity|].
    now destruct (Str.white3 c d e).
Qed.

(** A leading white space and what follows it: the rest is a proper
    suffix, and it stays the rest when text is appended. *)
Lemma white_prefix_suffix (s r : string) :
  Str.white_prefix s = Some r ->
  exists w, s = w ++ r /\ String.length r < String.length s.
Proof.
  destruct s as [|c [|d [|e r2]]]; cbn [Str.white_prefix]; try discriminate.
  - destruct (Str.white1 c); [|discriminate].
    intros H. injection H as <-. exists (String c ""). split; [reflexivity | simpl; lia].
  - destruct (Str.white1 c).
    + intros H. injection H as <-. exists (String c ""). split; [reflexivity | simpl; lia].
    + destruct (Str.white2 c d); [|discriminate].
      intros H. injection H as <-. exists (String c (String d "")).
      split; [reflexivity | simpl; lia].
  - destruct (Str.white1 c).
    + intros H. injection H as <-. exists (String c ""). split; [reflexivity | simpl; lia].
    + destruct (Str.white2 c d).
      * intros H. injection H as <-. exists (String c (String d "")).
        split; [reflexivity | simpl; lia].
      * destruct (Str.white3 c d e); [|discriminate].
        intros H. injection H as <-. exists (String c (String d (String e ""))).
        split; [reflexivity | simpl; lia].
Qed.

Lemma white_prefix_app (s r x : string) :
  Str.white_prefix s = Some r -> Str.white_prefix (s ++ x) = Some (r ++ x).
Proof.
  destruct s as [|c [|d [|e r2]]]; cbn [Str.white_prefix append]; try discriminate.
  - destruct (Str.white1 c); [|discriminate]. intros H. now injection H as <-.
  - destruct (Str.white1 c); [intros H; now injection H as <-|].
    destruct (Str.white2 c d); [|discriminate]. intros H. now injection H as <-.
  - destruct (Str.white1 c); [intros H; now injection H as <-|].
    destruct (Str.white2 c d); [intros H; now injection H as <-|].
    destruct (Str.white3 c d e); [|discriminate]. intros H. now injection H as <-.
Qed.

(** What [trimStart] leaves begins with no white space, and is a suffix. *)
Lemma trimStart_clean (s : string) : Str.white_prefix (Str.trimStart s) = None.
Proof.
  induction s as [s IH] using string_length_ind.
  rewrite trimStart_unfold. destruct (Str.white_prefix s) as [r|] eqn:E; [|exact E].
  apply IH. now destruct (white_prefix_suffix _ _ E) as (w & _ & Hlt).
Qed.

Lemma trimStart_suffix (s : string) : exists w, s = w ++ Str.trimStart s.
Proof.
  induction s as [s IH] using string_length_ind.
  rewrite trimStart_unfold. destruct (Str.white_prefix s) as [r|] eqn:E.
  - destruct (white_prefix_suffix _ _ E) as (w & Hs & Hlt).
    destruct (IH r Hlt) as [w' Hr]. exists (w ++ w').
    rewrite Hs at 1. rewrite Hr at 1.
    clear. induction w as [|c w IHw]; simpl; [reflexivity | now rewrite IHw].
  - now exists "".
Qed.

Lemma trimStart_fixed (s : string) : Str.white_prefix s = None -> Str.trimStart s = s.
Proof. intros H. rewrite trimStart_unfold. now rewrite H. Qed.

Lemma blank_iff (s : string) : Str.blank s = true <-> Str.trimStart s = "".
Proof. unfold Str.blank. destruct (Str.trimStart s); split; congruence. Qed.

Lemma blank_app (a b : string) :
  Str.blank a = true -> Str.blank b = true -> Str.blank (a ++ b) = true.
Proof.
  induction a as [a IH] using string_length_ind. intros Ha Hb.
  apply blank_iff in Ha. rewrite trimStart_unfold in Ha.
  destruct (Str.white_prefix a) as [a'|] eqn:E.
  - apply blank_iff. rewrite trimStart_unfold, (white_prefix_app _ _ b E).
    apply blank_iff. destruct (white_prefix_suffix _ _ E) as (w & _ & Hlt).
    apply (IH a' Hlt); [now apply blank_iff | exact Hb].
  - subst a. exact Hb.
Qed.

(** What [trimEnd] removes is white space. *)
Lemma trimEnd_split (s : string) :
  exists w, s = Str.trimEnd s ++ w /\ Str.blank w = true.
Proof.
  induction s as [|c s (w & Hs & Hw)]; [now exists ""|].
  cbn [Str.trimEnd]. destruct (Str.blank (String c s)) eqn:E.
  - now exists (String c s).
  - exists w. split; [|exact Hw]. cbn [append]. now rewrite <- Hs.
Qed.

Lemma trimEnd_idempotent (s : string) : Str.trimEnd (Str.trimEnd s) = Str.trimEnd s.
Proof.
  induction s as [|c s IH]; [reflexivity|].
  cbn [Str.trimEnd]. destruct (Str.blank (String c s)) eqn:E; [reflexivity|].
  cbn [Str.trimEnd]. destruct (Str.blank (String c (Str.trimEnd s))) eqn:E'.
  - destruct (trimEnd_split s) as (w & Hs & Hw).
    pose proof (blank_app _ _ E' Hw) as H. cbn [append] in H. rewrite <- Hs in H.
    congruence.
  - now rewrite IH.
Qed.

Lemma trimEnd_clean (s : string) :
  Str.white_prefix s = None -> Str.white_prefix (Str.trimEnd s) = None.
Proof.
  intros H. destruct (Str.white_prefix (Str.trimEnd s)) as [r|] eqn:E; [|reflexivity].
  destruct (trimEnd_split s) as (w & Hs & _).
  apply (white_prefix_app _ _ w) in E. rewrite <- Hs in E. congruence.
Qed.

Lemma trimEnd_nonempty (s : string) :
  s <> "" -> Str.white_prefix s = None -> Str.trimEnd s <> "".
Proof.
  intros Hs H. destruct s as [|c r]; [congruence|].
  cbn [Str.trimEnd]. destruct (Str.blank (String c r)) eqn:E; [|discriminate].
  apply blank_iff in E. rewrite (trimStart_fixed _ H) in E. discriminate E.
Qed.

(** The trimmed string begins with no white space. *)
Lemma trim_clean (s : string) : Str.white_prefix (Str.trim s) = None.
Proof. unfold Str.trim. apply trimEnd_clean, trimStart_clean. Qed.

Lemma trim_idempotent (s : string) : Str.trim (Str.trim s) = Str.trim s.
Proof.
  unfold Str.trim at 1. rewrite (trimStart_fixed _ (trim_clean s)).
  unfold Str.trim. apply trimEnd_idempotent.
Qed.

(** A prefix of text that begins with no white space, when it is not
    empty, is not empty after trimming. *)
Lemma trim_prefix_nonempty (p rest : string) :
  p <> "" -> Str.white_prefix (p ++ rest) = None -> Str.trim p <> "".
Proof.
  intros Hp H.
  assert (Hclean : Str.white_prefix p = None).
  { destruct (Str.white_prefix p) as [r|] eqn:E; [|reflexivity].
    apply (white_prefix_app _ _ rest) in E. congruence. }
  unfold Str.trim. rewrite (trimStart_fixed _ Hclean).
  now apply trimEnd_nonempty.
Qed.

Lemma substring0_prefix (n : nat) (s : string) :
  exists rest, s = Str.substring0 n s ++ rest.
Proof.
  unfold Str.substring0. revert n. induction s as [|c s IH]; intros n.
  - exists "". now destruct n.
  - destruct n as [|n]; simpl; [now exists (String c s)|].
    destruct (IH n) as [rest Hrest]. exists rest. now rewrite <- Hrest.
Qed.

Lemma free_of_trimStart (c : ascii) (s : string) :
  free_of c s -> free_of c (Str.trimStart s).
Proof.
  intros H. destruct (trimStart_suffix s) as [w Hs]. rewrite Hs in H.
  now apply free_of_app in H.
Qed.

Lemma free_of_trimEnd (c : ascii) (s : string) :
  free_of c s -> free_of c (Str.trimEnd s).
Proof.
  intros H. destruct (trimEnd_split s) as (w & Hs & _). rewrite Hs in H.
  now apply free_of_app in H.
Qed.

Lemma free_of_trim (c : ascii) (s : string) : free_of c s -> free_of c (Str.trim s).
Proof. intros H. now apply free_of_trimEnd, free_of_trimStart. Qed.

Lemma indexOf_free (c : ascii) (s : string) : indexOf c s = None <-> free_of c s.
Proof.
  induction s as [|d s IH]; simpl; [tauto|].
  destruct (Ascii.eqb_spec d c) as [->|Hd].
  - split; [discriminate | intros [H _]; congruence].
  - destruct (indexOf c s); split; try discriminate; try tauto.
    intros [_ H]. apply IH in H. discriminate.
Qed.

(** The first occurrence: what stands before it is free of [c]. *)
Lemma indexOf_first (c : ascii) (s : string) (i : nat) :
  indexOf c s = Some i -> free_of c (Str.substring0 i s).
Proof.
  revert i. induction s as [|d s IH]; intros i; simpl; [discriminate|].
  destruct (Ascii.eqb_spec d c) as [->|Hd].
  - intros H. injection H as <-. exact I.
  - destruct (indexOf c s) as [j|]; [|discriminate].
    intros H. injection H as <-. simpl. split; [exact Hd|]. now apply IH.
Qed.

Lemma indexOf_app (c : ascii) (key rest : string) :
  free_of c key -> indexOf c (key ++ String c rest) = Some (String.length key).
Proof.
  induction key as [|d key IH]; simpl.
  - intros _. now rewrite Ascii.eqb_refl.
  - intros [Hd Hk]. destruct (Ascii.eqb_spec d c) as [->|_]; [congruence|].
    now rewrite (IH Hk).
Qed.

Lemma substring0_app (key rest : string) :
  Str.substring0 (String.length key) (key ++ rest) = key.
Proof.
  unfold Str.substring0. induction key as [|d key IH]; simpl.
  - now destruct rest.
  - now rewrite IH.
Qed.

Lemma slice_from_app (key rest : string) :
  slice_from (String.length key) (key ++ rest) = rest.
Proof. induction key as [|d key IH]; simpl; [reflexivity | exact IH]. Qed.

Lemma slice_from_app_cons (key rest : string) (c : ascii) :
  slice_from (String.length key + 1) (key ++ String c rest) = rest.
Proof. induction key as [|d key IH]; simpl; [reflexivity | exact IH]. Qed.

Lemma split_lines_cons (s : string) : exists first rest, split_lines s = first :: rest.
Proof.
  induction s as [|d s (first & rest & IH)]; simpl; [eauto|].
  destruct (Ascii.eqb d (ascii_of_nat 10)); [eauto|]. rewrite IH. eauto.
Qed.

Lemma split_lines_app (content line : string) :
  free_of (ascii_of_nat 10) line ->
  split_lines (content ++ String (ascii_of_nat 10) line) =
    (split_lines content ++ [line])%list.
Proof.
  intros Hline.
  assert (Hone : split_lines line = [line]).
  { clear content. induction line as [|d line IH]; [reflexivity|].
    destruct Hline as [Hd Hl]. simpl.
    destruct (Ascii.eqb_spec d (ascii_of_nat 10)) as [->|_]; [congruence|].
    now rewrite (IH Hl). }
  induction content as [|d content IH].
  - simpl. now rewrite Hone.
  - simpl. destruct (Ascii.eqb d (ascii_of_nat 10)).
    + now rewrite IH.
    + rewrite IH. destruct (split_lines_cons content) as (first & rest & ->).
      reflexivity.
Qed.

Lemma set_env_same (env : Env) (key value : string) : set_env env key value key = Some value.
Proof. unfold set_env. now rewrite String.eqb_refl. Qed.

Lemma set_env_other (env : Env) (key value x : string) :
  x <> key -> set_env env key value x = env x.
Proof. unfold set_env. intros H. apply String.eqb_neq in H. now rewrite H. Qed.

Lemma startsWith_char (k c : ascii) (r : string) :
  Str.startsWith (String k r) (String c EmptyString) = Ascii.eqb k c.
Proof.
  unfold Str.startsWith. cbn [String.prefix].
  destruct (ascii_dec c k) as [->|H].
  - rewrite Ascii.eqb_refl. now destruct r.
  - symmetry. apply Ascii.eqb_neq. congruence.
Qed.

(** A line whose trimmed text is [key], an equals sign and [rest], with a
    [key] that is not empty, holds no equals sign and does not begin with
    [#], sets the variable named by the trimmed key to the trimmed and
    unquoted rest. *)
Lemma load_line_assigns (env : Env) (line key rest : string) :
  Str.trim line = key ++ String "="%char rest ->
  key <> "" -> free_of "="%char key -> starts_with_char key "#"%char = false ->
  load_line env line = set_env env (Str.trim key) (unquote (Str.trim rest)).
Proof.
  intros Hline Hkey Hfree Hhash. unfold load_line. rewrite Hline.
  assert (Hne : Str.nonempty (key ++ String "="%char rest) = true).
  { destruct key; [congruence | reflexivity]. }
  assert (Hst : Str.startsWith (key ++ String "="%char rest) "#" = false).
  { destruct key; [congruence|]. cbn [append]. rewrite startsWith_char. exact Hhash. }
  assert (Hle : (String.length key <=? 0)%nat = false).
  { destruct key; [congruence | reflexivity]. }
  rewrite Hne, Hst. cbn [negb orb].
  rewrite (indexOf_app _ _ _ Hfree), Hle, substring0_app, slice_from_app_cons.
  reflexivity.
Qed.

End LoaderFacts.

(** ** The index-creation script: what the environment file decides *)

Module EnvFileFacts.
Import IndexScript ScriptSpec LoaderFacts.

Lemma load_env_local_app (content line : string) (env : Env) :
  free_of (ascii_of_nat 10) line ->
  load_env_local (content ++ String (ascii_of_nat 10) line) env =
    load_line (load_env_local content env) line.
Proof.
  intros H. unfold load_env_local. rewrite (split_lines_app _ _ H), fold_left_app.
  reflexivity.
Qed.

(** The last line that assigns a variable decides its value: whatever the
    file holds before it and whatever the process environment held, the
    variable has the trimmed, unquoted text after the equals sign, and every
    other variable is as the lines before left it. *)
Theorem env_file_last_line_wins (content line key rest : string) (env : Env) :
  free_of (ascii_of_nat 10) line ->
  Str.trim line = key ++ String "="%char rest ->
  key <> "" -> free_of "="%char key -> starts_with_char key "#"%char = false ->
  load_env_local (content ++ String (ascii_of_nat 10) line) env (Str.trim key) =
    Some (unquote (Str.trim rest)) /\
  (forall x, x <> Str.trim key ->
     load_env_local (content ++ String (ascii_of_nat 10) line) env x =
       load_env_local content env x).
Proof.
  intros Hlf Hline Hkey Hfree Hhash.
  rewrite (load_env_local_app _ _ _ Hlf).
  rewrite (load_line_assigns _ _ _ _ Hline Hkey Hfree Hhash). split.
  - apply set_env_same.
  - intros x Hx. now apply set_env_other.
Qed.

(** A line that is blank, a comment, without an equals sign, or with
    nothing before the equals sign changes nothing. *)
Theorem env_file_line_ignored (content line : string) (env : Env) :
  free_of (ascii_of_nat 10) line ->
  (Str.trim line = "" \/
   Str.startsWith (Str.trim line) "#" = true \/
   free_of "="%char (Str.trim line) \/
   starts_with_char (Str.trim line) "="%char = true) ->
  load_env_local (content ++ String (ascii_of_nat 10) line) env =
    load_env_local content env.
Proof.
  intros Hlf H. rewrite (load_env_local_app _ _ _ Hlf). unfold load_line.
  destruct (Str.nonempty (Str.trim line)) eqn:Hne; [|reflexivity].
  destruct (Str.startsWith (Str.trim line) "#") eqn:Hhash; [reflexivity|].
  cbn [negb orb].
  destruct H as [H|[H|[H|H]]].
  - apply StrFacts.nonempty_true in Hne. contradiction.
  - discriminate H.
  - apply indexOf_free in H. now rewrite H.
  - destruct (Str.trim line) as [|c r]; [discriminate H|].
    simpl in H. simpl. now rewrite H.
Qed.

Lemma load_line_key (env : Env) (line x : string) :
  load_line env line x <> env x ->
  x <> "" /\ free_of "="%char x /\ Str.trim x = x.
Proof.
  unfold load_line.
  destruct (Str.nonempty (Str.trim line)) eqn:Hne; [|simpl; congruence].
  destruct (Str.startsWith (Str.trim line) "#"); [simpl; congruence|].
  cbn [negb orb].
  destruct (indexOf "="%char (Str.trim line)) as [eq|] eqn:Hidx; [|congruence].
  destruct eq as [|eq]; [simpl; congruence|].
  cbn [Nat.leb]. intros Hx.
  destruct (String.eqb_spec x (Str.trim (Str.substring0 (S eq) (Str.trim line))))
    as [->|Hother]; [|now rewrite (set_env_other _ _ _ _ Hother) in Hx].
  split; [|split].
  - destruct (substring0_prefix (S eq) (Str.trim line)) as [rest Hrest].
    apply (trim_prefix_nonempty _ rest).
    + destruct (Str.trim line); [discriminate Hne | discriminate].
    + rewrite <- Hrest. apply trim_clean.
  - apply free_of_trim. now apply indexOf_first.
  - apply trim_idempotent.
Qed.

Lemma option_string_dec (a b : option string) : {a = b} + {a <> b}.
Proof. decide equality. apply string_dec. Qed.

(** Every variable the file sets or changes has a well-formed name: not
    empty, without an equals sign, without white space around it. *)
Theorem env_file_keys (content : string) (env : Env) (x : string) :
  load_env_local content env x <> env x ->
  x <> "" /\ free_of "="%char x /\ Str.trim x = x.
Proof.
  unfold load_env_local. generalize (split_lines content) as lines.
  intros lines. revert env. induction lines as [|line lines IH]; intros env; simpl;
    [congruence|].
  intros H.
  destruct (option_string_dec (fold_left load_line lines (load_line env line) x)
                              (load_line env line x)) as [E|E].
  - rewrite E in H. now apply (load_line_key env line).
  - now apply (IH (load_line env line)).
Qed.

Lemma ends_with_char_app (s : string) (c : ascii) : ends_with_char (s ++ char c) c = true.
Proof.
  induction s as [|d s IH]; simpl; [apply Ascii.eqb_refl|].
  destruct (s ++ char c) eqn:E; [destruct s; discriminate E | exact IH].
Qed.

Lemma drop_last_app (s : string) (c : ascii) : drop_last (s ++ char c) = s.
Proof.
  induction s as [|d s IH]; simpl; [reflexivity|].
  destruct (s ++ char c) eqn:E; [destruct s; discriminate E|].
  now rewrite IH.
Qed.

(** A value within a pair of double quotes or a pair of single quotes loses
    exactly that pair, whatever stands between; a value that is one quote
    character becomes empty; a value that does not begin with a quote is
    kept. *)
Theorem unquote_pair (q : ascii) (inner : string) :
  q = double_quote \/ q = single_quote ->
  unquote (String q (inner ++ char q)) = inner /\
  unquote (char q) = "" /\
  (forall value,
     starts_with_char value double_quote = false ->
     starts_with_char value single_quote = false ->
     unquote value = value).
Proof.
  intros Hq. split; [|split].
  - unfold unquote.
    assert (Hend : ends_with_char (String q (inner ++ char q)) q = true).
    { apply (ends_with_char_app (String q inner) q). }
    destruct Hq as [-> | ->]; cbn [starts_with_char]; rewrite Hend;
      cbn [Ascii.eqb Bool.eqb andb orb double_quote single_quote ascii_of_nat
           ascii_of_pos ascii_of_N]; simpl slice_from; try apply drop_last_app.
    all: vm_compute (Ascii.eqb _ _); cbn [andb orb]; simpl slice_from; apply drop_last_app.
  - destruct Hq as [-> | ->]; reflexivity.
  - intros value Hd Hs. unfold unquote. now rewrite Hd, Hs.
Qed.

(** The file wins over the process environment, the quotes go, and so do
    a byte-order mark before the name and a no-break space after the
    value. *)
Lemma env_file_last_line_wins_witness :
  load_env_local
    ("# search cluster" ++ String (ascii_of_nat 10)
       ("INDEX_NAME=first" ++ String (ascii_of_nat 10)
          (String (ascii_of_nat 239) (String (ascii_of_nat 187) (String (ascii_of_nat 191)
             ("INDEX_NAME = 'docs'" ++
              String (ascii_of_nat 194) (String (ascii_of_nat 160) "")))))))
    (env_of [("INDEX_NAME", "from_shell")]) "INDEX_NAME" = Some "docs".
Proof.
  refine (proj1 (env_file_last_line_wins
            ("# search cluster" ++ String (ascii_of_nat 10) "INDEX_NAME=first")
            (String (ascii_of_nat 239) (String (ascii_of_nat 187) (String (ascii_of_nat 191)
               ("INDEX_NAME = 'docs'" ++
                String (ascii_of_nat 194) (String (ascii_of_nat 160) "")))))
            "INDEX_NAME " " 'docs'"
            (env_of [("INDEX_NAME", "from_shell")]) _ _ _ _ _)).
  - simpl. repeat split; discriminate.
  - reflexivity.
  - discriminate.
  - simpl. repeat split; discriminate.
  - reflexivity.
Defined.

Lemma env_file_line_ignored_witness :
  load_env_local
    ("INDEX_NAME=docs" ++ String (ascii_of_nat 10) "  # INDEX_NAME=other")
    (env_of []) "INDEX_NAME" = Some "docs".
Proof.
  rewrite (env_file_line_ignored "INDEX_NAME=docs" "  # INDEX_NAME=other" (env_of [])).
  - reflexivity.
  - simpl. repeat split; discriminate.
  - right. left. reflexivity.
Defined.

Lemma env_file_keys_witness :
  "A" <> "" /\ free_of "="%char "A" /\ Str.trim "A" = "A".
Proof.
  apply (env_file_keys " A =1" (env_of []) "A"). discriminate.
Defined.

Lemma unquote_pair_witness :
  unquote (String double_quote ("it's" ++ char double_quote)) = "it's".
Proof.
  exact (proj1 (unquote_pair double_quote "it's" (or_introl eq_refl))).
Defined.

End EnvFileFacts.

(** ** The index-creation script: the URL in the log *)

Module MaskFacts.
Import IndexScript ScriptSpec.

Lemma span_credential_plain (run rest : string) (d : ascii) :
  plain run -> (d = ":"%char \/ d = "@"%char) ->
  span_credential (run ++ String d rest) = (run, String d rest).
Proof.
  intros [Hc Ha] Hd. induction run as [|c run IH]; simpl.
  - destruct Hd as [-> | ->]; reflexivity.
  - destruct Hc as [Hc Hc'], Ha as [Ha Ha'].
    apply Ascii.eqb_neq in Hc, Ha. rewrite Hc, Ha. cbn [orb].
    now rewrite (IH Hc' Ha').
Qed.

Lemma span_credential_split (s : string) :
  s = fst (span_credential s) ++ snd (span_credential s).
Proof.
  induction s as [|c s IH]; [reflexivity|]. simpl.
  destruct (Ascii.eqb c ":" || Ascii.eqb c "@")%bool; [reflexivity|].
  destruct (span_credential s) as [run rest]. simpl in *. now rewrite <- IH.
Qed.

(** Without an at sign behind it a colon starts no credentials. *)
Lemma span_credential_no_at (s : string) :
  free_of "@"%char s ->
  forall run rest, span_credential s = (run, String "@"%char rest) -> False.
Proof.
  intros H run rest E. pose proof (span_credential_split s) as Hs.
  rewrite E in Hs. simpl in Hs. rewrite Hs in H.
  apply LoaderFacts.free_of_app in H. destruct H as [_ [H _]]. now apply H.
Qed.

Lemma span_credential_at_colon (p s : string) :
  free_of "@"%char p ->
  exists run rest, span_credential (p ++ String ":"%char s) = (run, String ":"%char rest).
Proof.
  induction p as [|c p IH]; intros H; simpl.
  - now exists "", s.
  - destruct H as [Hc H]. apply Ascii.eqb_neq in Hc. rewrite Hc.
    destruct (Ascii.eqb c ":") eqn:E; cbn [orb].
    + apply Ascii.eqb_eq in E. subst c. now exists "", (p ++ String ":"%char s).
    + destruct (IH H) as (run & rest & ->). now exists (String c run), rest.
Qed.

Lemma mask_credentials_skip (p s : string) :
  free_of "@"%char p ->
  mask_credentials (p ++ String ":"%char s) = p ++ mask_credentials (String ":"%char s).
Proof.
  induction p as [|c p IH]; intros H; [reflexivity|].
  destruct H as [Hc H]. specialize (IH H).
  change (String c p ++ String ":"%char s) with (String c (p ++ String ":"%char s)).
  cbn [mask_credentials].
  destruct (span_credential_at_colon p s H) as (run & rest & ->).
  change (String c p ++ mask_credentials (String ":"%char s))
    with (String c (p ++ mask_credentials (String ":"%char s))).
  rewrite IH.
  destruct (Ascii.eqb c ":"); [|reflexivity].
  destruct run; reflexivity.
Qed.

Lemma mask_credentials_hit (pass rest : string) :
  plain pass -> pass <> "" ->
  mask_credentials (String ":"%char (pass ++ String "@"%char rest)) = ":****@" ++ rest.
Proof.
  intros Hp Hne. cbn [mask_credentials]. rewrite Ascii.eqb_refl.
  rewrite (span_credential_plain pass rest "@"%char Hp (or_intror eq_refl)).
  destruct pass as [|c pass]; [congruence|]. now rewrite Ascii.eqb_refl.
Qed.

(** The log hides what stands between the last colon before the first at
    sign and that at sign, and nothing else: everything before that colon,
    the earlier part of a password that holds a colon included, and
    everything after that at sign, the later part of a password that holds
    an at sign included, is printed as it is. *)
Theorem mask_credentials_hides (before pass rest : string) :
  free_of "@"%char before -> plain pass -> pass <> "" ->
  mask_credentials (before ++ String ":"%char (pass ++ String "@"%char rest)) =
    before ++ ":****@" ++ rest.
Proof.
  intros Hb Hp Hne.
  rewrite (mask_credentials_skip _ _ Hb).
  now rewrite (mask_credentials_hit _ _ Hp Hne).
Qed.

(** A URL without an at sign is printed as it is. *)
Theorem mask_credentials_no_at (url : string) :
  free_of "@"%char url -> mask_credentials url = url.
Proof.
  induction url as [|c r IH]; intros H; [reflexivity|].
  destruct H as [Hc H]. cbn [mask_credentials]. rewrite (IH H).
  destruct (Ascii.eqb c ":"); [|reflexivity].
  destruct (span_credential r) as [run rest] eqn:E.
  destruct run as [|a run]; [reflexivity|].
  destruct rest as [|d rest]; [reflexivity|].
  destruct (Ascii.eqb d "@") eqn:Ed; [|reflexivity].
  apply Ascii.eqb_eq in Ed. subst d.
  destruct (span_credential_no_at r H _ _ E).
Qed.

(** A password with a colon: the part before its last colon is printed. *)
Lemma mask_credentials_hides_witness :
  mask_credentials "https://admin:pa:ss@search.example.com:9200" =
    "https://admin:pa:****@search.example.com:9200".
Proof.
  refine (mask_credentials_hides "https://admin:pa" "ss" "search.example.com:9200" _ _ _).
  - simpl. repeat split; discriminate.
  - unfold plain. simpl. repeat split; discriminate.
  - discriminate.
Defined.

Lemma mask_credentials_no_at_witness :
  mask_credentials "https://search.example.com:9200" = "https://search.example.com:9200".
Proof.
  apply (mask_credentials_no_at "https://search.example.com:9200").
  simpl. repeat split; discriminate.
Defined.

End MaskFacts.

(** ** The index-creation script: the attempts of [main] *)

Module RetryFacts.
Import Js IndexScript RetrySpec.

Lemma lookup_absent (k : string) (fields : list (string * value)) :
  has_own k fields = false -> lookup k fields = VUndefined.
Proof.
  induction fields as [|[k' v] fields IH]; simpl; [reflexivity|].
  destruct (k' =? k)%string; [discriminate | exact IH].
Qed.

(** The classification of the [catch] block is the one read off the
    error: [is503] says that the cluster is not ready, [isAlreadyExists]
    that the index exists, and the block throws exactly on an error it
    cannot read. *)
Lemma classify_legible (err : value) :
  legible err = true -> classify err = Normal (not_ready err, already_exists err).
Proof.
  unfold legible, classify, not_ready, already_exists, has_status, has_type,
    status_of, type_of, reason_of.
  intros H. apply andb_true_iff in H. destruct H as [Hnull H].
  apply negb_true_iff in Hnull.
  rewrite !(ChatFacts.get_entry _ _ Hnull). cbn [and_then].
  unfold is_number, is_string in *.
  set (status := opt_get (read err "meta") "statusCode") in *.
  set (type := opt_get (opt_get (read err "body") "error") "type") in *.
  set (reason := opt_get (opt_get (read err "body") "error") "reason") in *.
  clearbody status type reason.
  destruct (match type with
            | VStr u => (u =? "resource_already_exists_exception")%string
            | _ => false
            end) eqn:Htype; [reflexivity|].
  cbn [orb] in *.
  destruct (match status with VNum m => PrimFloat.eqb m 400 | _ => false end) eqn:H400;
    [|reflexivity].
  cbn [negb orb andb] in *. unfold reason_includes, names_existing.
  destruct (truthy reason) eqn:Ht; cbn [negb orb] in H.
  - destruct reason; try discriminate H; reflexivity.
  - destruct reason; try discriminate Ht; try reflexivity.
    cbn [truthy] in Ht. apply StrFacts.nonempty_false in Ht. subst s. reflexivity.
Qed.

Lemma classify_illegible (err : value) :
  legible err = false -> exists t, classify err = Throw t.
Proof.
  unfold legible, classify, has_status, has_type, status_of, type_of, reason_of.
  intros H. destruct (nullish err) eqn:Hnull.
  - destruct err; try discriminate Hnull; eexists; reflexivity.
  - cbn [negb andb] in H. rewrite !(ChatFacts.get_entry _ _ Hnull). cbn [and_then].
    unfold is_number, is_string.
    set (status := opt_get (read err "meta") "statusCode") in *.
    set (type := opt_get (opt_get (read err "body") "error") "type") in *.
    set (reason := opt_get (opt_get (read err "body") "error") "reason") in *.
    clearbody status type reason.
    destruct (match type with
              | VStr u => (u =? "resource_already_exists_exception")%string
              | _ => false
              end) eqn:Htype; [discriminate H|].
    destruct (match status with VNum m => PrimFloat.eqb m 400 | _ => false end) eqn:H400;
      [|discriminate H].
    cbn [negb orb] in H. unfold reason_includes.
    destruct (truthy reason) eqn:Ht; [|discriminate H].
    destruct reason; try discriminate H; eexists; reflexivity.
Qed.

Lemma settles_classify (c : creation) :
  settles c =
    match c with
    | Created => true
    | Rejected err =>
        match classify err with
        | Normal (_, isAlreadyExists) => isAlreadyExists
        | Throw _ => false
        end
    end.
Proof.
  destruct c as [|err]; [reflexivity|]. unfold settles.
  destruct (legible err) eqn:L.
  - now rewrite (classify_legible _ L).
  - now destruct (classify_illegible _ L) as [t ->].
Qed.

Lemma unavailable_classify (c : creation) :
  unavailable c =
    match c with
    | Created => false
    | Rejected err =>
        match classify err with
        | Normal (is503, isAlreadyExists) => is503 && negb isAlreadyExists
        | Throw _ => false
        end
    end.
Proof.
  destruct c as [|err]; [reflexivity|]. unfold unavailable.
  destruct (legible err) eqn:L.
  - now rewrite (classify_legible _ L).
  - now destruct (classify_illegible _ L) as [t ->].
Qed.

Lemma unavailable_not_settled (c : creation) : unavailable c = true -> settles c = false.
Proof.
  rewrite unavailable_classify, settles_classify. destruct c as [|err]; [discriminate|].
  destruct (classify err) as [[is503 exists_]|]; [|reflexivity].
  destruct exists_; [now rewrite andb_false_r | reflexivity].
Qed.

Section Script.
Context {engine : Engine}.
Variable indices_create : nat -> creation.
Variable indexName : string.
Variable dimension : float.

Lemma failure_calls (err : value) (is503 : bool) :
  filter is_create (failure err is503) = [] /\ filter is_sleep (failure err is503) = [].
Proof.
  unfold failure.
  destruct (truthy (read err "body") && truthy (read (read err "body") "error"))%bool,
    is503; split; reflexivity.
Qed.

(** One iteration of the loop: its outcome, its request and its pause. *)
Lemma attempts_outcome (remaining tryNum : nat) :
  snd (attempts indices_create indexName dimension (S remaining) tryNum) =
    if (unavailable (indices_create tryNum) && (tryNum <? maxTries)%nat)%bool
    then snd (attempts indices_create indexName dimension remaining (S tryNum))
    else if settles (indices_create tryNum) then Finished else Exit 1.
Proof.
  cbn [attempts]. rewrite unavailable_classify, settles_classify.
  destruct (indices_create tryNum) as [|err]; [reflexivity|].
  destruct (classify err) as [[is503 exists_]|]; [|reflexivity].
  destruct exists_; [now rewrite andb_false_r|]. rewrite andb_true_r.
  destruct (is503 && (tryNum <? maxTries)%nat)%bool; [|reflexivity].
  now destruct (attempts indices_create indexName dimension remaining (S tryNum)).
Qed.

Lemma attempts_creations (remaining tryNum : nat) :
  filter is_create (fst (attempts indices_create indexName dimension (S remaining) tryNum)) =
    IndicesCreate indexName (index_body dimension) ::
    (if (unavailable (indices_create tryNum) && (tryNum <? maxTries)%nat)%bool
     then filter is_create
            (fst (attempts indices_create indexName dimension remaining (S tryNum)))
     else []).
Proof.
  cbn [attempts]. rewrite unavailable_classify.
  destruct (indices_create tryNum) as [|err].
  - destruct (1 <? tryNum)%nat; reflexivity.
  - destruct (classify err) as [[is503 exists_]|].
    + destruct exists_.
      * rewrite andb_false_r. destruct (1 <? tryNum)%nat; reflexivity.
      * rewrite andb_true_r.
        destruct (is503 && (tryNum <? maxTries)%nat)%bool.
        -- destruct (attempts indices_create indexName dimension remaining (S tryNum))
             as [later result].
           cbn [fst]. rewrite filter_app. destruct (1 <? tryNum)%nat; reflexivity.
        -- cbn [fst]. rewrite !filter_app, (proj1 (failure_calls err is503)).
           destruct (1 <? tryNum)%nat; reflexivity.
    + destruct (1 <? tryNum)%nat; reflexivity.
Qed.

Lemma attempts_pauses (remaining tryNum : nat) :
  pauses (fst (attempts indices_create indexName dimension (S remaining) tryNum)) =
    List.app
      (if (1 <? tryNum)%nat then [Sleep 10000] else [])
      (if (unavailable (indices_create tryNum) && (tryNum <? maxTries)%nat)%bool
       then pauses (fst (attempts indices_create indexName dimension remaining (S tryNum)))
       else []).
Proof.
  unfold pauses. cbn [attempts]. rewrite unavailable_classify.
  destruct (indices_create tryNum) as [|err].
  - destruct (1 <? tryNum)%nat; reflexivity.
  - destruct (classify err) as [[is503 exists_]|].
    + destruct exists_.
      * rewrite andb_false_r. destruct (1 <? tryNum)%nat; reflexivity.
      * rewrite andb_true_r.
        destruct (is503 && (tryNum <? maxTries)%nat)%bool.
        -- destruct (attempts indices_create indexName dimension remaining (S tryNum))
             as [later result].
           cbn [fst]. rewrite filter_app. destruct (1 <? tryNum)%nat; reflexivity.
        -- cbn [fst]. rewrite !filter_app, (proj2 (failure_calls err is503)).
           destruct (1 <? tryNum)%nat; reflexivity.
    + destruct (1 <? tryNum)%nat; reflexivity.
Qed.

(** What [main] does when the attempts before [k] all found the cluster
    not ready and attempt [k] did not, or was the third. *)
Lemma main_run (k : nat) :
  1 <= k <= 3 ->
  unavailable_before indices_create k ->
  (k < 3 -> unavailable (indices_create k) = false) ->
  filter is_create (fst (main indices_create indexName dimension)) =
    repeat (IndicesCreate indexName (index_body dimension)) k /\
  pauses (fst (main indices_create indexName dimension)) = repeat (Sleep 10000) (k - 1) /\
  snd (main indices_create indexName dimension) =
    if settles (indices_create k) then Finished else Exit 1.
Proof.
  intros Hk Hbefore Hlast. unfold main, maxTries.
  assert (k = 1 \/ k = 2 \/ k = 3) as [-> | [-> | ->]] by lia.
  - rewrite attempts_creations, attempts_pauses, attempts_outcome.
    rewrite (Hlast ltac:(lia)). repeat split; reflexivity.
  - rewrite attempts_creations, attempts_pauses, attempts_outcome.
    rewrite (Hbefore 1 ltac:(lia)).
    rewrite attempts_creations, attempts_pauses, attempts_outcome.
    rewrite (Hlast ltac:(lia)). repeat split; reflexivity.
  - rewrite attempts_creations, attempts_pauses, attempts_outcome.
    rewrite (Hbefore 1 ltac:(lia)).
    rewrite attempts_creations, attempts_pauses, attempts_outcome.
    rewrite (Hbefore 2 ltac:(lia)).
    rewrite attempts_creations, attempts_pauses, attempts_outcome.
    unfold maxTries. cbn [Nat.ltb Nat.leb andb]. rewrite andb_false_r.
    repeat split; reflexivity.
Qed.

(** The number of the attempt that ends the loop. *)
Lemma last_attempt :
  exists k, 1 <= k <= 3 /\ unavailable_before indices_create k /\
            (k < 3 -> unavailable (indices_create k) = false).
Proof.
  destruct (unavailable (indices_create 1)) eqn:H1.
  - destruct (unavailable (indices_create 2)) eqn:H2.
    + exists 3. split; [lia|]. split; [|lia].
      intros j Hj. assert (j = 1 \/ j = 2) as [-> | ->] by lia; assumption.
    + exists 2. split; [lia|]. split; [|now intros _].
      intros j Hj. assert (j = 1) as -> by lia. assumption.
  - exists 1. split; [lia|]. split; [|now intros _].
    intros j Hj. lia.
Qed.


(** Whatever the cluster answers, [main] sends one, two or three requests,
    pauses ten seconds between two of them and at no other time, and ends
    by returning or by exit code 1, never with an exception. *)
Theorem main_bounded :
  let events := fst (main indices_create indexName dimension) in
  1 <= creations events <= 3 /\
  pauses events = repeat (Sleep 10000) (creations events - 1) /\
  (snd (main indices_create indexName dimension) = Finished \/
   snd (main indices_create indexName dimension) = Exit 1).
Proof.
  destruct last_attempt as (k & Hk & Hbefore & Hlast).
  destruct (main_run k Hk Hbefore Hlast) as (Hc & Hp & Ho).
  cbn zeta. unfold creations. rewrite Hc, Hp, Ho, repeat_length.
  split; [lia|]. split; [reflexivity|].
  destruct (settles (indices_create k)); [now left | now right].
Qed.

(** An error that carries neither [meta] nor [body], as a connection
    failure does, ends the script at once: one request, no pause, the
    message of the error printed, exit code 1. *)
Theorem plain_error_not_retried (err : value) :
  nullish err = false ->
  nullish (read err "meta") = true ->
  nullish (read err "body") = true ->
  indices_create 1 = Rejected err ->
  main indices_create indexName dimension =
    ([Print ("Creating index " ++ Str.DQ ++ indexName ++ Str.DQ ++ "...");
      IndicesCreate indexName (index_body dimension);
      PrintErrorValue "Index creation failed:" (read err "message")],
     Exit 1).
Proof.
  intros Herr Hmeta Hbody Hfirst. unfold main, maxTries. cbn [attempts].
  rewrite Hfirst.
  assert (Hclass : classify err = Normal (false, false)).
  { unfold classify, get, opt_get.
    destruct err; try discriminate Herr; cbn [and_then nullish];
      try reflexivity.
    destruct (read (VObj fields) "meta"); try discriminate Hmeta;
      destruct (read (VObj fields) "body"); try discriminate Hbody; reflexivity. }
  rewrite Hclass. cbn [andb Nat.ltb Nat.leb]. unfold failure.
  destruct (read err "body"); try discriminate Hbody; reflexivity.
Qed.

End Script.


Lemma plain_error_not_retried_witness :
  snd (@main Sim.engine
         (fun _ => Rejected (VObj [("message", VStr "connect ECONNREFUSED")]))
         "rag_demo" 1536%float) = Exit 1.
Proof.
  rewrite (@plain_error_not_retried Sim.engine
             (fun _ => Rejected (VObj [("message", VStr "connect ECONNREFUSED")]))
             "rag_demo" 1536%float
             (VObj [("message", VStr "connect ECONNREFUSED")])
             eq_refl eq_refl eq_refl eq_refl).
  reflexivity.
Defined.

End RetryFacts.

(** ** The index-creation script: from the file to the requests *)

Module ScriptFacts.
Import Js IndexScript RetrySpec RunSpec SlashSpec EndpointSpec.

Lemma url_blank_iff (env : Env) :
  url_blank env <->
  Str.nonempty (Str.strip_trailing_slashes (Str.trim (env_or env "OPENSEARCH_URL" ""))) = false.
Proof.
  rewrite StrFacts.nonempty_false. unfold url_blank, env_or.
  destruct (env "OPENSEARCH_URL") as [url|]; [|tauto].
  destruct (Str.nonempty url) eqn:E.
  - split.
    + intros [n ->]. apply SlashFacts.strip_slashes.
    + intros H. destruct (SlashFacts.strip_decompose (Str.trim url)) as [n Hn].
      exists n. now rewrite H in Hn.
  - apply StrFacts.nonempty_false in E. subst url. split; [reflexivity|].
    intros _. now exists 0.
Qed.

Section Script.
Context {engine : Engine}.
Variable parseInt10 : string -> float.
Variable new_Client : ClientOptions -> option thrown.
Variable indices_create : nat -> creation.

Lemma failure_requests (err : value) (is503 : bool) :
  requests (failure err is503) = [].
Proof.
  unfold failure, requests.
  destruct (truthy (read err "body") && truthy (read (read err "body") "error"))%bool,
    is503; reflexivity.
Qed.

(** The loop constructs no client: its requests are its calls of
    [client.indices.create]. *)
Lemma attempts_requests (indexName : string) (dimension : float) (remaining tryNum : nat) :
  requests (fst (attempts indices_create indexName dimension remaining tryNum)) =
    filter is_create (fst (attempts indices_create indexName dimension remaining tryNum)).
Proof.
  revert tryNum. induction remaining as [|remaining IH]; intros tryNum; [reflexivity|].
  cbn [attempts]. unfold requests in *.
  destruct (indices_create tryNum) as [|err].
  - destruct (1 <? tryNum)%nat; reflexivity.
  - destruct (classify err) as [[is503 exists_]|].
    + destruct exists_; [destruct (1 <? tryNum)%nat; reflexivity|].
      destruct (is503 && (tryNum <? maxTries)%nat)%bool.
      * specialize (IH (S tryNum)).
        destruct (attempts indices_create indexName dimension remaining (S tryNum))
          as [later result].
        cbn [fst] in *. rewrite !filter_app. cbn [filter app is_new_client is_create orb].
        rewrite IH. destruct (1 <? tryNum)%nat; reflexivity.
      * cbn [fst]. rewrite !filter_app.
        pose proof (failure_requests err is503) as Hf. unfold requests in Hf. rewrite Hf.
        rewrite (proj1 (RetryFacts.failure_calls err is503)).
        destruct (1 <? tryNum)%nat; reflexivity.
    + destruct (1 <? tryNum)%nat; reflexivity.
Qed.

(** Without an endpoint the script prints an error and exits with code 1:
    it constructs no client and sends no request. With one, it constructs
    one client, for the URL of the file trimmed and without trailing
    slashes, with the TLS setting the environment after the file gives, and
    then sends at most three requests, all for the index the environment
    after the file names, trimmed, [rag_demo] by default, and with the
    dimension it names, 1536 by default, as the dimension of the
    [embeddings] field; it sends none exactly when the constructor throws,
    and it finishes only after a request. *)
Theorem script_requests (file : option string) (env : Env) :
  (unconfigured file env ->
   requests (fst (script parseInt10 new_Client indices_create file env)) = [] /\
   snd (script parseInt10 new_Client indices_create file env) = Exit 1) /\
  (forall content, file = Some content ->
   ~ url_blank (load_env_local content env) ->
   let env' := load_env_local content env in
   exists raw url n options k,
     env' "OPENSEARCH_URL" = Some raw /\
     Str.trim raw = url ++ slashes n /\ url <> "" /\ ~ ends_in_slash url /\
     node options = url /\
     ssl_rejectUnauthorized options = CreateIndexJs.getRejectUnauthorized env' /\
     k <= 3 /\
     requests (fst (script parseInt10 new_Client indices_create file env)) =
       NewClient options 30000 ::
       repeat (IndicesCreate (Str.trim (env_or env' "INDEX_NAME" "rag_demo"))
                 (index_body (parseInt10 (env_or env' "EMBEDDING_DIMENSION" "1536")))) k /\
     (k = 0 <-> new_Client options <> None) /\
     (snd (script parseInt10 new_Client indices_create file env) = Finished -> 1 <= k) /\
     read (read (read (read
       (index_body (parseInt10 (env_or env' "EMBEDDING_DIMENSION" "1536")))
       "mappings") "properties") "embeddings") "dimension" =
       VNum (parseInt10 (env_or env' "EMBEDDING_DIMENSION" "1536"))).
Proof.
  split.
  - intros H. unfold unconfigured in H. destruct file as [content|].
    + apply url_blank_iff in H. unfold script. rewrite H. split; reflexivity.
    + split; reflexivity.
  - intros content -> H env'. rewrite url_blank_iff in H. fold env' in H.
    destruct (Str.nonempty (Str.strip_trailing_slashes
                              (Str.trim (env_or env' "OPENSEARCH_URL" "")))) eqn:E;
      [|congruence].
    unfold script. fold env'. rewrite E. cbn [negb].
    assert (Hraw : exists raw, env' "OPENSEARCH_URL" = Some raw /\
                               env_or env' "OPENSEARCH_URL" "" = raw).
    { unfold env_or in *. destruct (env' "OPENSEARCH_URL") as [raw|]; [|discriminate E].
      destruct (Str.nonempty raw); [|discriminate E]. now exists raw. }
    destruct Hraw as (raw & Hraw & Hor). rewrite Hor in *.
    destruct (SlashFacts.strip_decompose (Str.trim raw)) as [n Hn].
    set (options := {| node := Str.strip_trailing_slashes (Str.trim raw);
                       auth := _; ssl_rejectUnauthorized := _ |}).
    set (indexName := Str.trim (env_or env' "INDEX_NAME" "rag_demo")).
    set (dimension := parseInt10 (env_or env' "EMBEDDING_DIMENSION" "1536")).
    destruct (new_Client options) as [t|] eqn:Hnew.
    + exists raw, (Str.strip_trailing_slashes (Str.trim raw)), n, options, 0.
      split; [exact Hraw|]. split; [exact Hn|].
      split; [now apply StrFacts.nonempty_true|].
      split; [intros [r Hr]; exact (SlashFacts.strip_not_slash_end _ r Hr)|].
      split; [reflexivity|]. split; [reflexivity|]. split; [lia|].
      split; [reflexivity|]. split; [|split; [cbn [snd]; intros Hf; discriminate Hf|reflexivity]].
      rewrite Hnew. split; [intros _ Hn'; discriminate Hn' | intros _; reflexivity].
    + destruct (@RetryFacts.last_attempt indices_create) as (k & Hk & Hbefore & Hlast).
      destruct (@RetryFacts.main_run engine indices_create indexName dimension
                  k Hk Hbefore Hlast) as (Hc & _ & _).
      exists raw, (Str.strip_trailing_slashes (Str.trim raw)), n, options, k.
      split; [exact Hraw|]. split; [exact Hn|].
      split; [now apply StrFacts.nonempty_true|].
      split; [intros [r Hr]; exact (SlashFacts.strip_not_slash_end _ r Hr)|].
      split; [reflexivity|]. split; [reflexivity|]. split; [lia|].
      split; [|split; [|split; [intros _; lia | reflexivity]]].
      * pose proof (attempts_requests indexName dimension maxTries 1) as Hreq.
        unfold main in *. 
        destruct (attempts indices_create indexName dimension maxTries 1) as [events result].
        cbn [fst] in *. unfold requests in *.
        change (filter _ (List.app _ events))
          with (NewClient options 30000 ::
                filter (fun e => is_new_client e || is_create e)%bool events).
        now rewrite Hreq, Hc.
      * split; [lia | congruence].
Qed.

End Script.

End ScriptFacts.

(** ** The direct route: which services it calls, and when *)

Module SemanticCalls.
Import Js Semantic MFacts CallSpec.

Lemma units_continuation (m : nat) :
  128 <= m < 192 -> Str.units (ascii_of_nat m) = 0.
Proof.
  intros H. unfold Str.units. rewrite nat_ascii_embedding by lia.
  destruct (Nat.ltb_spec m 128); [lia|]. destruct (Nat.ltb_spec m 192); [reflexivity | lia].
Qed.

Lemma high_surrogate_unit (c d e : ascii) : Str.length16 (Str.high_surrogate c d e) = 1.
Proof.
  unfold Str.high_surrogate. cbn [Str.length16].
  change (Str.units (ascii_of_nat 237)) with 1.
  rewrite !units_continuation; [reflexivity | |].
  - pose proof (Nat.mod_upper_bound
                  ((nat_of_ascii c mod 8) * 256 + (nat_of_ascii d mod 64) * 4 +
                   (nat_of_ascii e mod 64) / 16 - 64) 64 ltac:(lia)). lia.
  - pose proof (Nat.mod_upper_bound
                  (((nat_of_ascii c mod 8) * 256 + (nat_of_ascii d mod 64) * 4 +
                    (nat_of_ascii e mod 64) / 16 - 64) / 64) 16 ltac:(lia)). lia.
Qed.

(** [substring(0, n)] holds at most [n] code units, and is the whole of a
    string of at most [n] code units. *)
Lemma substring16_length (n : nat) (s : string) :
  Str.length16 (Str.substring16 n s) <= n.
Proof.
  revert n. induction s as [|c s IH]; intros n; [simpl; lia|].
  cbn [Str.substring16]. destruct (Str.units c) as [|u] eqn:E.
  - cbn [Str.length16]. rewrite E. apply IH.
  - destruct (Nat.leb_spec (S u) n) as [Hle|Hgt].
    + cbn [Str.length16]. rewrite E. specialize (IH (n - S u)). lia.
    + destruct (Nat.eqb_spec n 1) as [->|_]; [|simpl; lia].
      destruct s as [|d [|e r]]; [simpl; lia | simpl; lia |].
      now rewrite high_surrogate_unit.
Qed.

Lemma substring16_short (n : nat) (s : string) :
  Str.length16 s <= n -> Str.substring16 n s = s.
Proof.
  revert n. induction s as [|c s IH]; intros n H; [reflexivity|].
  cbn [Str.length16] in H. cbn [Str.substring16].
  destruct (Str.units c) as [|u] eqn:E.
  - now rewrite IH.
  - destruct (Nat.leb_spec (S u) n) as [Hle|Hgt]; [|lia].
    rewrite IH; [reflexivity | lia].
Qed.

Lemma length16_app (s t : string) :
  Str.length16 (s ++ t) = Str.length16 s + Str.length16 t.
Proof. induction s as [|c s IH]; simpl; [reflexivity | rewrite IH; lia]. Qed.

Lemma retrievedDocs_nth (i j : nat) (found : list OpenSearchHit) (hit : OpenSearchHit) :
  nth_error found j = Some hit ->
  nth_error
    (mapi_from i (fun hit k =>
       VObj [
         ("rank", VNum (of_nat (k + 1)));
         ("score", VNum (_score hit));
         ("text", VStr (Str.substring16 500 (text (_source hit)) ++
                        (if (500 <? Str.length16 (text (_source hit)))%nat
                         then "..." else "")));
         ("file_path", VStr (match file_path (_source hit) with
                             | Some p => if Str.nonempty p then p else "unknown"
                             | None => "unknown"
                             end))])
       found) j =
  Some (VObj [
    ("rank", VNum (of_nat (i + j + 1)));
    ("score", VNum (_score hit));
    ("text", VStr (excerpt (text (_source hit))));
    ("file_path", VStr (match file_path (_source hit) with
                        | Some p => if Str.nonempty p then p else "unknown"
                        | None => "unknown"
                        end))]).
Proof.
  revert i j. induction found as [|first found IH]; intros i j H.
  - destruct j; discriminate H.
  - destruct j as [|j].
    + injection H as ->. cbn [mapi_from nth_error]. rewrite Nat.add_0_r.
      unfold excerpt.
      destruct (Nat.leb_spec (Str.length16 (text (_source hit))) 500) as [Hle|Hgt].
      * rewrite (substring16_short _ _ Hle).
        destruct (Nat.ltb_spec 500 (Str.length16 (text (_source hit)))); [lia|].
        assert (E : forall s : string, s ++ "" = s)
          by (induction s as [|c s IHs]; simpl; [reflexivity | now rewrite IHs]).
        now rewrite E.
      * destruct (Nat.ltb_spec 500 (Str.length16 (text (_source hit)))); [|lia].
        reflexivity.
    + cbn [mapi_from nth_error]. rewrite (IH (S i) j H).
      now replace (S i + j + 1) with (i + S j + 1) by lia.
Qed.

(** The summary of the document of rank [j + 1] carries that rank, the
    score of the document and its excerpt, lengths counted in UTF-16 code
    units as the language counts them: the excerpt of a text of at most
    500 units is the text, that of a longer text is its first 500 units
    and an ellipsis, and no excerpt is longer than 503 units. *)
Theorem retrieved_docs_excerpts (found : list OpenSearchHit) (j : nat) (hit : OpenSearchHit) :
  nth_error found j = Some hit ->
  nth_error (retrievedDocs found) j =
    Some (VObj [
      ("rank", VNum (of_nat (j + 1)));
      ("score", VNum (_score hit));
      ("text", VStr (excerpt (text (_source hit))));
      ("file_path", VStr (match file_path (_source hit) with
                          | Some p => if Str.nonempty p then p else "unknown"
                          | None => "unknown"
                          end))]) /\
  Str.length16 (excerpt (text (_source hit))) <= 503 /\
  (Str.length16 (text (_source hit)) <= 500 ->
   excerpt (text (_source hit)) = text (_source hit)) /\
  (500 < Str.length16 (text (_source hit)) ->
   excerpt (text (_source hit)) = Str.substring16 500 (text (_source hit)) ++ "..." /\
   Str.length16 (Str.substring16 500 (text (_source hit))) <= 500).
Proof.
  intros H. split; [|split; [|split]].
  - exact (retrievedDocs_nth 0 j found hit H).
  - unfold excerpt.
    destruct (Nat.leb_spec (Str.length16 (text (_source hit))) 500) as [Hle|Hgt]; [lia|].
    rewrite length16_app. pose proof (substring16_length 500 (text (_source hit))).
    simpl. lia.
  - intros Hle. unfold excerpt.
    now destruct (Nat.leb_spec (Str.length16 (text (_source hit))) 500); [|lia].
  - intros Hgt. split; [|apply substring16_length]. unfold excerpt.
    now destruct (Nat.leb_spec (Str.length16 (text (_source hit))) 500); [lia|].
Qed.

Section Route.
Context {engine : Engine}.

(** The handler calls [openai.embeddings.create], [fetch] and
    [openai.chat.completions.create] at most once each, in this order:
    the calls of one request are a prefix of the three. What a call does
    on the network, the retries of the OpenAI client included, is the
    library's and not the handler's. *)
Theorem semantic_call_order cfg w :
  exists n, n <= 3 /\
    services (fst (POST cfg w)) = firstn n [Embedding; Search; Generation].
Proof.
  destruct (POST cfg w) as [tr r] eqn:H.
  unfold POST, on_search_reply, answer_from, respond, on_error in H.
  split_handler H; injection H as <- <-; cbn [fst];
    first [ exists 0; split; [lia | reflexivity]
          | exists 1; split; [lia | reflexivity]
          | exists 2; split; [lia | reflexivity]
          | exists 3; split; [lia | reflexivity] ].
Qed.

(** The generation model is called only after a retrieval that found at
    least one document, and then with the prompt built from these
    documents and the question. *)
Theorem generation_only_after_retrieval cfg w params :
  In (ChatCompletionsCreate params) (fst (POST cfg w)) ->
  exists question queryVector found shown,
    Retrieved cfg w question queryVector found /\
    1 <= List.length found /\
    ToString question = Normal shown /\
    params = chat_params cfg (context found) shown.
Proof.
  intros Hin. destruct (POST cfg w) as [tr r] eqn:H. cbn [fst] in Hin.
  unfold POST, on_search_reply, answer_from, respond, on_error in H.
  split_handler H; injection H as <- <-; cbn [In app] in Hin;
    repeat match goal with
           | Hd : _ \/ _ |- _ => destruct Hd as [Hd|Hd]; try discriminate Hd
           | Hf : False |- _ => destruct Hf
           end.
  all: injection Hin as <-.
  all: repeat match goal with
              | Hb : negb ?b = false |- _ => apply negb_false_iff in Hb
              | Hb : (_ =? 0)%nat = false |- _ => apply Nat.eqb_neq in Hb
              end.
  all: do 4 eexists; split;
    [ unfold Retrieved, Searched; do 2 eexists;
      split; [split; [eexists; split; eassumption|];
              split; [eassumption|]; split; [eassumption|]; split; [eassumption|];
              split; [eexists; split; eassumption | eassumption]|];
      split; [eassumption|]; split; eassumption
    | split; [lia | split; [eassumption | reflexivity]] ].
Qed.

End Route.

End SemanticCalls.

(** ** The direct route: failures before the search reply *)

Module SemanticFailures.
Import Js Semantic MFacts.

Section Route.
Context {engine : Engine}.

(** When [fetch] rejects, the route answers HTTP 502 with the message
    [Failed to reach OpenSearch at ], the configured endpoint,
    [ (index: ], the configured index and the advice to check the URL,
    after logging the error; the request went to [/_search] of that index
    at that endpoint, and the generation model is not called. *)
Theorem search_unreachable cfg w body question embeddingResponse queryVector t :
  request_json w = Normal body ->
  get body "message" = Normal question ->
  truthy question = true ->
  Str.nonempty (OPENAI_API_KEY cfg) = true ->
  Str.nonempty (OPENSEARCH_URL cfg) = true ->
  embeddings_create w (OPENAI_EMBEDDING_MODEL cfg) question = Normal embeddingResponse ->
  first_embedding embeddingResponse = Normal queryVector ->
  fetch w (OPENSEARCH_URL cfg ++ "/" ++ INDEX_NAME cfg ++ "/_search") (request_headers cfg)
          (JSON_stringify (searchQuery cfg queryVector) 0) = Throw t ->
  POST cfg w =
    ([RequestJson;
      EmbeddingsCreate (OPENAI_EMBEDDING_MODEL cfg) question;
      Fetch (OPENSEARCH_URL cfg ++ "/" ++ INDEX_NAME cfg ++ "/_search") (request_headers cfg)
            (JSON_stringify (searchQuery cfg queryVector) 0);
      ConsoleError [LogStr "OpenSearch fetch failed:"; LogThrown t]],
     Normal {| status := 502;
               body := VObj [("error",
                 VStr ("Failed to reach OpenSearch at " ++ OPENSEARCH_URL cfg ++
                       " (index: " ++ INDEX_NAME cfg ++ "). " ++
                       "Check OPENSEARCH_URL and whether the cluster is reachable from this machine."))] |}).
Proof.
  intros Hbody Hmsg Htruthy Hkey Hurl Her Hvec Hfetch.
  unfold POST, search_trace. run. rewrite Hbody. run. rewrite Hmsg. run.
  rewrite Htruthy, Hkey, Hurl. run. rewrite Her. run. rewrite Hvec. run.
  unfold search_url. rewrite Hfetch. reflexivity.
Qed.

(** When the embedding provider rejects, or returns no embedding, the
    route answers HTTP 500 with the message of the error, and the index is
    not queried. *)
Theorem embedding_failure cfg w body question t :
  request_json w = Normal body ->
  get body "message" = Normal question ->
  truthy question = true ->
  Str.nonempty (OPENAI_API_KEY cfg) = true ->
  Str.nonempty (OPENSEARCH_URL cfg) = true ->
  and_then (embeddings_create w (OPENAI_EMBEDDING_MODEL cfg) question) first_embedding
    = Throw t ->
  POST cfg w =
    ([RequestJson;
      EmbeddingsCreate (OPENAI_EMBEDDING_MODEL cfg) question;
      ConsoleError [LogStr "Semantic search API error:"; LogThrown t]],
     Normal {| status := 500; body := VObj [("error", VStr (error_message t))] |}).
Proof.
  intros Hbody Hmsg Htruthy Hkey Hurl Hemb.
  unfold POST. run. rewrite Hbody. run. rewrite Hmsg. run.
  rewrite Htruthy, Hkey, Hurl. run.
  destruct (embeddings_create w (OPENAI_EMBEDDING_MODEL cfg) question) as [er|t'];
    cbn [and_then] in Hemb; run.
  - rewrite Hemb. reflexivity.
  - injection Hemb as ->. reflexivity.
Qed.

(** With the configuration read from the environment: a request with a
    message is answered HTTP 500, before any service is called, when the
    API key is unset or empty, and when [OPENSEARCH_URL] is unset or holds
    slashes only; the key is looked at first. *)
Theorem semantic_unconfigured (env : Env) w body question :
  request_json w = Normal body ->
  get body "message" = Normal question ->
  truthy question = true ->
  (env_or env "OPENAI_API_KEY" "" = "" ->
   POST (config_of_env env) w =
     ([RequestJson],
      Normal {| status := 500; body := VObj [("error", VStr "OPENAI_API_KEY not configured")] |})) /\
  (env_or env "OPENAI_API_KEY" "" <> "" ->
   EndpointSpec.url_missing env ->
   POST (config_of_env env) w =
     ([RequestJson],
      Normal {| status := 500; body := VObj [("error", VStr "OPENSEARCH_URL not configured. Set it in frontend/.env.local.")] |})).
Proof.
  intros Hbody Hmsg Htruthy. split.
  - intros Hkey. unfold POST. run. rewrite Hbody. run. rewrite Hmsg. run.
    rewrite Htruthy. cbn [negb OPENAI_API_KEY config_of_env]. now rewrite Hkey.
  - intros Hkey Hurl. apply SearchClientFacts.url_missing_iff in Hurl.
    apply StrFacts.nonempty_true in Hkey.
    unfold POST. run. rewrite Hbody. run. rewrite Hmsg. run.
    rewrite Htruthy. cbn [negb OPENAI_API_KEY OPENSEARCH_URL config_of_env].
    rewrite Hkey. cbn [negb].
    unfold SearchClient.normalizeOpenSearchUrl in Hurl.
    unfold normalizeOpenSearchUrl. now rewrite Hurl.
Qed.

End Route.

Lemma search_unreachable_witness :
  snd (@POST Sim.engine Sim.semantic_config Outage.unreachable_world) =
    Normal {| status := 502; body := VObj [("error", VStr "Failed to reach OpenSearch at https://search.example.com (index: rag_demo). Check OPENSEARCH_URL and whether the cluster is reachable from this machine.")] |}.
Proof.
  rewrite (@search_unreachable Sim.engine Sim.semantic_config Outage.unreachable_world
             Sim.semantic_request (VStr "asdkjalksjd nonsense query")
             {| data := [{| embedding := Sim.vector |}] |} Sim.vector
             (ErrorObject "fetch failed")
             eq_refl eq_refl eq_refl eq_refl eq_refl eq_refl eq_refl eq_refl).
  reflexivity.
Defined.

Lemma embedding_failure_witness :
  snd (@POST Sim.engine Sim.semantic_config Outage.no_embedding_world) =
    Normal {| status := 500; body := VObj [("error", VStr "401 Incorrect API key")] |}.
Proof.
  rewrite (@embedding_failure Sim.engine Sim.semantic_config Outage.no_embedding_world
             Sim.semantic_request (VStr "asdkjalksjd nonsense query")
             (ErrorObject "401 Incorrect API key")
             eq_refl eq_refl eq_refl eq_refl eq_refl eq_refl).
  reflexivity.
Defined.

Lemma semantic_unconfigured_witness :
  snd (@POST Sim.engine
         (@config_of_env Sim.engine
            (env_of [("OPENAI_API_KEY", "sk-test"); ("OPENSEARCH_URL", "//")]))
         Outage.unreachable_world) =
    Normal {| status := 500; body := VObj [("error", VStr "OPENSEARCH_URL not configured. Set it in frontend/.env.local.")] |}.
Proof.
  rewrite (proj2 (@semantic_unconfigured Sim.engine
             (env_of [("OPENAI_API_KEY", "sk-test"); ("OPENSEARCH_URL", "//")])
             Outage.unreachable_world
             Sim.semantic_request (VStr "asdkjalksjd nonsense query")
             eq_refl eq_refl eq_refl)).
  - reflexivity.
  - discriminate.
  - now exists 2.
Defined.

Lemma generation_only_after_retrieval_witness :
  exists question queryVector found shown,
    @Retrieved Sim.engine Sim.semantic_config
      (Sim.semantic_world (Sim.search_reply 200 "" Sim.two_hits)
         (Normal (Sim.generated_text (Some "19.99%"))))
      question queryVector found /\
    1 <= List.length found /\
    @ToString Sim.engine question = Normal shown /\
    chat_params Sim.semantic_config (context Sim.two_hits) "asdkjalksjd nonsense query" =
      chat_params Sim.semantic_config (context found) shown.
Proof.
  apply (@SemanticCalls.generation_only_after_retrieval Sim.engine Sim.semantic_config
           (Sim.semantic_world (Sim.search_reply 200 "" Sim.two_hits)
              (Normal (Sim.generated_text (Some "19.99%"))))).
  cbn. right. right. right. right. left. reflexivity.
Defined.

(** A text of 300 accented letters, 600 bytes and 300 code units, is
    shown whole. *)
Lemma retrieved_docs_excerpts_witness :
  nth_error (retrievedDocs [Sim.hit (CallSpec.times 300 "é") None 0.5%float]) 0 =
    Some (VObj [
      ("rank", VNum (of_nat 1));
      ("score", VNum 0.5%float);
      ("text", VStr (CallSpec.times 300 "é"));
      ("file_path", VStr "unknown")]) /\
  String.length (CallSpec.times 300 "é") = 600.
Proof.
  destruct (SemanticCalls.retrieved_docs_excerpts
              [Sim.hit (CallSpec.times 300 "é") None 0.5%float] 0
              (Sim.hit (CallSpec.times 300 "é") None 0.5%float) eq_refl)
    as (Hnth & _ & Hwhole & _).
  split; [|vm_compute; reflexivity].
  rewrite Hnth, Hwhole; [reflexivity|].
  apply Nat.leb_le. vm_compute. reflexivity.
Defined.

End SemanticFailures.

(** ** The delegate route: the one request to Langflow *)

Module ChatCalls.
Import Js Chat MFacts CallSpec.

Section Route.
Context {engine : Engine}.


(** One request makes at most one call to Langflow, and calls no other
    service. *)
Theorem chat_call_order cfg w :
  services (fst (POST cfg w)) = [] \/ services (fst (POST cfg w)) = [Search].
Proof.
  destruct (POST cfg w) as [tr r] eqn:H.
  unfold POST, reply, success, upstream_error, on_error in H.
  split_handler H; injection H as <- <-; cbn [fst];
    first [left; reflexivity | right; reflexivity].
Qed.


(** A reply of Langflow with a status in 200 to 299 whose body is neither
    an HTML page nor JSON is answered HTTP 502 with a fixed message, after
    the first 500 UTF-16 code units of the body are logged. *)
Theorem chat_invalid_json cfg w message session_id st responseText t :
  Replied cfg w message session_id st responseText ->
  ok_status st = true ->
  isHtml (Str.trim responseText) = false ->
  JSON_parse responseText = Throw t ->
  POST cfg w =
    (List.app (request_trace cfg w message session_id)
       [JsonParse responseText;
        ConsoleError [LogStr "Failed to parse Langflow response:";
                      LogStr (Str.substring16 500 responseText)]],
     Normal {| status := 502; body := VObj [("error", VStr "Invalid JSON response from Langflow")] |}).
Proof.
  intros Hrep Hok Hhtml Hparse. rewrite (ChatFacts.POST_replied _ _ _ _ _ _ Hrep).
  unfold reply, success. rewrite Hhtml, Hok. run. rewrite Hparse. reflexivity.
Qed.

(** When Langflow cannot be reached, or its body cannot be read, the route
    answers HTTP 500 with the message of the error. *)
Theorem chat_unreachable cfg w body message session_id t :
  request_json w = Normal body ->
  get body "message" = Normal message ->
  get body "session_id" = Normal session_id ->
  truthy message = true ->
  and_then
    (fetch w (run_url cfg) (request_headers cfg)
       (JSON_stringify (langflowPayload message (session_of w session_id)) 0))
    response_text = Throw t ->
  snd (POST cfg w) = Normal {| status := 500; body := VObj [("error", VStr (error_message t))] |} /\
  services (fst (POST cfg w)) = [Search].
Proof.
  intros Hbody Hmsg Hsid Htruthy Hfetch.
  unfold POST. run. rewrite Hbody. run. rewrite Hmsg. run. rewrite Hsid. run.
  rewrite Htruthy. run. unfold session_of in Hfetch.
  destruct (truthy session_id); run;
    destruct (fetch w _ _ _) as [resp|t']; cbn [and_then] in Hfetch; run;
    try (injection Hfetch as ->; split; reflexivity);
    rewrite Hfetch; split; reflexivity.
Qed.

End Route.


Lemma chat_invalid_json_witness :
  snd (@POST Sim.engine (Sim.chat_config "") (Sim.chat_world 200 Sim.body_plain)) =
    Normal {| status := 502; body := VObj [("error", VStr "Invalid JSON response from Langflow")] |}.
Proof.
  rewrite (@chat_invalid_json Sim.engine (Sim.chat_config "")
             (Sim.chat_world 200 Sim.body_plain)
             (VStr "What is the APR?") VUndefined 200 Sim.body_plain
             (ErrorObject "Unexpected token in JSON")
             (ChatFacts.sim_replied "" 200 Sim.body_plain) eq_refl eq_refl eq_refl).
  reflexivity.
Defined.

Lemma chat_unreachable_witness :
  snd (@POST Sim.engine (Sim.chat_config "") Outage.langflow_down) =
    Normal {| status := 500; body := VObj [("error", VStr "fetch failed")] |}.
Proof.
  exact (proj1 (@chat_unreachable Sim.engine (Sim.chat_config "") Outage.langflow_down
                  Sim.chat_request (VStr "What is the APR?") VUndefined
                  (ErrorObject "fetch failed")
                  eq_refl eq_refl eq_refl eq_refl eq_refl)).
Defined.

End ChatCalls.

(** ** The page *)

Module PageFacts.
Import Js Page MFacts.

Lemma has_delete (set : list string) (x y : string) :
  has (delete set x) y = has set y && negb (x =? y)%string.
Proof.
  unfold has, delete. induction set as [|z set IH]; [reflexivity|].
  cbn [filter existsb].
  destruct (String.eqb_spec x z) as [->|Hxz]; cbn [negb].
  - rewrite IH. destruct (String.eqb_spec y z) as [->|Hyz]; cbn [orb].
    + rewrite String.eqb_refl. cbn [negb]. now rewrite andb_false_r.
    + reflexivity.
  - cbn [existsb]. rewrite IH.
    destruct (String.eqb_spec y z) as [->|Hyz]; cbn [orb]; [|reflexivity].
    destruct (String.eqb_spec x z) as [E|_]; [contradiction | reflexivity].
Qed.

Lemma has_add (set : list string) (x y : string) :
  has (add set x) y = has set y || (x =? y)%string.
Proof.
  unfold add. destruct (has set x) eqn:Hx.
  - destruct (String.eqb_spec x y) as [->|_]; [now rewrite Hx | now rewrite orb_false_r].
  - unfold has. rewrite existsb_app. cbn [existsb]. rewrite orb_false_r.
    now rewrite (String.eqb_sym y x).
Qed.

Lemma has_toggle (set : list string) (x y : string) :
  has (toggle x set) y = if (x =? y)%string then negb (has set y) else has set y.
Proof.
  unfold toggle. destruct (has set x) eqn:Hx.
  - rewrite has_delete. destruct (String.eqb_spec x y) as [->|_].
    + rewrite Hx. reflexivity.
    + now rewrite andb_true_r.
  - rewrite has_add. destruct (String.eqb_spec x y) as [->|_].
    + rewrite Hx. reflexivity.
    + now rewrite orb_false_r.
Qed.

(** A click on the documents of a message shows them when they were
    hidden and hides them when they were shown, and changes this for no
    other message and nothing else of the state; a second click undoes the
    first; the same holds for the search details. *)
Theorem toggle_membership (st : State) (messageId other : string) :
  has (expandedDocs (toggleDocs messageId st)) other =
    (if (messageId =? other)%string then negb (has (expandedDocs st) other)
     else has (expandedDocs st) other) /\
  has (expandedDocs (toggleDocs messageId (toggleDocs messageId st))) other =
    has (expandedDocs st) other /\
  expandedSearch (toggleDocs messageId st) = expandedSearch st /\
  has (expandedSearch (toggleSearch messageId st)) other =
    (if (messageId =? other)%string then negb (has (expandedSearch st) other)
     else has (expandedSearch st) other) /\
  has (expandedSearch (toggleSearch messageId (toggleSearch messageId st))) other =
    has (expandedSearch st) other /\
  expandedDocs (toggleSearch messageId st) = expandedDocs st /\
  messages (toggleDocs messageId st) = messages st /\
  messages (toggleSearch messageId st) = messages st.
Proof.
  cbn [expandedDocs expandedSearch toggleDocs toggleSearch messages].
  rewrite !has_toggle.
  destruct (messageId =? other)%string; rewrite ?negb_involutive; repeat split.
Qed.

Section Handler.
Context {engine : Engine}.

(** A submission with a blank input (white space of any kind only), or
    while another is loading, changes nothing and sends nothing. Any
    other submission sends exactly one request, to [/api/semantic] in
    semantic mode and to [/api/chat] in hybrid mode, with the trimmed input
    as [message] and the session of the page as [session_id], and ends,
    whatever the route does, with two more messages: first the user's,
    whose content is the trimmed input and whose identifier and time are
    the first drawn, then one from the assistant; the input is cleared
    and the loading flag is off. *)
Theorem submit_exchange (st : State) (w : World) :
  (Str.trim (input st) = "" \/ isLoading st = true ->
   handleSubmit st w = ([PreventDefault], st)) /\
  (Str.trim (input st) <> "" -> isLoading st = false ->
   exists reply,
     handleSubmit st w =
       ([PreventDefault;
         FetchPost
           (match searchMode st with
            | semantic => "/api/semantic"
            | hybrid => "/api/chat"
            end)
           (JSON_stringify
              (VObj [("message", VStr (Str.trim (input st)));
                     ("session_id", VStr (sessionId st))]) 0)],
        {| messages :=
             List.app (messages st)
               [{| id := randomUUID w 0;
                role := user;
                content := VStr (Str.trim (input st));
                timestamp := now w 0;
                searchType := VUndefined;
                retrievedDocs := VUndefined;
                searchInfo := VUndefined |};
                reply];
           input := "";
           isLoading := false;
           sessionId := sessionId st;
           searchMode := searchMode st;
           expandedDocs := expandedDocs st;
           expandedSearch := expandedSearch st |}) /\
     role reply = assistant).
Proof.
  split.
  - intros [H|H]; unfold handleSubmit.
    + apply StrFacts.nonempty_false in H. now rewrite H.
    + rewrite H. now rewrite orb_true_r.
  - intros Hin Hload. apply StrFacts.nonempty_true in Hin.
    unfold handleSubmit. rewrite Hin, Hload. cbn [negb orb].
    eexists. split; [reflexivity|].
    destruct (assistantMessage st w _) as [message|[drawn error]] eqn:E; [|reflexivity].
    unfold assistantMessage in E.
    destruct (fetch w _ _) as [response|t]; [|discriminate E].
    destruct (json response) as [data|t]; [|discriminate E].
    destruct (negb (ok response)).
    + destruct (and_then _ _); discriminate E.
    + destruct data; cbn [get and_then] in E; try discriminate E;
        injection E as <-; reflexivity.
Qed.


End Handler.

End PageFacts.

Module PageScenario.
Import Js Page.


End PageScenario.

Module ScriptScenario.
Import Js IndexScript RunSpec.

(** The script reads the URL of a file that begins with a byte-order
    mark, constructs the client on it and creates the index. *)
Lemma script_requests_witness :
  exists options,
    requests (fst MarkedFile.run) =
      [NewClient options 30000; IndicesCreate "rag_demo" (@index_body 1536%float)] /\
    node options = "https://search.example.com" /\
    snd MarkedFile.run = Finished.
Proof.
  destruct (proj2 (@ScriptFacts.script_requests Sim.engine
                     (fun _ => 1536%float) (fun _ => None) (fun _ => Created)
                     (Some MarkedFile.content) (env_of []))
              MarkedFile.content eq_refl)
    as (raw & url & n & options & k & Hraw & Htrim & _ & _ & Hnode & _ & _ & Hreq & _).
  - intros [n Hn]. vm_compute in Hn. destruct n as [|[|n]]; discriminate Hn.
  - exists options. split; [|split; [|reflexivity]].
    + unfold MarkedFile.run. rewrite Hreq.
      assert (Hlen : List.length
                (requests (fst (@script Sim.engine (fun _ => 1536%float) (fun _ => None)
                                  (fun _ => Created) (Some MarkedFile.content) (env_of []))))
              = 2) by reflexivity.
      rewrite Hreq in Hlen. cbn [List.length] in Hlen. rewrite repeat_length in Hlen.
      assert (k = 1) as -> by lia. reflexivity.
    + assert (Hfirst : hd_error
                (requests (fst (@script Sim.engine (fun _ => 1536%float) (fun _ => None)
                                  (fun _ => Created) (Some MarkedFile.content) (env_of []))))
              = hd_error (requests (fst MarkedFile.run))) by reflexivity.
      rewrite Hreq in Hfirst. vm_compute in Hfirst. injection Hfirst as ->. reflexivity.
Defined.

End ScriptScenario.

(** ** White space outside ASCII *)

Module PaddedScenarios.
Import Js TlsSpec.

(** Outside production an https endpoint behind a no-break space skips
    verification, in the script and in the client module that follows it. *)
Lemma script_tls_precedence_witness :
  CreateIndexJs.getRejectUnauthorized Padded.https_env = false.
Proof.
  apply (proj1 (proj2 (proj2 (TlsFacts.script_tls_precedence Padded.https_env)))).
  - intros (v & H & _). discriminate H.
  - intros (v & H & _). discriminate H.
  - discriminate.
  - exists (Padded.nbsp ++ "HTTPS://search.example.com"), "search.example.com".
    split; reflexivity.
Defined.

Lemma client_tls_precedence_witness :
  OpensearchClientTs.getRejectUnauthorized Padded.https_env = false.
Proof.
  apply (proj1 (proj2 (proj2 (TlsFacts.client_tls_precedence Padded.https_env)))).
  - intros (v & H & _). discriminate H.
  - intros (v & H & _). discriminate H.
  - discriminate.
  - exists (Padded.nbsp ++ "HTTPS://search.example.com"), "search.example.com".
    split; reflexivity.
Defined.

(** An endpoint that is a no-break space is refused as not set. *)
Lemma client_alt_construction_witness :
  SearchClientAlt.getOpenSearchClient ClientOptions EndpointSpec.keep_options
    Padded.blank_env None =
    (Throw (ErrorObject "OPENSEARCH_URL is not set"), None).
Proof.
  apply (proj1 (SearchClientFacts.client_alt_construction ClientOptions
                  EndpointSpec.keep_options Padded.blank_env)).
  now exists 0.
Defined.

(** An input that is a no-break space is not sent. *)
Lemma submit_exchange_witness :
  @Page.handleSubmit Sim.engine Padded.blank_page (PageSim.browser PageSim.answered_42) =
    ([Page.PreventDefault], Padded.blank_page).
Proof.
  apply (proj1 (@PageFacts.submit_exchange Sim.engine Padded.blank_page
                  (PageSim.browser PageSim.answered_42))).
  left. reflexivity.
Defined.

End PaddedScenarios.
